(** * Medical Pool: the lending ledger of [src/App.tsx]

    A shallow embedding of the ledger logic of the single-file React
    application: the utilities ([daysBetween], [formatDate], [todayStr]),
    the root component's mutations ([createAsset], [deleteAsset],
    [updateAsset], [createBorrow], [updateBorrow], [returnBorrow]) and
    counters, the asset form ([submit], [saveEdit] and the quick-add
    handlers), the borrow form ([submit]), the inline edit of the return
    tab, the overdue partition of the dashboard, the report component
    ([filtered], [exportXLSX], [printPDF]), and the persistence
    ([useLocalStorage], [onResetAll]).

    Conventions.
    - A JavaScript string is a [string]: the bytes of its UTF-8 encoding, so
      that [===] on strings is [String.eqb].
    - A [Date] is its time value: [Some t] with [t] the milliseconds since the
      epoch, or [None] for an Invalid Date (time value NaN).  Time values are
      integral; the source subtracts two of them, divides by 86400000 and takes
      [Math.floor] in binary64, which agrees with [Z.div] as long as the
      difference stays below 2^53 ms (some 285000 years), far beyond every
      four-digit year.
    - [null]/[undefined] are [None]; React state is passed explicitly: a
      handler is a function from the component's state to its next state.
    - What the host provides and ECMA-262 leaves to the implementation (the
      fallback of [Date.parse], the locale renderings) or that is out of reach
      of this development ([Number] on strings, a binary64 parser) is the class
      [Runtime].  A JavaScript number that is not a time value or a day count is
      a primitive [float]. *)

From Stdlib Require Import ZArith String Ascii List Bool Lia DecimalString PrimFloat.
From stdpp Require Import list.
Import ListNotations.

#[local] Open Scope string_scope.
#[local] Open Scope Z_scope.

(** ** JavaScript primitives *)
Module Js.

(** [!!s] for a string: only the empty string is falsy. *)
Definition truthy (s : string) : bool := negb (s =? "")%string.

(** [!!v] for a value that is a string, [null] or [undefined]. *)
Definition truthy_opt (v : option string) : bool :=
  match v with
  | Some s => truthy s
  | None => false
  end.

(** [s || ""] for a string. *)
Definition or_empty (s : string) : string := if truthy s then s else "".

(** [a === b] for a string [a] and a value [b] that is a string, [null] or
    [undefined]. *)
Definition eq_opt (a : string) (b : option string) : bool :=
  match b with
  | Some s => (a =? s)%string
  | None => false
  end.

(** [!!n] for a number: zero and NaN are falsy. *)
Definition truthy_num (n : float) : bool :=
  negb (PrimFloat.eqb n 0 || negb (PrimFloat.eqb n n)).

(** Template literals and [Array.prototype.join("")]. *)
Definition cat (parts : list string) : string := String.concat "" parts.

(** [String(n)] for an integral number. *)
Definition String_of_Z (n : Z) : string := NilZero.string_of_int (Z.to_int n).

Definition bytes (l : list nat) : list ascii := ascii_of_nat <$> l.

(** ECMA-262 WhiteSpace and LineTerminator code points, UTF-8 encoded:
    TAB LF VT FF CR SP, U+00A0, U+1680, U+2000..U+200A, U+2028, U+2029,
    U+202F, U+205F, U+3000, U+FEFF. *)
Definition white_space : list (list ascii) :=
  (bytes <$> [[9]; [10]; [11]; [12]; [13]; [32]; [194; 160]; [225; 154; 128]])%nat
  ++ ((fun b => bytes [226; 128; b]) <$> [128; 129; 130; 131; 132; 133; 134; 135; 136; 137; 138; 168; 169; 175])%nat
  ++ (bytes <$> [[226; 129; 159]; [227; 128; 128]; [239; 187; 191]])%nat.

Fixpoint strip (tok s : list ascii) : option (list ascii) :=
  match tok, s with
  | [], _ => Some s
  | c :: tok', d :: s' => if Ascii.eqb c d then strip tok' s' else None
  | _ :: _, [] => None
  end.

Fixpoint strip_any (toks : list (list ascii)) (s : list ascii) : option (list ascii) :=
  match toks with
  | [] => None
  | tok :: toks' =>
      match strip tok s with
      | Some s' => Some s'
      | None => strip_any toks' s
      end
  end.

Fixpoint trim_front (fuel : nat) (toks : list (list ascii)) (s : list ascii) : list ascii :=
  match fuel with
  | O => s
  | S fuel' =>
      match strip_any toks s with
      | Some s' => trim_front fuel' toks s'
      | None => s
      end
  end.

(** [String.prototype.trim]: leading white space goes, then trailing white
    space (the same scan on the reversed bytes). *)
Definition trim (s : string) : string :=
  let cs := list_ascii_of_string s in
  let front := trim_front (length cs) white_space cs in
  let back := trim_front (length front) (reverse <$> white_space) (reverse front) in
  string_of_list_ascii (reverse back).

(** *** Dates *)

Definition msPerDay : Z := 86400000.

Definition digit (c : ascii) : option Z :=
  let n := Z.of_nat (nat_of_ascii c) in
  if (48 <=? n) && (n <=? 57) then Some (n - 48) else None.

Fixpoint number_of (acc : Z) (cs : list ascii) : option Z :=
  match cs with
  | [] => Some acc
  | c :: cs' => d ← digit c; number_of (10 * acc + d) cs'
  end.

Definition InLeapYear (y : Z) : bool :=
  (y mod 4 =? 0) && (negb (y mod 100 =? 0) || (y mod 400 =? 0)).

Definition DaysInMonth (y m : Z) : Z :=
  if m =? 2 then (if InLeapYear y then 29 else 28)
  else if (m =? 4) || (m =? 6) || (m =? 9) || (m =? 11) then 30
  else 31.

(** ECMA-262 DayFromYear. *)
Definition DayFromYear (y : Z) : Z :=
  365 * (y - 1970) + (y - 1969) / 4 - (y - 1901) / 100 + (y - 1601) / 400.

Fixpoint days_before (y m : Z) (k : nat) : Z :=
  match k with
  | O => 0
  | S k' => days_before y m k' + (if Z.of_nat k <? m then DaysInMonth y (Z.of_nat k) else 0)
  end.

(** ECMA-262 MakeDay for a month in 1..12 and a day of that month. *)
Definition MakeDay (y m d : Z) : Z :=
  DayFromYear y + days_before y m 12 + (d - 1).

Definition iso_day (y1 y2 y3 y4 m1 m2 d1 d2 : ascii) : option Z :=
  y ← number_of 0 [y1; y2; y3; y4];
  m ← number_of 0 [m1; m2];
  d ← number_of 0 [d1; d2];
  if (1 <=? m) && (m <=? 12) && (1 <=? d) && (d <=? DaysInMonth y m)
  then Some (MakeDay y m d) else None.

Definition iso_time (h1 h2 n1 n2 s1 s2 f1 f2 f3 : ascii) : option Z :=
  h ← number_of 0 [h1; h2];
  n ← number_of 0 [n1; n2];
  s ← number_of 0 [s1; s2];
  f ← number_of 0 [f1; f2; f3];
  if (h <=? 23) && (n <=? 59) && (s <=? 59)
  then Some (((h * 60 + n) * 60 + s) * 1000 + f) else None.

(** The two shapes of the ECMA-262 Date Time String Format that the
    application itself produces: the date-only form [YYYY-MM-DD] of a date
    input (UTC midnight) and the form [YYYY-MM-DDTHH:mm:ss.sssZ] of
    [toISOString].  Their value is fixed by the standard. *)
Definition parse_iso (s : string) : option Z :=
  match list_ascii_of_string s with
  | [y1; y2; y3; y4; "-"; m1; m2; "-"; d1; d2]%char =>
      day ← iso_day y1 y2 y3 y4 m1 m2 d1 d2;
      Some (day * msPerDay)
  | [y1; y2; y3; y4; "-"; m1; m2; "-"; d1; d2; "T";
     h1; h2; ":"; n1; n2; ":"; s1; s2; "."; f1; f2; f3; "Z"]%char =>
      day ← iso_day y1 y2 y3 y4 m1 m2 d1 d2;
      ms ← iso_time h1 h2 n1 n2 s1 s2 f1 f2 f3;
      Some (day * msPerDay + ms)
  | _ => None
  end.

(** Year, month and day of a day number (proleptic Gregorian calendar). *)
Definition civil (day : Z) : Z * Z * Z :=
  let z := day + 719468 in
  let era := z / 146097 in
  let doe := z - era * 146097 in
  let yoe := (doe - doe / 1460 + doe / 36524 - doe / 146096) / 365 in
  let doy := doe - (365 * yoe + yoe / 4 - yoe / 100) in
  let mp := (5 * doy + 2) / 153 in
  let d := doy - (153 * mp + 2) / 5 + 1 in
  let m := if mp <? 10 then mp + 3 else mp - 9 in
  let y := yoe + era * 400 + (if m <=? 2 then 1 else 0) in
  (y, m, d).

Fixpoint pad_digits (width : nat) (n : Z) : list ascii :=
  match width with
  | O => []
  | S w => pad_digits w (n / 10) ++ [ascii_of_nat (48 + Z.to_nat (n mod 10))]
  end.

Definition pad (width : nat) (n : Z) : string :=
  string_of_list_ascii (pad_digits width n).

(** [Date.prototype.toISOString] of a valid time value. *)
Definition toISOString (t : Z) : string :=
  let '(y, m, d) := civil (t / msPerDay) in
  let ms := t mod msPerDay in
  let year :=
    if (0 <=? y) && (y <=? 9999) then pad 4 y
    else cat [if y <? 0 then "-" else "+"; pad 6 (Z.abs y)] in
  cat [year; "-"; pad 2 m; "-"; pad 2 d; "T";
       pad 2 (ms / 3600000); ":"; pad 2 (ms / 60000 mod 60); ":";
       pad 2 (ms / 1000 mod 60); "."; pad 3 (ms mod 1000); "Z"].

End Js.

(** ** The host *)

(** What the program takes from its host.  [Date_parse_other] is the
    implementation-specific fallback of [Date.parse] on the strings that
    [Js.parse_iso] does not cover; [toLocaleDateString] and [toLocaleString]
    render a valid time value in the user's locale. *)
Class Runtime := {
  Date_parse_other : string -> option Z;
  toLocaleDateString : Z -> string;
  toLocaleString : Z -> string;
  Number : string -> float;
}.

(** A [Date] object: its time value, [None] when it is NaN. *)
Definition Date : Type := option Z.

(** The argument of [new Date(b)] for [b: string | Date]. *)
Inductive DateArg :=
| OfString (s : string)
| OfDate (d : Date).

Section Utils.
Context `{Runtime}.

(** [new Date(s)] for a string. *)
Definition new_Date (s : string) : Date :=
  match Js.parse_iso s with
  | Some t => Some t
  | None => Date_parse_other s
  end.

(** [new Date(b)] for a string or a [Date] (whose time value is copied). *)
Definition new_Date_of (b : DateArg) : Date :=
  match b with
  | OfString s => new_Date s
  | OfDate d => d
  end.

(** [const isValidDate = (d: any) => d instanceof Date && !isNaN(d.getTime())] *)
Definition isValidDate (d : Date) : bool :=
  match d with
  | Some _ => true
  | None => false
  end.

(** [d.getTime()]; the program reads it on valid dates only, where it is
    the time value. *)
Definition getTime (d : Date) : Z := default 0 d.

(** [formatDate]: [""] for a falsy or unparseable argument. *)
Definition formatDate (d : option string) : string :=
  match d with
  | None => ""
  | Some s =>
      if negb (Js.truthy s) then ""
      else
        match new_Date s with
        | Some t => toLocaleDateString t
        | None => ""
        end
  end.

(** [daysBetween(a, b = new Date())]: the caller passes [OfDate (Some now)]
    for the default.
<<
const d1 = new Date(a), d2 = new Date(b);
if (!isValidDate(d1) || !isValidDate(d2)) return 0;
return Math.floor((d2.getTime() - d1.getTime()) / 86400000);
>> *)
Definition daysBetween (a : string) (b : DateArg) : Z :=
  let d1 := new_Date a in
  let d2 := new_Date_of b in
  if negb (isValidDate d1) || negb (isValidDate d2) then 0
  else (getTime d2 - getTime d1) / 86400000.

(** [daysBetween(a)]: the second argument defaults to [new Date()], the
    current instant [now]. *)
Definition daysBetween_now (now : Z) (a : string) : Z :=
  daysBetween a (OfDate (Some now)).

End Utils.

(** ** Data model *)

(** An asset as [Assets.submit] builds it: the form's strings, and a price
    that is a number or [null]. *)
Module Asset.
Record t := mk {
  asset_id : string;
  id_code : string;
  name : string;
  brand : string;
  model : string;
  vendor : string;
  serial : string;
  purchase_date : string;
  price : option float;
}.
End Asset.

(** The [price] of an edit form: absent, the text of the input, or the
    number the asset carried. *)
Inductive PriceInput :=
| PriceUndefined
| PriceText (s : string)
| PriceNumber (n : float).

(** A partial asset: the edit form of the asset table ([{}] is [empty]) and,
    with its price normalised, the patch handed to [updateAsset]. *)
Module AssetPatch.
Record t (P : Type) := mk {
  asset_id : option string;
  id_code : option string;
  name : option string;
  brand : option string;
  model : option string;
  vendor : option string;
  serial : option string;
  purchase_date : option string;
  price : P;
}.
Arguments mk {P}.
Arguments asset_id {P}.
Arguments id_code {P}.
Arguments name {P}.
Arguments brand {P}.
Arguments model {P}.
Arguments vendor {P}.
Arguments serial {P}.
Arguments purchase_date {P}.
Arguments price {P}.
End AssetPatch.

(** A borrow record as [Borrow.submit] builds it; [end_date] and
    [returned_at] are a string or [null]. *)
Module BorrowRecord.
Record t := mk {
  id : string;
  asset_id : string;
  asset_name : string;
  peripherals : string;
  lender_name : string;
  start_date : string;
  end_date : option string;
  borrower_name : string;
  borrower_dept : string;
  returned_at : option string;
  borrower_sign : string;
  created_at : string;
}.
End BorrowRecord.

(** A partial borrow record, the [patch] of [updateBorrow]: [None] for a key
    the patch does not have. *)
Module BorrowPatch.
Record t := mk {
  id : option string;
  asset_id : option string;
  asset_name : option string;
  peripherals : option string;
  lender_name : option string;
  start_date : option string;
  end_date : option (option string);
  borrower_name : option string;
  borrower_dept : option string;
  returned_at : option (option string);
  borrower_sign : option string;
  created_at : option string;
}.
Definition empty : t :=
  mk None None None None None None None None None None None None.
End BorrowPatch.

(** A [models] entry. *)
Module Model.
Record t := mk { brand : string; name : string }.
End Model.

(** ** The root component [App] *)
Module App.

(** [{ ...a, ...patch }] on assets. *)
Definition merge_asset (a : Asset.t) (patch : AssetPatch.t (option (option float))) : Asset.t :=
  Asset.mk
    (default (Asset.asset_id a) (AssetPatch.asset_id patch))
    (default (Asset.id_code a) (AssetPatch.id_code patch))
    (default (Asset.name a) (AssetPatch.name patch))
    (default (Asset.brand a) (AssetPatch.brand patch))
    (default (Asset.model a) (AssetPatch.model patch))
    (default (Asset.vendor a) (AssetPatch.vendor patch))
    (default (Asset.serial a) (AssetPatch.serial patch))
    (default (Asset.purchase_date a) (AssetPatch.purchase_date patch))
    (default (Asset.price a) (AssetPatch.price patch)).

(** [{ ...b, ...patch }] on borrow records. *)
Definition merge_borrow (b : BorrowRecord.t) (patch : BorrowPatch.t) : BorrowRecord.t :=
  BorrowRecord.mk
    (default (BorrowRecord.id b) (BorrowPatch.id patch))
    (default (BorrowRecord.asset_id b) (BorrowPatch.asset_id patch))
    (default (BorrowRecord.asset_name b) (BorrowPatch.asset_name patch))
    (default (BorrowRecord.peripherals b) (BorrowPatch.peripherals patch))
    (default (BorrowRecord.lender_name b) (BorrowPatch.lender_name patch))
    (default (BorrowRecord.start_date b) (BorrowPatch.start_date patch))
    (default (BorrowRecord.end_date b) (BorrowPatch.end_date patch))
    (default (BorrowRecord.borrower_name b) (BorrowPatch.borrower_name patch))
    (default (BorrowRecord.borrower_dept b) (BorrowPatch.borrower_dept patch))
    (default (BorrowRecord.returned_at b) (BorrowPatch.returned_at patch))
    (default (BorrowRecord.borrower_sign b) (BorrowPatch.borrower_sign patch))
    (default (BorrowRecord.created_at b) (BorrowPatch.created_at patch)).

(** The mutations: each is [setX(prev => ...)] followed by [return true];
    the pair is the returned flag and the next collection. *)

(** [setAssets(prev => [payload, ...prev])] *)
Definition createAsset (payload : Asset.t) (prev : list Asset.t) : bool * list Asset.t :=
  (true, payload :: prev).

(** [setAssets(prev => prev.filter(a => a.asset_id !== id))] *)
Definition deleteAsset (id : string) (prev : list Asset.t) : bool * list Asset.t :=
  (true, filter (fun a => negb (Asset.asset_id a =? id)%string) prev).

(** [setAssets(prev => prev.map(a => a.asset_id === id ? { ...a, ...patch } : a))];
    [saveEdit] passes its [editingId], which may be [null]. *)
Definition updateAsset (id : option string) (patch : AssetPatch.t (option (option float)))
    (prev : list Asset.t) : bool * list Asset.t :=
  (true, (fun a => if Js.eq_opt (Asset.asset_id a) id then merge_asset a patch else a) <$> prev).

(** [setBorrows(prev => [record, ...prev])] *)
Definition createBorrow (record : BorrowRecord.t) (prev : list BorrowRecord.t)
    : bool * list BorrowRecord.t :=
  (true, record :: prev).

(** [setBorrows(prev => prev.map(b => b.id === id ? { ...b, ...patch } : b))] *)
Definition updateBorrow (id : string) (patch : BorrowPatch.t) (prev : list BorrowRecord.t)
    : bool * list BorrowRecord.t :=
  (true, (fun b => if (BorrowRecord.id b =? id)%string then merge_borrow b patch else b) <$> prev).

(** [const ts = new Date().toISOString();
     setBorrows(prev => prev.map(b => b.id === id ? { ...b, returned_at: ts } : b))] *)
Definition returnBorrow (now : Z) (id : string) (prev : list BorrowRecord.t)
    : bool * list BorrowRecord.t :=
  let ts := Js.toISOString now in
  (true,
   (fun b =>
      if (BorrowRecord.id b =? id)%string
      then merge_borrow b (BorrowPatch.mk None None None None None None None None None
                             (Some (Some ts)) None None)
      else b) <$> prev).

Section Derived.
Context `{Runtime}.

(** [borrows.filter(b => !b.returned_at)] *)
Definition active (borrows : list BorrowRecord.t) : list BorrowRecord.t :=
  filter (fun b => negb (Js.truthy_opt (BorrowRecord.returned_at b))) borrows.

(** [active.map(b => b.asset_id)] *)
Definition activeIds (borrows : list BorrowRecord.t) : list string :=
  BorrowRecord.asset_id <$> active borrows.

(** [active.filter(b => daysBetween(b.start_date) >= 14).length] *)
Definition overdueCount (now : Z) (borrows : list BorrowRecord.t) : nat :=
  length (filter (fun b => 14 <=? daysBetween_now now (BorrowRecord.start_date b))
            (active borrows)).
End Derived.

End App.

(** ** The [Dashboard] component *)
Module Dashboard.
Section Dashboard.
Context `{Runtime}.

(** [active.filter(b => daysBetween(b.start_date) >= 14)] *)
Definition overdue (now : Z) (active : list BorrowRecord.t) : list BorrowRecord.t :=
  filter (fun b => 14 <=? daysBetween_now now (BorrowRecord.start_date b)) active.

(** [active.filter(b => daysBetween(b.start_date) < 14)] *)
Definition normal (now : Z) (active : list BorrowRecord.t) : list BorrowRecord.t :=
  filter (fun b => daysBetween_now now (BorrowRecord.start_date b) <? 14) active.
End Dashboard.
End Dashboard.

(** ** The [Assets] component: registration and inline edit *)
Module Assets.

(** The registration form: nine text inputs. *)
Record Form := mkForm {
  asset_id : string;
  id_code : string;
  name : string;
  brand : string;
  model : string;
  vendor : string;
  serial : string;
  purchase_date : string;
  price : string;
}.

Definition blank : Form := mkForm "" "" "" "" "" "" "" "" "".

Definition EditForm : Type := AssetPatch.t PriceInput.

(** [{}] *)
Definition empty : EditForm :=
  AssetPatch.mk None None None None None None None None PriceUndefined.

(** The props the component reads ([brands], [models], [vendors],
    [assets]: state of [App], written through the setters and callbacks it
    is given) and its own state; [alerts] logs the calls of [alert]. *)
Record State := mkState {
  brands : list string;
  models : list Model.t;
  vendors : list string;
  assets : list Asset.t;
  form : Form;
  err : string;
  editingId : option string;
  editForm : EditForm;
  addingBrand : bool;
  newBrand : string;
  addingModel : bool;
  newModel : string;
  addingVendor : bool;
  newVendor : string;
  alerts : list string;
}.

Definition setBrands (v : list string) (st : State) : State :=
  let '(mkState _ b c d e f g h i j k l m n o) := st in mkState v b c d e f g h i j k l m n o.
Definition setModels (v : list Model.t) (st : State) : State :=
  let '(mkState a _ c d e f g h i j k l m n o) := st in mkState a v c d e f g h i j k l m n o.
Definition setVendors (v : list string) (st : State) : State :=
  let '(mkState a b _ d e f g h i j k l m n o) := st in mkState a b v d e f g h i j k l m n o.
Definition setAssets (v : list Asset.t) (st : State) : State :=
  let '(mkState a b c _ e f g h i j k l m n o) := st in mkState a b c v e f g h i j k l m n o.
Definition setForm (v : Form) (st : State) : State :=
  let '(mkState a b c d _ f g h i j k l m n o) := st in mkState a b c d v f g h i j k l m n o.
Definition setErr (v : string) (st : State) : State :=
  let '(mkState a b c d e _ g h i j k l m n o) := st in mkState a b c d e v g h i j k l m n o.
Definition setEditingId (v : option string) (st : State) : State :=
  let '(mkState a b c d e f _ h i j k l m n o) := st in mkState a b c d e f v h i j k l m n o.
Definition setEditForm (v : EditForm) (st : State) : State :=
  let '(mkState a b c d e f g _ i j k l m n o) := st in mkState a b c d e f g v i j k l m n o.
Definition setAddingBrand (v : bool) (st : State) : State :=
  let '(mkState a b c d e f g h _ j k l m n o) := st in mkState a b c d e f g h v j k l m n o.
Definition setNewBrand (v : string) (st : State) : State :=
  let '(mkState a b c d e f g h i _ k l m n o) := st in mkState a b c d e f g h i v k l m n o.
Definition setAddingModel (v : bool) (st : State) : State :=
  let '(mkState a b c d e f g h i j _ l m n o) := st in mkState a b c d e f g h i j v l m n o.
Definition setNewModel (v : string) (st : State) : State :=
  let '(mkState a b c d e f g h i j k _ m n o) := st in mkState a b c d e f g h i j k v m n o.
Definition setAddingVendor (v : bool) (st : State) : State :=
  let '(mkState a b c d e f g h i j k l _ n o) := st in mkState a b c d e f g h i j k l v n o.
Definition setNewVendor (v : string) (st : State) : State :=
  let '(mkState a b c d e f g h i j k l m _ o) := st in mkState a b c d e f g h i j k l m v o.
Definition alert (msg : string) (st : State) : State :=
  let '(mkState a b c d e f g h i j k l m n o) := st in mkState a b c d e f g h i j k l m n (o ++ [msg]).

(** [{ ...form, brand: v, model: "" }] and its neighbours. *)
Definition with_brand (v : string) (f : Form) : Form :=
  mkForm (asset_id f) (id_code f) (name f) v "" (vendor f) (serial f) (purchase_date f) (price f).
Definition with_model (v : string) (f : Form) : Form :=
  mkForm (asset_id f) (id_code f) (name f) (brand f) v (vendor f) (serial f) (purchase_date f) (price f).
Definition with_vendor (v : string) (f : Form) : Form :=
  mkForm (asset_id f) (id_code f) (name f) (brand f) (model f) v (serial f) (purchase_date f) (price f).

(** [{ ...p, brand: v, model: "" }] and its neighbours on the edit form. *)
Definition edit_with_brand (v : string) (p : EditForm) : EditForm :=
  AssetPatch.mk (AssetPatch.asset_id p) (AssetPatch.id_code p) (AssetPatch.name p) (Some v) (Some "")
    (AssetPatch.vendor p) (AssetPatch.serial p) (AssetPatch.purchase_date p) (AssetPatch.price p).
Definition edit_with_model (v : string) (p : EditForm) : EditForm :=
  AssetPatch.mk (AssetPatch.asset_id p) (AssetPatch.id_code p) (AssetPatch.name p) (AssetPatch.brand p)
    (Some v) (AssetPatch.vendor p) (AssetPatch.serial p) (AssetPatch.purchase_date p) (AssetPatch.price p).
Definition edit_with_vendor (v : string) (p : EditForm) : EditForm :=
  AssetPatch.mk (AssetPatch.asset_id p) (AssetPatch.id_code p) (AssetPatch.name p) (AssetPatch.brand p)
    (AssetPatch.model p) (Some v) (AssetPatch.serial p) (AssetPatch.purchase_date p) (AssetPatch.price p).

(** The inline inputs of the asset row:
    [setEditForm((p:any)=>({...p, asset_id:v}))] and its neighbours. *)
Definition edit_with_asset_id (v : string) (p : EditForm) : EditForm :=
  AssetPatch.mk (Some v) (AssetPatch.id_code p) (AssetPatch.name p) (AssetPatch.brand p)
    (AssetPatch.model p) (AssetPatch.vendor p) (AssetPatch.serial p) (AssetPatch.purchase_date p)
    (AssetPatch.price p).
Definition edit_with_id_code (v : string) (p : EditForm) : EditForm :=
  AssetPatch.mk (AssetPatch.asset_id p) (Some v) (AssetPatch.name p) (AssetPatch.brand p)
    (AssetPatch.model p) (AssetPatch.vendor p) (AssetPatch.serial p) (AssetPatch.purchase_date p)
    (AssetPatch.price p).
Definition edit_with_name (v : string) (p : EditForm) : EditForm :=
  AssetPatch.mk (AssetPatch.asset_id p) (AssetPatch.id_code p) (Some v) (AssetPatch.brand p)
    (AssetPatch.model p) (AssetPatch.vendor p) (AssetPatch.serial p) (AssetPatch.purchase_date p)
    (AssetPatch.price p).
Definition edit_with_serial (v : string) (p : EditForm) : EditForm :=
  AssetPatch.mk (AssetPatch.asset_id p) (AssetPatch.id_code p) (AssetPatch.name p) (AssetPatch.brand p)
    (AssetPatch.model p) (AssetPatch.vendor p) (Some v) (AssetPatch.purchase_date p)
    (AssetPatch.price p).

(** [list.includes(v)] on strings. *)
Definition includes (l : list string) (v : string) : bool :=
  existsb (fun x => (x =? v)%string) l.

(**
<<
const v = newBrand.trim(); if (!v) return;
if (!brands.includes(v)) setBrands([...brands, v]);
if (editingId) setEditForm((p: any) => ({ ...p, brand: v, model: "" }));
else setForm({ ...form, brand: v, model: "" });
setNewBrand(""); setAddingBrand(false);
>> *)
Definition confirmAddBrand (st : State) : State :=
  let v := Js.trim (newBrand st) in
  if negb (Js.truthy v) then st
  else
    let st := if negb (includes (brands st) v) then setBrands (brands st ++ [v]) st else st in
    let st :=
      if Js.truthy_opt (editingId st) then setEditForm (edit_with_brand v (editForm st)) st
      else setForm (with_brand v (form st)) st in
    setAddingBrand false (setNewBrand "" st).

(**
<<
const currentBrand = editingId ? editForm.brand : form.brand;
if (!currentBrand) return alert(...);
const v = newModel.trim(); if (!v) return;
if (!models.find((m: any) => m.name === v && m.brand === currentBrand))
  setModels([...models, { brand: currentBrand, name: v }]);
if (editingId) setEditForm((p: any) => ({ ...p, model: v })); else setForm({ ...form, model: v });
setNewModel(""); setAddingModel(false);
>> *)
Definition confirmAddModel (st : State) : State :=
  let currentBrand :=
    if Js.truthy_opt (editingId st) then AssetPatch.brand (editForm st)
    else Some (brand (form st)) in
  if negb (Js.truthy_opt currentBrand) then alert "เลือกยี่ห้อก่อน" st
  else
    let currentBrand := default "" currentBrand in
    let v := Js.trim (newModel st) in
    if negb (Js.truthy v) then st
    else
      let st :=
        match List.find (fun m => (Model.name m =? v)%string && (Model.brand m =? currentBrand)%string)
                (models st) with
        | None => setModels (models st ++ [Model.mk currentBrand v]) st
        | Some _ => st
        end in
      let st :=
        if Js.truthy_opt (editingId st) then setEditForm (edit_with_model v (editForm st)) st
        else setForm (with_model v (form st)) st in
      setAddingModel false (setNewModel "" st).

(**
<<
const v = newVendor.trim(); if (!v) return;
if (!vendors.includes(v)) setVendors([...vendors, v]);
if (editingId) setEditForm((p: any) => ({ ...p, vendor: v })); else setForm({ ...form, vendor: v });
setNewVendor(""); setAddingVendor(false);
>> *)
Definition confirmAddVendor (st : State) : State :=
  let v := Js.trim (newVendor st) in
  if negb (Js.truthy v) then st
  else
    let st := if negb (includes (vendors st) v) then setVendors (vendors st ++ [v]) st else st in
    let st :=
      if Js.truthy_opt (editingId st) then setEditForm (edit_with_vendor v (editForm st)) st
      else setForm (with_vendor v (form st)) st in
    setAddingVendor false (setNewVendor "" st).

Definition err_required : string := "กรอก Asset ID / ID CODE / ชื่อ / Serial".
Definition err_asset_id : string := "Asset ID ซ้ำ".
Definition err_id_code : string := "ID CODE ซ้ำ".
Definition err_serial : string := "Serial ซ้ำ".

Section Handlers.
Context `{Runtime}.

(** [{ ...f, price: f.price ? Number(f.price) : null }] for the form. *)
Definition payload_of (f : Form) : Asset.t :=
  Asset.mk (asset_id f) (id_code f) (name f) (brand f) (model f) (vendor f) (serial f)
    (purchase_date f) (if Js.truthy (price f) then Some (Number (price f)) else None).

(** [Assets.submit]:
<<
e.preventDefault(); setErr("");
const f = form as any;
if (!f.asset_id || !f.id_code || !f.name || !f.serial) return setErr(...);
if (assets.some((a: any) => a.asset_id === f.asset_id)) return setErr(...);
if (assets.some((a: any) => a.id_code === f.id_code)) return setErr(...);
if (assets.some((a: any) => a.serial === f.serial)) return setErr(...);
const payload = { ...f, price: f.price ? Number(f.price) : null };
const ok = await onCreateAsset(payload); if (ok) { setForm({ ...blank }); }
>> *)
Definition submit (st : State) : State :=
  let st := setErr "" st in
  let f := form st in
  if negb (Js.truthy (asset_id f)) || negb (Js.truthy (id_code f))
     || negb (Js.truthy (name f)) || negb (Js.truthy (serial f))
  then setErr err_required st
  else if existsb (fun a => (Asset.asset_id a =? asset_id f)%string) (assets st)
  then setErr err_asset_id st
  else if existsb (fun a => (Asset.id_code a =? id_code f)%string) (assets st)
  then setErr err_id_code st
  else if existsb (fun a => (Asset.serial a =? serial f)%string) (assets st)
  then setErr err_serial st
  else
    let payload := payload_of f in
    let '(ok, assets') := App.createAsset payload (assets st) in
    let st := setAssets assets' st in
    if ok then setForm blank st else st.

(** Registering a payload: the form holds it and is submitted. *)
Definition registerAsset (st : State) (payload : Form) : State :=
  submit (setForm payload st).

(** [startEdit] of the asset row:
    [setEditingId(row.asset_id); setEditForm({ ...row, price: row.price ?? "" })] *)
Definition startEdit (row : Asset.t) (st : State) : State :=
  setEditForm
    (AssetPatch.mk (Some (Asset.asset_id row)) (Some (Asset.id_code row)) (Some (Asset.name row))
       (Some (Asset.brand row)) (Some (Asset.model row)) (Some (Asset.vendor row))
       (Some (Asset.serial row)) (Some (Asset.purchase_date row))
       (match Asset.price row with
        | Some n => PriceNumber n
        | None => PriceText ""
        end))
    (setEditingId (Some (Asset.asset_id row)) st).

(** [setEditingId(null); setEditForm({})] *)
Definition cancelEdit (st : State) : State :=
  setEditForm empty (setEditingId None st).

(** [f.price ? Number(f.price) : null] for the edit form's price. *)
Definition normalise_price (p : PriceInput) : option float :=
  match p with
  | PriceUndefined => None
  | PriceText s => if Js.truthy s then Some (Number s) else None
  | PriceNumber n => if Js.truthy_num n then Some n else None
  end.

(** [{ ...f, price: f.price ? Number(f.price) : null }] for the edit form. *)
Definition patch_of (f : EditForm) : AssetPatch.t (option (option float)) :=
  AssetPatch.mk (AssetPatch.asset_id f) (AssetPatch.id_code f) (AssetPatch.name f)
    (AssetPatch.brand f) (AssetPatch.model f) (AssetPatch.vendor f) (AssetPatch.serial f)
    (AssetPatch.purchase_date f) (Some (normalise_price (AssetPatch.price f))).

(** [a.asset_id !== editingId] *)
Definition other_than (editingId : option string) (a : Asset.t) : bool :=
  negb (Js.eq_opt (Asset.asset_id a) editingId).

(** [Assets.saveEdit]:
<<
const f = editForm;
if (!f.asset_id || !f.id_code || !f.name || !f.serial) return setErr(...);
if (assets.some((a: any) => a.asset_id === f.asset_id && a.asset_id !== editingId)) return setErr(...);
if (assets.some((a: any) => a.id_code === f.id_code && a.asset_id !== editingId)) return setErr(...);
if (assets.some((a: any) => a.serial === f.serial && a.asset_id !== editingId)) return setErr(...);
await onUpdateAsset(editingId, { ...f, price: f.price ? Number(f.price) : null });
setEditingId(null); setEditForm({});
>> *)
Definition saveEdit (st : State) : State :=
  let f := editForm st in
  if negb (Js.truthy_opt (AssetPatch.asset_id f)) || negb (Js.truthy_opt (AssetPatch.id_code f))
     || negb (Js.truthy_opt (AssetPatch.name f)) || negb (Js.truthy_opt (AssetPatch.serial f))
  then setErr err_required st
  else if existsb (fun a => Js.eq_opt (Asset.asset_id a) (AssetPatch.asset_id f)
                            && other_than (editingId st) a) (assets st)
  then setErr err_asset_id st
  else if existsb (fun a => Js.eq_opt (Asset.id_code a) (AssetPatch.id_code f)
                            && other_than (editingId st) a) (assets st)
  then setErr err_id_code st
  else if existsb (fun a => Js.eq_opt (Asset.serial a) (AssetPatch.serial f)
                            && other_than (editingId st) a) (assets st)
  then setErr err_serial st
  else
    let '(_, assets') := App.updateAsset (editingId st) (patch_of f) (assets st) in
    setEditForm empty (setEditingId None (setAssets assets' st)).

End Handlers.
End Assets.

(** ** The [Borrow] component: the department quick-add *)
Module Borrow.

Record Form := mkForm {
  peripherals : string;
  lender_name : string;
  start_date : string;
  end_date : string;
  borrower_name : string;
  borrower_dept : string;
}.

(** The [depts] prop (state of [App]) and the part of the component's own
    state that the quick-add touches. *)
Record State := mkState {
  depts : list string;
  form : Form;
  addingDept : bool;
  newDept : string;
}.

(**
<<
const v = newDept.trim(); if (!v) return;
if (!depts.includes(v)) setDepts([...depts, v]);
setForm({ ...form, borrower_dept: v });
setNewDept(""); setAddingDept(false);
>> *)
Definition confirmAddDept (st : State) : State :=
  let v := Js.trim (newDept st) in
  if negb (Js.truthy v) then st
  else
    let depts' := if negb (Assets.includes (depts st) v) then (depts st ++ [v])%list else depts st in
    let f := form st in
    mkState depts'
      (mkForm (peripherals f) (lender_name f) (start_date f) (end_date f) (borrower_name f) v)
      false "".

End Borrow.

(** ** The [Report] component: filter and exports *)

(** [a < b] and [a > b] on [Date] objects: the time values are compared, and
    a comparison with NaN is false. *)
Definition Date_lt (a b : Date) : bool :=
  match a, b with
  | Some x, Some y => x <? y
  | _, _ => false
  end.

Definition Date_gt (a b : Date) : bool :=
  match a, b with
  | Some x, Some y => y <? x
  | _, _ => false
  end.

Module Report.

(** A cell of the array-of-arrays handed to [XLSX.utils.aoa_to_sheet]. *)
Inductive Cell :=
| Text (s : string)
| Num (n : Z).

(** What an export hands to the browser: the workbook written by
    [XLSX.writeFile] (its sheet name, rows, column widths and merged
    ranges), or a downloaded [Blob]. *)
Inductive File :=
| Workbook (filename sheet : string) (aoa : list (list Cell)) (cols : list Z)
    (merges : list (Z * Z * (Z * Z)))
| Blob (filename mime content : string).

(** How the SheetJS library behaves when [exportXLSX] asks for it:
    [loadXLSX] rejects, the loaded object has no [utils], building or
    writing the workbook throws, or all of it works. *)
Inductive Library :=
| LoadFails
| NoUtils
| WriteThrows
| Ready.

(** The effects of one run of [exportXLSX]: the final [xlLoading], every
    [setXlNote] in order (the timers that later clear the note are not part
    of the run), and the files produced. *)
Record Outcome := mkOutcome {
  xlLoading : bool;
  notes : list string;
  files : list File;
}.


Definition dq : string := String (ascii_of_nat 34) "".
Definition nl : string := String (ascii_of_nat 10) "".

Definition headers : list string :=
  ["Asset ID"; "ชื่อเครื่อง"; "ผู้ยืม"; "แผนก"; "ผู้ให้ยืม"; "เริ่มยืม"; "กำหนดคืน"; "คืนจริง";
   "ระยะเวลา(วัน)"; "ลายเซ็น"].

Definition note_empty : string := "ไม่มีข้อมูลตามตัวกรองที่จะส่งออก".
Definition note_loading : string := "กำลังโหลดไลบรารี Excel...".
Definition note_load_failed : string := "โหลด XLSX ไม่สำเร็จ กำลังใช้ไฟล์สำรอง .xls".
Definition note_no_utils : string := "XLSX ใช้งานไม่ได้ กำลังใช้ไฟล์สำรอง .xls".
Definition note_write_failed : string := "สร้าง .xlsx ไม่ได้ กำลังใช้ไฟล์สำรอง .xls".




Section Report.
Context `{Runtime}.

(** The predicate of [filtered]:
<<
const sd = new Date(r.start_date);
if (from && sd < new Date(from)) return false;
if (to && sd > new Date(to)) return false;
if (dept && (r.borrower_dept || "") !== dept) return false;
return true;
>> *)
Definition keeps (from to dept : string) (r : BorrowRecord.t) : bool :=
  let sd := new_Date (BorrowRecord.start_date r) in
  if Js.truthy from && Date_lt sd (new_Date from) then false
  else if Js.truthy to && Date_gt sd (new_Date to) then false
  else if Js.truthy dept && negb (Js.or_empty (BorrowRecord.borrower_dept r) =? dept)%string
  then false
  else true.

(** [borrows.filter(r => ...)] *)
Definition filtered (from to dept : string) (borrows : list BorrowRecord.t)
    : list BorrowRecord.t :=
  filter (fun r => keeps from to dept r) borrows.

(** [r.end_date ? formatDate(r.end_date) : ""], also for [returned_at]. *)
Definition date_or_blank (d : option string) : string :=
  if Js.truthy_opt d then formatDate d else "".

(** [r.returned_at ? daysBetween(r.start_date, r.returned_at)
                   : daysBetween(r.start_date)] *)
Definition duration (now : Z) (r : BorrowRecord.t) : Z :=
  match BorrowRecord.returned_at r with
  | Some ts =>
      if Js.truthy ts then daysBetween (BorrowRecord.start_date r) (OfString ts)
      else daysBetween_now now (BorrowRecord.start_date r)
  | None => daysBetween_now now (BorrowRecord.start_date r)
  end.

(** One row of the fallback table; the template literal spans lines. *)
Definition fallback_row (now : Z) (r : BorrowRecord.t) : string :=
  Js.cat
    ["<tr>"; nl;
     "      <td>"; BorrowRecord.asset_id r; "</td>"; nl;
     "      <td>"; Js.or_empty (BorrowRecord.asset_name r); "</td>"; nl;
     "      <td>"; Js.or_empty (BorrowRecord.borrower_name r); "</td>"; nl;
     "      <td>"; Js.or_empty (BorrowRecord.borrower_dept r); "</td>"; nl;
     "      <td>"; Js.or_empty (BorrowRecord.lender_name r); "</td>"; nl;
     "      <td>"; formatDate (Some (BorrowRecord.start_date r)); "</td>"; nl;
     "      <td>"; date_or_blank (BorrowRecord.end_date r); "</td>"; nl;
     "      <td>"; date_or_blank (BorrowRecord.returned_at r); "</td>"; nl;
     "      <td>"; Js.String_of_Z (duration now r); "</td>"; nl;
     "      <td></td>"; nl;
     "    </tr>"].

(** [exportFallbackXLS]: an HTML table downloaded as a [.xls] file. *)
Definition exportFallbackXLS (filtered : list BorrowRecord.t) (orgName : string) (now : Z)
    : File :=
  let head1 :=
    Js.cat ["<tr><th colspan="; dq; "10"; dq; " style="; dq; "font-size:16px;text-align:left"; dq;
            ">"; orgName; "</th></tr>"] in
  let head2 :=
    Js.cat ["<tr><th colspan="; dq; "10"; dq; " style="; dq; "text-align:left"; dq;
            ">รายงานการยืม-คืน • พิมพ์เมื่อ "; toLocaleString now; "</th></tr>"] in
  let thead := Js.cat ["<tr>"; Js.cat ((fun h => Js.cat ["<th>"; h; "</th>"]) <$> headers); "</tr>"] in
  let tbody := Js.cat (fallback_row now <$> filtered) in
  let html :=
    Js.cat ["<!doctype html><html><head><meta charset='utf-8'></head><body><table>";
            head1; head2; thead; tbody; "</table></body></html>"] in
  Blob (Js.cat ["medical_pool_"; Js.String_of_Z now; ".xls"]) "application/vnd.ms-excel" html.

(** One data row of the workbook. *)
Definition sheet_row (now : Z) (r : BorrowRecord.t) : list Cell :=
  [Text (Js.or_empty (BorrowRecord.asset_id r));
   Text (Js.or_empty (BorrowRecord.asset_name r));
   Text (Js.or_empty (BorrowRecord.borrower_name r));
   Text (Js.or_empty (BorrowRecord.borrower_dept r));
   Text (Js.or_empty (BorrowRecord.lender_name r));
   Text (Js.or_empty (formatDate (Some (BorrowRecord.start_date r))));
   Text (date_or_blank (BorrowRecord.end_date r));
   Text (date_or_blank (BorrowRecord.returned_at r));
   Num (duration now r);
   Text ""].

(** The workbook of the primary path. *)
Definition workbook (filtered : list BorrowRecord.t) (orgName : string) (now : Z) : File :=
  let aoa :=
    ([[Text orgName]; [Text "รายงานการยืม-คืน"; Text (toLocaleString now)]; [Text ""];
      Text <$> headers] ++ (sheet_row now <$> filtered))%list in
  Workbook (Js.cat ["medical_pool_"; Js.String_of_Z now; ".xlsx"]) "Report" aoa
    [12; 22; 16; 10; 14; 12; 12; 12; 12; 10] [((0, 0), (0, 9))].

(** [exportXLSX], given the component's [xlLoading] and how the library
    behaves:
<<
if (xlLoading) return;
if (!filtered || filtered.length === 0) {
setXlNote(...); setTimeout(()=>setXlNote(""), 2500);
return;
}
setXlLoading(true); setXlNote(...);
... load the library, write the workbook, or fall back to exportFallbackXLS ...
>> *)
Definition exportXLSX (xlLoading : bool) (filtered : list BorrowRecord.t) (orgName : string)
    (lib : Library) (now : Z) : Outcome :=
  if xlLoading then mkOutcome xlLoading [] []
  else if (length filtered =? 0)%nat then mkOutcome xlLoading [note_empty] []
  else
    match lib with
    | LoadFails =>
        mkOutcome false [note_loading; note_load_failed] [exportFallbackXLS filtered orgName now]
    | NoUtils =>
        mkOutcome false [note_loading; note_no_utils] [exportFallbackXLS filtered orgName now]
    | WriteThrows =>
        mkOutcome false [note_loading; note_write_failed] [exportFallbackXLS filtered orgName now]
    | Ready =>
        mkOutcome false
          [note_loading;
           Js.cat ["ส่งออก .xlsx เรียบร้อย ("; Js.String_of_Z (Z.of_nat (length filtered)); " รายการ)"]]
          [workbook filtered orgName now]
    end.



End Report.
End Report.

(** ** Invariants and the specification's wording *)

(** The three key fields are each pairwise distinct across the collection. *)
Definition keys_unique (l : list Asset.t) : Prop :=
  NoDup (Asset.asset_id <$> l) /\ NoDup (Asset.id_code <$> l) /\ NoDup (Asset.serial <$> l).

(** A registration payload lacks a required field. *)
Definition missing_required (p : Assets.Form) : Prop :=
  Assets.asset_id p = "" \/ Assets.id_code p = "" \/ Assets.name p = "" \/ Assets.serial p = "".

(** A registration payload repeats a key of an asset of the collection. *)
Definition duplicates_key (p : Assets.Form) (l : list Asset.t) : Prop :=
  exists a, a ∈ l /\
    (Asset.asset_id a = Assets.asset_id p \/ Asset.id_code a = Assets.id_code p
     \/ Asset.serial a = Assets.serial p).

(** The messages of a validation failure of the asset forms. *)
Definition validation_error (msg : string) : Prop :=
  msg ∈ [Assets.err_required; Assets.err_asset_id; Assets.err_id_code; Assets.err_serial].

(** An edit form lacks a required field. *)
Definition edit_missing_required (f : Assets.EditForm) : Prop :=
  Js.truthy_opt (AssetPatch.asset_id f) = false \/ Js.truthy_opt (AssetPatch.id_code f) = false
  \/ Js.truthy_opt (AssetPatch.name f) = false \/ Js.truthy_opt (AssetPatch.serial f) = false.

(** An asset of the collection other than the one being edited
    ([a.asset_id !== editingId]). *)
Definition other_asset (st : Assets.State) (a : Asset.t) : Prop :=
  a ∈ Assets.assets st /\ Js.eq_opt (Asset.asset_id a) (Assets.editingId st) = false.

(** The edit form carries a key of another asset. *)
Definition edit_clashes (st : Assets.State) : Prop :=
  exists other, other_asset st other /\
    (AssetPatch.asset_id (Assets.editForm st) = Some (Asset.asset_id other)
     \/ AssetPatch.id_code (Assets.editForm st) = Some (Asset.id_code other)
     \/ AssetPatch.serial (Assets.editForm st) = Some (Asset.serial other)).

(** The state after an accepted edit: the patch merged by [updateAsset], the
    edit closed. *)
Definition edit_saved `{Runtime} (st : Assets.State) : Assets.State :=
  Assets.setEditForm Assets.empty
    (Assets.setEditingId None
       (Assets.setAssets
          (App.updateAsset (Assets.editingId st) (Assets.patch_of (Assets.editForm st))
             (Assets.assets st)).2 st)).

(** [returned_at] is [null] or a time stamp, never the empty string: what
    [Borrow.submit] and [returnBorrow] write. *)
Definition stamped (borrows : list BorrowRecord.t) : Prop :=
  forall b, b ∈ borrows -> BorrowRecord.returned_at b <> Some "".

(** The specification's [isOverdue(record, 14, now)], in its words:
    [returned_at == null && elapsedDays(start_date, now) >= 14]. *)
Definition spec_isOverdue `{Runtime} (now : Z) (r : BorrowRecord.t) : bool :=
  match BorrowRecord.returned_at r with
  | None => 14 <=? daysBetween_now now (BorrowRecord.start_date r)
  | Some _ => false
  end.

(** The local calendar day of an instant, in a zone [tz] milliseconds east of
    UTC. *)
Definition local_day (tz t : Z) : Z := (t + tz) / Js.msPerDay.

(** The specification's [elapsedDays] on two parsed instants: both endpoints
    are brought to local-date granularity, then the dates are subtracted. *)
Definition spec_elapsedDays (tz t1 t2 : Z) : Z := local_day tz t2 - local_day tz t1.

(** [a >= b] and [a <= b] on [Date] objects (false when either is invalid). *)
Definition Date_ge (a b : Date) : bool :=
  match a, b with
  | Some x, Some y => y <=? x
  | _, _ => false
  end.

Definition Date_le (a b : Date) : bool :=
  match a, b with
  | Some x, Some y => x <=? y
  | _, _ => false
  end.

(** The specification's [filterRecords] predicate, in its words: a bound or
    a department is absent when its input is blank. *)
Definition spec_keeps `{Runtime} (from to department : string) (r : BorrowRecord.t) : bool :=
  (negb (Js.truthy from) || Date_ge (new_Date (BorrowRecord.start_date r)) (new_Date from))
  && (negb (Js.truthy to) || Date_le (new_Date (BorrowRecord.start_date r)) (new_Date to))
  && (negb (Js.truthy department) || (BorrowRecord.borrower_dept r =? department)%string).

(** Typing a value into a quick-add input and confirming it. *)
Definition quickAddBrand (s : string) (st : Assets.State) : Assets.State :=
  Assets.confirmAddBrand (Assets.setNewBrand s st).
Definition quickAddModel (s : string) (st : Assets.State) : Assets.State :=
  Assets.confirmAddModel (Assets.setNewModel s st).
Definition quickAddVendor (s : string) (st : Assets.State) : Assets.State :=
  Assets.confirmAddVendor (Assets.setNewVendor s st).
Definition quickAddDept (s : string) (st : Borrow.State) : Borrow.State :=
  Borrow.confirmAddDept
    (Borrow.mkState (Borrow.depts st) (Borrow.form st) (Borrow.addingDept st) s).

(** The brand a new model is filed under: [editingId ? editForm.brand : form.brand]. *)
Definition currentBrand (st : Assets.State) : option string :=
  if Js.truthy_opt (Assets.editingId st) then AssetPatch.brand (Assets.editForm st)
  else Some (Assets.brand (Assets.form st)).

(** ** The asset tab as a transition system *)

(** What the user can do on the asset tab; each event is a handler of
    [Assets] or of [AssetRow] being run: an input of the registration form
    changes, the form is submitted, a row enters edit mode, one of its inputs
    changes, the edit is cancelled or saved, a row is deleted
    ([onDeleteAsset(a.asset_id)]), a quick-add is confirmed. *)
Inductive Event :=
| FormTyped (f : Assets.Form)
| Submitted
| EditStarted (row : Asset.t)
| EditTyped (f : Assets.EditForm)
| EditCancelled
| EditSaved
| Deleted (id : string)
| BrandAdded (s : string)
| ModelAdded (s : string)
| VendorAdded (s : string).

Definition step `{Runtime} (st : Assets.State) (e : Event) : Assets.State :=
  match e with
  | FormTyped f => Assets.setForm f st
  | Submitted => Assets.submit st
  | EditStarted row => Assets.startEdit row st
  | EditTyped f => Assets.setEditForm f st
  | EditCancelled => Assets.cancelEdit st
  | EditSaved => Assets.saveEdit st
  | Deleted id => Assets.setAssets (App.deleteAsset id (Assets.assets st)).2 st
  | BrandAdded s => quickAddBrand s st
  | ModelAdded s => quickAddModel s st
  | VendorAdded s => quickAddVendor s st
  end.

(** The tab as [App] first renders it: every persisted list at its initial
    value [[]]. *)
Definition initial : Assets.State :=
  Assets.mkState [] [] [] [] Assets.blank "" None Assets.empty false "" false "" false "" [].

(** The ledger invariant of the tab: unique asset keys, and reference lists
    without duplicates. *)
Definition ledger_inv (st : Assets.State) : Prop :=
  keys_unique (Assets.assets st)
  /\ NoDup (Assets.brands st) /\ NoDup (Assets.models st) /\ NoDup (Assets.vendors st).

(** ** A host for the examples

    An engine whose [Date.parse] accepts the standard format only, and whose
    locale renders ISO dates.  Its [Number] answers NaN on every string,
    which is enough here: the examples leave the price blank and never
    convert one. *)
Definition example_host : Runtime := {|
  Date_parse_other := fun _ => None;
  toLocaleDateString := fun t => String.substring 0 10 (Js.toISOString t);
  toLocaleString := Js.toISOString;
  Number := fun _ => PrimFloat.nan;
|}.

Module Examples.

Definition pump : Asset.t :=
  Asset.mk "A1" "C1" "Infusion pump" "B. Braun" "Space" "" "S1" "2023-05-01" None.

Definition monitor : Asset.t :=
  Asset.mk "A2" "C2" "Patient monitor" "Philips" "MX450" "" "S2" "" None.

Definition pump_form : Assets.Form :=
  Assets.mkForm "A3" "C3" "Syringe pump" "" "" "" "S3" "" "".

Definition clash_form : Assets.Form :=
  Assets.mkForm "A4" "C1" "Ventilator" "" "" "" "S4" "" "".

Definition assets_state (assets : list Asset.t) : Assets.State :=
  Assets.mkState ["Philips"] [Model.mk "Philips" "MX450"] ["Medline"] assets Assets.blank ""
    None Assets.empty false "" false "" false "" [].

(** The pump's row in edit mode, its name retyped as [name]. *)
Definition rename_pump (name : string) : Assets.State :=
  let st := Assets.startEdit pump (assets_state [pump; monitor]) in
  Assets.setEditForm (Assets.edit_with_name name (Assets.editForm st)) st.

(** The pump's row in edit mode, its serial retyped as [serial]. *)
Definition reserial_pump (serial : string) : Assets.State :=
  let st := Assets.startEdit pump (assets_state [pump; monitor]) in
  Assets.setEditForm (Assets.edit_with_serial serial (Assets.editForm st)) st.

Definition loan (id start : string) (dept : string) (returned : option string) : BorrowRecord.t :=
  BorrowRecord.mk id "A1" "Infusion pump" "" "Somchai" start None "Malee" dept returned
    "data:image/png;base64,AAAA" "2024-01-01T08:00:00.000Z".

(** 2024-01-21T00:00:00.000Z *)
Definition now : Z := 1705795200000.

Definition ledger : list BorrowRecord.t :=
  [loan "r3" "2024-01-18" "ICU" None;
   loan "r2" "2024-01-01" "ER" None;
   loan "r1" "2023-12-01" "ICU" (Some "2023-12-20T09:30:00.000Z")].

(** A record whose [start_date] the engine cannot parse: the string of the
    program's own sanity test of [formatDate]. *)
Definition undated : BorrowRecord.t := loan "r9" "invalid-date" "ICU" None.

End Examples.

(** ** The utility [todayStr] *)

(** [new Date().toISOString().slice(0, 10)] at the instant [now]. *)
Definition todayStr (now : Z) : string := String.substring 0 10 (Js.toISOString now).

(** ** The counters of the root component *)

(** [new Set(l)]: the values are added from left to right, each kept once,
    at its first occurrence. *)
Fixpoint Set_add_all (seen l : list string) : list string :=
  match l with
  | [] => seen
  | x :: l' => Set_add_all (if Assets.includes seen x then seen else (seen ++ [x])%list) l'
  end.

Definition Set_of (l : list string) : list string := Set_add_all [] l.

(** [new Set(l).size] *)
Definition Set_size (l : list string) : nat := length (Set_of l).

(** [const borrowedCount = new Set(active.map(b => b.asset_id)).size] *)
Definition borrowedCount (borrows : list BorrowRecord.t) : nat :=
  Set_size (BorrowRecord.asset_id <$> App.active borrows).

(** [const availableCount = Math.max(assets.length - borrowedCount, 0)] *)
Definition availableCount (assets : list Asset.t) (borrows : list BorrowRecord.t) : Z :=
  Z.max (Z.of_nat (length assets) - Z.of_nat (borrowedCount borrows)) 0.

(** ** The [Borrow] component: recording a loan *)
Module BorrowTab.

Definition err_not_found : string := "ไม่พบ Asset ID นี้".
Definition err_busy : string := "เครื่องนี้กำลังถูกยืมอยู่ — ห้ามบันทึกซ้ำ".
Definition err_required : string := "กรอกผู้ให้ยืม/ผู้ยืม/วันที่เริ่มยืม".
Definition err_sign : string := "กรุณาเซ็นชื่อผู้ขอยืมให้เรียบร้อย".
Definition alert_saved : string := "บันทึกการยืมแล้ว".

(** The props the component reads ([assets], and [borrows] of [App], from
    which its [activeIds] prop is computed and which [onCreateBorrow]
    writes), and its own state: the asset id typed, the form, the signature
    ([null] until the pad is signed) and the error; [alerts] logs the calls
    of [alert]. *)
Record State := mkState {
  assets : list Asset.t;
  borrows : list BorrowRecord.t;
  assetId : string;
  form : Borrow.Form;
  sign : option string;
  err : string;
  alerts : list string;
}.

(** [assets.find((a: any) => a.asset_id === assetId)] *)
Definition asset (st : State) : option Asset.t :=
  List.find (fun a => (Asset.asset_id a =? assetId st)%string) (assets st).

(** [asset ? activeIds.includes(asset.asset_id) : false] *)
Definition isBusy (st : State) : bool :=
  match asset st with
  | Some a => Assets.includes (App.activeIds (borrows st)) (Asset.asset_id a)
  | None => false
  end.

(** The record of [submit]; [uid] is the value [uid()] draws and [now] the
    instant of [new Date()]:
<<
{ id: uid(), asset_id: asset.asset_id, asset_name: asset.name,
  ...form, end_date: form.end_date || null, returned_at: null,
  borrower_sign: sign, created_at: new Date().toISOString() }
>> *)
Definition record_of (uid : string) (now : Z) (a : Asset.t) (f : Borrow.Form) (sign : string)
    : BorrowRecord.t :=
  BorrowRecord.mk uid (Asset.asset_id a) (Asset.name a)
    (Borrow.peripherals f) (Borrow.lender_name f) (Borrow.start_date f)
    (if Js.truthy (Borrow.end_date f) then Some (Borrow.end_date f) else None)
    (Borrow.borrower_name f) (Borrow.borrower_dept f) None sign (Js.toISOString now).

Definition setErr (msg : string) (st : State) : State :=
  mkState (assets st) (borrows st) (assetId st) (form st) (sign st) msg (alerts st).

(** [Borrow.submit]:
<<
e.preventDefault(); setErr("");
if (!asset) return setErr(...);
if (isBusy) return setErr(...);
if (!form.lender_name || !form.borrower_name || !form.start_date) return setErr(...);
if (!sign) return setErr(...);
const rec = { ... };
const ok = await onCreateBorrow(rec); if (ok) { setSign(null); alert(...); }
>> *)
Definition submit (uid : string) (now : Z) (st : State) : State :=
  let st := setErr "" st in
  match asset st with
  | None => setErr err_not_found st
  | Some a =>
      if isBusy st then setErr err_busy st
      else if negb (Js.truthy (Borrow.lender_name (form st)))
              || negb (Js.truthy (Borrow.borrower_name (form st)))
              || negb (Js.truthy (Borrow.start_date (form st)))
      then setErr err_required st
      else if negb (Js.truthy_opt (sign st)) then setErr err_sign st
      else
        let rec := record_of uid now a (form st) (default "" (sign st)) in
        let '(ok, borrows') := App.createBorrow rec (borrows st) in
        if ok
        then mkState (assets st) borrows' (assetId st) (form st) None (err st)
               (alerts st ++ [alert_saved])%list
        else mkState (assets st) borrows' (assetId st) (form st) (sign st) (err st) (alerts st)
  end.

End BorrowTab.

(** ** The [Return] component: the inline edit of a loan *)
Module ReturnTab.

(** The [edit] state: [{}] or an object with the five fields of the inline
    inputs. *)
Record Edit := mkEdit {
  borrower_name : option string;
  borrower_dept : option string;
  lender_name : option string;
  peripherals : option string;
  end_date : option string;
}.

(** [{}] *)
Definition empty : Edit := mkEdit None None None None None.

(** The [borrows] prop (state of [App], written through [onUpdateBorrow])
    and the component's edit state. *)
Record State := mkState {
  borrows : list BorrowRecord.t;
  editId : option string;
  edit : Edit;
}.

(** [borrows.filter((b: any) => !b.returned_at)] *)
Definition active (st : State) : list BorrowRecord.t :=
  filter (fun b => negb (Js.truthy_opt (BorrowRecord.returned_at b))) (borrows st).

(** [v || ""] for a value that is a string or [null]. *)
Definition or_empty_opt (v : option string) : string :=
  match v with
  | Some s => Js.or_empty s
  | None => ""
  end.

(** [setEditId(r.id); setEdit({ borrower_name: r.borrower_name||"", ... })] *)
Definition start (r : BorrowRecord.t) (st : State) : State :=
  mkState (borrows st) (Some (BorrowRecord.id r))
    (mkEdit (Some (Js.or_empty (BorrowRecord.borrower_name r)))
       (Some (Js.or_empty (BorrowRecord.borrower_dept r)))
       (Some (Js.or_empty (BorrowRecord.lender_name r)))
       (Some (Js.or_empty (BorrowRecord.peripherals r)))
       (Some (or_empty_opt (BorrowRecord.end_date r)))).

(** [setEditId(null); setEdit({})] *)
Definition cancel (st : State) : State := mkState (borrows st) None empty.

(** The [edit] object as the patch of [updateBorrow]. *)
Definition patch_of (e : Edit) : BorrowPatch.t :=
  BorrowPatch.mk None None None (peripherals e) (lender_name e) None (Some <$> end_date e)
    (borrower_name e) (borrower_dept e) None None None.

(** [await onUpdateBorrow(id, edit); setEditId(null)] *)
Definition save (id : string) (st : State) : State :=
  let '(_, borrows') := App.updateBorrow id (patch_of (edit st)) (borrows st) in
  mkState borrows' None (edit st).

End ReturnTab.

(** ** The loans as a transition system *)

(** What changes the borrow records: a loan is submitted on the borrow tab
    (with the assets, the inputs and the signature of that moment, the id
    drawn and the instant), a loan is returned, or the inline edit of a loan
    is saved with the edit form as it then stands. *)
Inductive LoanEvent :=
| Lent (assets : list Asset.t) (assetId : string) (form : Borrow.Form) (sign : option string)
    (uid : string) (now : Z)
| Returned (id : string) (now : Z)
| LoanEdited (id : string) (edit : ReturnTab.Edit).

Definition loan_step (borrows : list BorrowRecord.t) (e : LoanEvent) : list BorrowRecord.t :=
  match e with
  | Lent assets assetId form sign uid now =>
      BorrowTab.borrows
        (BorrowTab.submit uid now (BorrowTab.mkState assets borrows assetId form sign "" []))
  | Returned id now => (App.returnBorrow now id borrows).2
  | LoanEdited id edit =>
      ReturnTab.borrows (ReturnTab.save id (ReturnTab.mkState borrows (Some id) edit))
  end.

(** No asset is on loan twice at once, and [returned_at] is [null] or a
    time stamp. *)
Definition loans_inv (borrows : list BorrowRecord.t) : Prop :=
  NoDup (App.activeIds borrows) /\ stamped borrows.

(** ** Persistence: [localStorage], [useLocalStorage] and the reset *)

(** The storage area of the page's origin: its key/value pairs, in the
    order of [Object.keys]. *)
Abbreviation Storage := (list (string * string)).

Module localStorage.

Definition getItem (key : string) (store : Storage) : option string :=
  snd <$> List.find (fun kv => (fst kv =? key)%string) store.

Fixpoint setItem (key value : string) (store : Storage) : Storage :=
  match store with
  | [] => [(key, value)]
  | kv :: store' =>
      if (fst kv =? key)%string then (key, value) :: store'
      else kv :: setItem key value store'
  end.

Definition removeItem (key : string) (store : Storage) : Storage :=
  filter (fun kv => negb (fst kv =? key)%string) store.

(** [Object.keys(localStorage)] *)
Definition keys (store : Storage) : list string := fst <$> store.

End localStorage.

(** A [StorageEvent]: the key changed ([null] after [clear]) and its new
    value ([null] when the key was removed). *)
Record StorageEvent := mkStorageEvent {
  event_key : option string;
  newValue : option string;
}.

Module useLocalStorage.
Section Hook.
(** [JSON.parse], with [None] for a [SyntaxError], and [JSON.stringify], at
    the type of the value the hook holds. *)
Context {T : Type} (JSON_parse : string -> option T) (JSON_stringify : T -> string).

(** The initial state:
<<
try {
  const raw = window.localStorage.getItem(key);
  return raw !== null ? (JSON.parse(raw) as T) : initialValue;
} catch { return initialValue; }
>> *)
Definition init (key : string) (initialValue : T) (store : Storage) : T :=
  match localStorage.getItem key store with
  | Some raw =>
      match JSON_parse raw with
      | Some v => v
      | None => initialValue
      end
  | None => initialValue
  end.

(** The listener of the [storage] event, on the value held:
<<
if (e.key === key && e.newValue !== null) {
  try { setValue(JSON.parse(e.newValue!)); } catch {}
}
>> *)
Definition onStorage (key : string) (e : StorageEvent) (value : T) : T :=
  match event_key e, newValue e with
  | Some k, Some raw =>
      if (k =? key)%string
      then match JSON_parse raw with
           | Some v => v
           | None => value
           end
      else value
  | _, _ => value
  end.

(** The effect that persists the value; [accepted] tells whether the
    browser takes the write (it throws when the quota is exceeded):
    [try { window.localStorage.setItem(key, JSON.stringify(value)); } catch {}] *)
Definition persist (accepted : bool) (key : string) (value : T) (store : Storage) : Storage :=
  if accepted then localStorage.setItem key (JSON_stringify value) store else store.

End Hook.
End useLocalStorage.

Module Settings.

(** The store after [onResetAll], which then reloads the page:
    [Object.keys(localStorage).filter(k => k.startsWith("mp:"))
       .forEach(k => localStorage.removeItem(k))] *)
Definition onResetAll (store : Storage) : Storage :=
  foldl (fun s k => localStorage.removeItem k s) store
    (filter (fun k => String.prefix "mp:" k) (localStorage.keys store)).

End Settings.

(** The keys under which [App] persists its state. *)
Definition app_keys : list string :=
  ["mp:brands"; "mp:models"; "mp:vendors"; "mp:depts"; "mp:assets"; "mp:borrows";
   "mp:org_name"; "mp:report_logo"].

(** ** The model options of the asset form *)

(** [models.filter((m: any) => m.brand === (editingId ? editForm.brand : form.brand))
          .map((m: any) => m.name)] *)
Definition modelOptions (st : Assets.State) : list string :=
  Model.name <$> filter (fun m => Js.eq_opt (Model.brand m) (currentBrand st)) (Assets.models st).

(** ** Vocabulary of the properties *)

(** The instants of the years 0000 to 9999, where [toISOString] writes the
    year with four digits. *)
Definition four_digit_year (t : Z) : Prop := -62167219200000 <= t < 253402300800000.

(** A loan form lacks a required field. *)
Definition loan_missing_required (f : Borrow.Form) : Prop :=
  Borrow.lender_name f = "" \/ Borrow.borrower_name f = "" \/ Borrow.start_date f = "".

(** What the inline edit of a loan has no input for. *)
Definition loan_core (b : BorrowRecord.t)
    : string * string * string * string * option string * string * string :=
  (BorrowRecord.id b, BorrowRecord.asset_id b, BorrowRecord.asset_name b,
   BorrowRecord.start_date b, BorrowRecord.returned_at b, BorrowRecord.borrower_sign b,
   BorrowRecord.created_at b).

(** [{ ...b, end_date: v }] *)
Definition with_end_date (v : option string) (b : BorrowRecord.t) : BorrowRecord.t :=
  BorrowRecord.mk (BorrowRecord.id b) (BorrowRecord.asset_id b) (BorrowRecord.asset_name b)
    (BorrowRecord.peripherals b) (BorrowRecord.lender_name b) (BorrowRecord.start_date b) v
    (BorrowRecord.borrower_name b) (BorrowRecord.borrower_dept b) (BorrowRecord.returned_at b)
    (BorrowRecord.borrower_sign b) (BorrowRecord.created_at b).

(** [{ ...a, price: p }] *)
Definition with_price (p : option float) (a : Asset.t) : Asset.t :=
  Asset.mk (Asset.asset_id a) (Asset.id_code a) (Asset.name a) (Asset.brand a) (Asset.model a)
    (Asset.vendor a) (Asset.serial a) (Asset.purchase_date a) p.

(** The assets that have no active loan. *)
Definition on_the_shelf (assets : list Asset.t) (borrows : list BorrowRecord.t) : list Asset.t :=
  filter (fun a => negb (Assets.includes (App.activeIds borrows) (Asset.asset_id a))) assets.

(** ** Further examples *)
Module Scenario.

Definition signature : string := "data:image/png;base64,AAAA".

Definition lend_form : Borrow.Form :=
  Borrow.mkForm "" "Somchai" "2024-01-21" "" "Malee" "ICU".

(** The borrow tab with the pump's id typed, the form filled and signed. *)
Definition borrow_tab (borrows : list BorrowRecord.t) : BorrowTab.State :=
  BorrowTab.mkState [Examples.pump; Examples.monitor] borrows "A1" lend_form (Some signature)
    "" [].

(** The loan that [borrow_tab] records. *)
Definition pump_loan : BorrowRecord.t :=
  BorrowRecord.mk "u1" "A1" "Infusion pump" "" "Somchai" "2024-01-21" None "Malee" "ICU" None
    signature "2024-01-21T00:00:00.000Z".

(** A pump registered with a price of zero. *)
Definition free_pump : Asset.t :=
  Asset.mk "A1" "C1" "Infusion pump" "B. Braun" "Space" "" "S1" "2023-05-01" (Some 0%float).

(** [JSON.parse] and [JSON.stringify] at the type of booleans. *)
Definition JSON_parse_bool (s : string) : option bool :=
  if (s =? "true")%string then Some true
  else if (s =? "false")%string then Some false
  else None.

Definition JSON_stringify_bool (b : bool) : string := if b then "true" else "false".

(** A storage area shared with another application. *)
Definition store : Storage :=
  [("theme", "dark"); ("mp:brands", "[]"); ("mp:org_name", "true"); ("lang", "th")].

End Scenario.

(** * Properties *)

(** ** Basic facts *)

#[local] Open Scope list_scope.

Lemma truthy_false (s : string) : Js.truthy s = false <-> s = "".
Proof. unfold Js.truthy. destruct (String.eqb_spec s ""); simpl; split; congruence. Qed.

Lemma truthy_true (s : string) : Js.truthy s = true <-> s <> "".
Proof. unfold Js.truthy. destruct (String.eqb_spec s ""); simpl; split; congruence. Qed.

Lemma or_empty_id (s : string) : Js.or_empty s = s.
Proof. unfold Js.or_empty. destruct (Js.truthy s) eqn:E; [done|]. now apply truthy_false in E. Qed.

Lemma truthy_opt_false (v : option string) :
  Js.truthy_opt v = false <-> v = None \/ v = Some "".
Proof.
  destruct v as [s|]; simpl; [|now intuition].
  unfold Js.truthy. destruct (String.eqb_spec s ""); simpl; split; intros; subst; auto;
    intuition congruence.
Qed.

Lemma truthy_opt_true (v : option string) :
  Js.truthy_opt v = true -> exists s, v = Some s.
Proof. destruct v as [s|]; [now exists s|discriminate]. Qed.

Lemma existsb_false {A : Type} (f : A -> bool) (l : list A) :
  existsb f l = false <-> forall x, x ∈ l -> f x = false.
Proof.
  induction l as [|a l IH]; simpl.
  - split; [|done]. now intros _ x ?%elem_of_nil.
  - rewrite orb_false_iff, IH. split.
    + intros [Ha Hl] x [-> | Hx]%elem_of_cons; auto.
    + intros Hall. split; [apply Hall; now left|]. intros x Hx. apply Hall. now right.
Qed.

Lemma NoDup_fmap_eq {A B : Type} (f : A -> B) (l : list A) (x y : A) :
  NoDup (f <$> l) -> x ∈ l -> y ∈ l -> f x = f y -> x = y.
Proof.
  induction l as [|a l IH]; [now intros _ ?%elem_of_nil|].
  rewrite fmap_cons, NoDup_cons. intros [Ha Hl].
  intros [-> | Hx]%elem_of_cons [-> | Hy]%elem_of_cons E; auto.
  - exfalso. apply Ha. rewrite E. now apply list_elem_of_fmap_2.
  - exfalso. apply Ha. rewrite <- E. now apply list_elem_of_fmap_2.
Qed.

Lemma eq_opt_true (a : string) (b : option string) : Js.eq_opt a b = true <-> b = Some a.
Proof.
  destruct b as [s|]; simpl; [|split; discriminate].
  rewrite String.eqb_eq. split; congruence.
Qed.

Lemma eq_opt_Some (a s : string) : Js.eq_opt a (Some s) = true <-> a = s.
Proof. simpl. apply String.eqb_eq. Qed.

Lemma existsb_key (key : Asset.t -> string) (x : string) (l : list Asset.t) :
  existsb (fun a => (key a =? x)%string) l = true <-> x ∈ (key <$> l).
Proof.
  induction l as [|a l IH]; simpl.
  - split; [discriminate|]. now intros ?%elem_of_nil.
  - rewrite orb_true_iff, IH, elem_of_cons, String.eqb_eq. intuition congruence.
Qed.

Lemma existsb_key_false (key : Asset.t -> string) (x : string) (l : list Asset.t) :
  existsb (fun a => (key a =? x)%string) l = false <-> x ∉ (key <$> l).
Proof.
  rewrite <- existsb_key. now destruct (existsb _ l).
Qed.

Lemma includes_true (l : list string) (v : string) : Assets.includes l v = true <-> v ∈ l.
Proof.
  unfold Assets.includes. induction l as [|x l IH]; simpl.
  - split; [discriminate|]. now intros ?%elem_of_nil.
  - rewrite orb_true_iff, IH, elem_of_cons, String.eqb_eq. intuition congruence.
Qed.

Lemma includes_false (l : list string) (v : string) : Assets.includes l v = false <-> v ∉ l.
Proof. rewrite <- includes_true. now destruct (Assets.includes l v). Qed.

Lemma find_model_None (l : list Model.t) (b v : string) :
  List.find (fun m => (Model.name m =? v)%string && (Model.brand m =? b)%string) l = None
  <-> Model.mk b v ∉ l.
Proof.
  induction l as [|[b' v'] l IH]; simpl.
  - split; [|done]. now intros _ ?%elem_of_nil.
  - rewrite not_elem_of_cons, <- IH.
    destruct (String.eqb_spec v' v) as [-> | Nv], (String.eqb_spec b' b) as [-> | Nb]; simpl.
    + split; [discriminate|]. now intros [Hne _].
    + split; [intros Hf; split; [congruence|done] | now intros [_ Hf]].
    + split; [intros Hf; split; [congruence|done] | now intros [_ Hf]].
    + split; [intros Hf; split; [congruence|done] | now intros [_ Hf]].
Qed.

Lemma NoDup_snoc {A : Type} (l : list A) (v : A) : NoDup l -> v ∉ l -> NoDup (l ++ [v]).
Proof.
  intros Hl Hv. apply NoDup_app. repeat split; [done| |apply NoDup_singleton].
  intros x Hx ->%list_elem_of_singleton. contradiction.
Qed.

(** Membership in a list that is written out. *)
Ltac in_list := rewrite !elem_of_cons; auto 10.

(** Case analysis on every condition a handler branches on. *)
Ltac split_ifs :=
  cbv zeta; simpl;
  repeat match goal with
         | |- context [if ?c then _ else _] => destruct c eqn:?; simpl
         | |- context [match List.find ?p ?l with _ => _ end] =>
             destruct (List.find p l) eqn:?; simpl
         end.

(** ** Elapsed days *)

Section ElapsedDays.
Context `{Runtime}.

Lemma new_Date_iso (s : string) (t : Z) : Js.parse_iso s = Some t -> new_Date s = Some t.
Proof. unfold new_Date. now intros ->. Qed.

Lemma daysBetween_valid (a : string) (b : DateArg) (t1 t2 : Z) :
  new_Date a = Some t1 -> new_Date_of b = Some t2 ->
  daysBetween a b = (t2 - t1) / 86400000.
Proof. unfold daysBetween. now intros -> ->. Qed.

Lemma daysBetween_invalid (a : string) (b : DateArg) :
  new_Date a = None \/ new_Date_of b = None -> daysBetween a b = 0.
Proof.
  unfold daysBetween. intros [-> | ->]; simpl; [easy|].
  now rewrite orb_true_r.
Qed.

(** C8. Whenever either date fails to parse, [daysBetween] returns 0; the
    function has a value on every pair of arguments (nothing is raised). *)
Theorem daysBetween_total_zero_on_unparseable (a : string) (b : DateArg) :
  (exists n : Z, daysBetween a b = n)
  /\ (new_Date a = None \/ new_Date_of b = None -> daysBetween a b = 0).
Proof.
  split.
  - now exists (daysBetween a b).
  - apply daysBetween_invalid.
Qed.

(** C3, as the code has it. For two parseable dates whose instants are less
    than 2^53 ms apart (where the subtraction, the division and the floor of
    the source, done in binary64, give the exact quotient) [daysBetween] is
    the floor of the elapsed milliseconds between the two parsed instants
    over 86400000, with no normalisation of either endpoint to a calendar
    date; for two instants at UTC midnight, as date-only strings parse, this
    is the difference of their day numbers; and
    [daysBetween("2024-01-01", "2024-01-02")] is 1. *)
Theorem daysBetween_floor_of_elapsed_ms :
  (forall (a : string) (b : DateArg) (t1 t2 : Z),
      new_Date a = Some t1 -> new_Date_of b = Some t2 ->
      Z.abs (t2 - t1) < 2 ^ 53 ->
      daysBetween a b = (t2 - t1) / 86400000)
  /\ (forall (a b : string) (d1 d2 : Z),
        Js.parse_iso a = Some (d1 * Js.msPerDay) -> Js.parse_iso b = Some (d2 * Js.msPerDay) ->
        daysBetween a (OfString b) = d2 - d1)
  /\ daysBetween "2024-01-01" (OfString "2024-01-02") = 1.
Proof.
  split; [intros a b t1 t2 Ha Hb _; now apply daysBetween_valid|split].
  - intros a b d1 d2 Ha Hb.
    rewrite (daysBetween_valid a (OfString b) _ _ (new_Date_iso _ _ Ha) (new_Date_iso _ _ Hb)).
    unfold Js.msPerDay. replace (d2 * 86400000 - d1 * 86400000) with ((d2 - d1) * 86400000) by lia.
    now rewrite Z.div_mul.
  - now vm_compute.
Qed.

End ElapsedDays.

(** The reverse order of the program's own sanity test. *)
Example daysBetween_reverse `{Runtime} : daysBetween "2024-01-10" (OfString "2024-01-01") = -9.
Proof. now vm_compute. Qed.

Lemma daysBetween_total_zero_on_unparseable_witness :
  daysBetween (H := example_host) "invalid-date" (OfString "2024-01-02") = 0.
Proof.
  apply (daysBetween_total_zero_on_unparseable (H := example_host)).
  left. reflexivity.
Defined.

Lemma daysBetween_floor_of_elapsed_ms_witness :
  daysBetween (H := example_host) "2024-01-01" (OfDate (Some Examples.now)) = 20.
Proof.
  rewrite (proj1 (daysBetween_floor_of_elapsed_ms (H := example_host))
             "2024-01-01" (OfDate (Some Examples.now)) 1704067200000 Examples.now);
    reflexivity.
Defined.

(** C3, the counterexample. From noon and half a second to one millisecond
    short of a day later, the code counts 0 days, while the two local
    calendar dates are one day apart in every zone whose offset is a whole
    number of minutes. *)
Lemma daysBetween_is_not_calendar_subtraction :
  new_Date (H := example_host) "2024-01-01T12:00:00.500Z" = Some 1704110400500
  /\ new_Date (H := example_host) "2024-01-02T12:00:00.499Z" = Some 1704196800499
  /\ daysBetween (H := example_host) "2024-01-01T12:00:00.500Z"
       (OfString "2024-01-02T12:00:00.499Z") = 0
  /\ forall tz : Z, (60000 | tz) -> spec_elapsedDays tz 1704110400500 1704196800499 = 1.
Proof.
  repeat split; try reflexivity.
  intros tz [k ->]. unfold spec_elapsedDays, local_day, Js.msPerDay.
  set (x := 1704110400500 + k * 60000).
  replace (1704196800499 + k * 60000) with (x + 86399999) by (unfold x; lia).
  pose proof (Z.div_mod x 86400000 ltac:(lia)) as Hx.
  pose proof (Z.mod_pos_bound x 86400000 ltac:(lia)) as Hb.
  assert (Hm : (x mod 86400000) mod 1000 = 500).
  { rewrite (Z.mod_mod_divide x 86400000 1000) by (now exists 86400).
    unfold x. replace (k * 60000) with (k * 60 * 1000) by lia.
    now rewrite Z.mod_add. }
  assert (Hr : x mod 86400000 <> 0) by (intros E; now rewrite E in Hm).
  rewrite <- (Z.div_unique (x + 86399999) 86400000 (x / 86400000 + 1) (x mod 86400000 - 1)); lia.
Qed.

(** ** The overdue classification *)

Lemma toISOString_nonempty (t : Z) : Js.toISOString t <> "".
Proof.
  unfold Js.toISOString. destruct (Js.civil _) as [[y m] d].
  unfold Js.cat. simpl.
  destruct (if (0 <=? y) && (y <=? 9999) then _ else _); discriminate.
Qed.

Lemma createBorrow_stamped (record : BorrowRecord.t) (prev : list BorrowRecord.t) :
  BorrowRecord.returned_at record = None -> stamped prev ->
  stamped (App.createBorrow record prev).2.
Proof.
  intros Hr Hp b [-> | Hb]%elem_of_cons; [now rewrite Hr | now apply Hp].
Qed.

Lemma returnBorrow_stamped (now : Z) (id : string) (prev : list BorrowRecord.t) :
  stamped prev -> stamped (App.returnBorrow now id prev).2.
Proof.
  intros Hp b (a & -> & Ha)%list_elem_of_fmap.
  destruct (BorrowRecord.id a =? id)%string; [|now apply Hp].
  simpl. intros [= E]. now apply (toISOString_nonempty now).
Qed.

Lemma updateBorrow_stamped (id : string) (patch : BorrowPatch.t) (prev : list BorrowRecord.t) :
  BorrowPatch.returned_at patch = None ->
  stamped prev -> stamped (App.updateBorrow id patch prev).2.
Proof.
  intros Hpatch Hp b (a & -> & Ha)%list_elem_of_fmap.
  destruct (BorrowRecord.id a =? id)%string; [|now apply Hp].
  simpl. rewrite Hpatch. simpl. now apply Hp.
Qed.

Section Overdue.
Context `{Runtime}.

Lemma active_iff (borrows : list BorrowRecord.t) (b : BorrowRecord.t) :
  b ∈ App.active borrows
  <-> b ∈ borrows /\ (BorrowRecord.returned_at b = None \/ BorrowRecord.returned_at b = Some "").
Proof.
  unfold App.active. rewrite list_elem_of_filter, <- truthy_opt_false.
  destruct (Js.truthy_opt _); simpl; intuition congruence.
Qed.

Lemma overdue_count_spec (now : Z) (borrows : list BorrowRecord.t) :
  stamped borrows ->
  filter (fun b => 14 <=? daysBetween_now now (BorrowRecord.start_date b)) (App.active borrows)
  = filter (fun b => spec_isOverdue now b) borrows.
Proof.
  unfold App.active, spec_isOverdue. induction borrows as [|b l IH]; intros Hs; [done|].
  assert (Hl : stamped l) by (intros x Hx; apply Hs; now right).
  assert (Hb := Hs b ltac:(now left)).
  rewrite !filter_cons.
  destruct (BorrowRecord.returned_at b) as [ts|] eqn:E; simpl.
  - assert (Js.truthy ts = true) as ->.
    { unfold Js.truthy. destruct (String.eqb_spec ts ""); [now subst|done]. }
    simpl. now apply IH.
  - rewrite filter_cons, (IH Hl).
    now destruct (decide _).
Qed.

(** C2. A record whose [returned_at] is [null] is in the dashboard's
    overdue list exactly when [daysBetween(start_date, now)] is at least 14;
    a record whose [returned_at] is set (a time stamp, hence not the empty
    string) is never in it, whatever the elapsed time; [overdueCount] is the
    length of that list, and on a collection whose [returned_at] fields are
    [null] or time stamps it is the number of records that the
    specification's [isOverdue] accepts. *)
Theorem overdue_iff_active_and_14_days (now : Z) (borrows : list BorrowRecord.t) :
  (forall b, b ∈ borrows -> BorrowRecord.returned_at b = None ->
     (b ∈ Dashboard.overdue now (App.active borrows)
      <-> 14 <= daysBetween_now now (BorrowRecord.start_date b)))
  /\ (forall b ts, BorrowRecord.returned_at b = Some ts -> ts <> "" ->
        b ∉ Dashboard.overdue now (App.active borrows))
  /\ App.overdueCount now borrows = length (Dashboard.overdue now (App.active borrows))
  /\ (stamped borrows ->
      App.overdueCount now borrows = length (filter (fun b => spec_isOverdue now b) borrows)).
Proof.
  split; [|split; [|split]].
  - intros b Hb Hr. unfold Dashboard.overdue. rewrite list_elem_of_filter, active_iff.
    rewrite <- Z.leb_le, Is_true_true. tauto.
  - intros b ts Hr Hts Ho. unfold Dashboard.overdue in Ho.
    apply list_elem_of_filter in Ho as [_ Ha].
    apply active_iff in Ha as [_ [Hn | Hn]]; congruence.
  - reflexivity.
  - intros Hs. unfold App.overdueCount. now rewrite (overdue_count_spec now borrows Hs).
Qed.

(** The two lists of the dashboard split the active loans at 14 days. *)
Lemma dashboard_partition (now : Z) (active : list BorrowRecord.t) (b : BorrowRecord.t) :
  b ∈ active ->
  (b ∈ Dashboard.overdue now active \/ b ∈ Dashboard.normal now active)
  /\ ~ (b ∈ Dashboard.overdue now active /\ b ∈ Dashboard.normal now active).
Proof.
  intros Hb. unfold Dashboard.overdue, Dashboard.normal. rewrite !list_elem_of_filter.
  rewrite !Is_true_true, Z.leb_le, Z.ltb_lt. split; [|lia].
  destruct (Z.le_gt_cases 14 (daysBetween_now now (BorrowRecord.start_date b))); auto.
Qed.

End Overdue.

Lemma examples_ledger_stamped : stamped Examples.ledger.
Proof.
  intros b Hb. unfold Examples.ledger in Hb.
  repeat (apply elem_of_cons in Hb as [-> | Hb]; [discriminate|]).
  now apply elem_of_nil in Hb.
Qed.

Lemma overdue_iff_active_and_14_days_witness :
  App.overdueCount (H := example_host) Examples.now Examples.ledger = 1%nat.
Proof.
  rewrite (proj2 (proj2 (proj2 (overdue_iff_active_and_14_days (H := example_host)
             Examples.now Examples.ledger))) examples_ledger_stamped).
  reflexivity.
Defined.

(** ** The report filter *)

Section Filter.
Context `{Runtime}.

Lemma keeps_true (from to dept : string) (r : BorrowRecord.t) :
  Report.keeps from to dept r = true <->
  (from = "" \/ Date_lt (new_Date (BorrowRecord.start_date r)) (new_Date from) = false)
  /\ (to = "" \/ Date_gt (new_Date (BorrowRecord.start_date r)) (new_Date to) = false)
  /\ (dept = "" \/ BorrowRecord.borrower_dept r = dept).
Proof.
  unfold Report.keeps. rewrite or_empty_id.
  destruct (Js.truthy from) eqn:Ef, (Js.truthy to) eqn:Et, (Js.truthy dept) eqn:Ed;
    first [apply truthy_false in Ef | apply truthy_true in Ef];
    first [apply truthy_false in Et | apply truthy_true in Et];
    first [apply truthy_false in Ed | apply truthy_true in Ed]; simpl;
    destruct (Date_lt _ _), (Date_gt _ _),
      (String.eqb_spec (BorrowRecord.borrower_dept r) dept); simpl;
    intuition congruence.
Qed.

Lemma keeps_blank (r : BorrowRecord.t) : Report.keeps "" "" "" r = true.
Proof. reflexivity. Qed.

(** C4, as the code has it. [filtered] keeps a record exactly when
    ([from] is blank or [start_date < from] is false) and ([to] is blank or
    [start_date > to] is false) and ([dept] is blank or [borrower_dept]
    is [dept]), the dates compared as parsed.  Where [start_date] parses,
    and each bound is blank or parses, this is the specification's
    condition; a record whose [start_date] does not parse passes both date
    bounds. *)
Theorem filtered_keeps_unless_out_of_bounds
    (from to dept : string) (borrows : list BorrowRecord.t) (r : BorrowRecord.t) :
  (r ∈ Report.filtered from to dept borrows <->
     r ∈ borrows
     /\ (from = "" \/ Date_lt (new_Date (BorrowRecord.start_date r)) (new_Date from) = false)
     /\ (to = "" \/ Date_gt (new_Date (BorrowRecord.start_date r)) (new_Date to) = false)
     /\ (dept = "" \/ BorrowRecord.borrower_dept r = dept))
  /\ (new_Date (BorrowRecord.start_date r) <> None ->
      from = "" \/ new_Date from <> None ->
      to = "" \/ new_Date to <> None ->
      Report.keeps from to dept r = spec_keeps from to dept r)
  /\ (new_Date (BorrowRecord.start_date r) = None ->
      Report.keeps from to dept r
      = negb (Js.truthy dept) || (BorrowRecord.borrower_dept r =? dept)%string).
Proof.
  split; [|split].
  - unfold Report.filtered. rewrite list_elem_of_filter, Is_true_true, keeps_true. tauto.
  - intros Hsd Hf Ht. unfold Report.keeps, spec_keeps. rewrite or_empty_id.
    destruct (new_Date (BorrowRecord.start_date r)) as [sd|]; [|done].
    assert (Hf' : Js.truthy from = false \/ exists f, new_Date from = Some f).
    { destruct Hf as [-> | Hf]; [now left|right].
      destruct (new_Date from) as [f|]; [now exists f|done]. }
    assert (Ht' : Js.truthy to = false \/ exists t, new_Date to = Some t).
    { destruct Ht as [-> | Ht]; [now left|right].
      destruct (new_Date to) as [t|]; [now exists t|done]. }
    destruct Hf' as [-> | [f ->]], Ht' as [-> | [t ->]]; simpl;
      rewrite ?(Z.ltb_antisym sd), ?(Z.ltb_antisym _ sd);
      repeat match goal with
             | |- context [Js.truthy ?x] => destruct (Js.truthy x)
             | |- context [(?x <=? ?y)] => destruct (x <=? y)
             | |- context [(?x =? ?y)%string] => destruct (x =? y)%string
             end; reflexivity.
  - intros Hsd. unfold Report.keeps. rewrite or_empty_id, Hsd. simpl.
    rewrite !andb_false_r. simpl.
    now destruct (Js.truthy dept), (_ =? _)%string.
Qed.

(** C6. With no bound and no department [filtered] returns all the records
    in their order, and under every filter its result is a sublist of the
    input: the records kept stand in the order they had. *)
Theorem filtered_identity_and_order (borrows : list BorrowRecord.t) :
  Report.filtered "" "" "" borrows = borrows
  /\ forall from to dept : string, Report.filtered from to dept borrows `sublist_of` borrows.
Proof.
  split.
  - unfold Report.filtered. induction borrows as [|r l IH]; [done|].
    rewrite filter_cons_True by now rewrite keeps_blank. now rewrite IH.
  - intros from to dept. apply sublist_filter.
Qed.

End Filter.

Lemma filtered_keeps_unless_out_of_bounds_witness :
  Report.keeps (H := example_host) "2024-01-01" "2024-01-31" "ICU"
    (Examples.loan "r3" "2024-01-18" "ICU" None)
  = spec_keeps (H := example_host) "2024-01-01" "2024-01-31" "ICU"
      (Examples.loan "r3" "2024-01-18" "ICU" None).
Proof.
  apply (proj1 (proj2 (filtered_keeps_unless_out_of_bounds (H := example_host)
           "2024-01-01" "2024-01-31" "ICU" Examples.ledger
           (Examples.loan "r3" "2024-01-18" "ICU" None)))).
  - discriminate.
  - right. discriminate.
  - right. discriminate.
Defined.

(** C4, the counterexample. A record whose [start_date] is the string
    [invalid-date] is kept under the upper bound 2024-12-31, although its
    start date is not on or before that bound. *)
Lemma filtered_keeps_unparseable_start_date :
  new_Date (H := example_host) "invalid-date" = None
  /\ Report.filtered (H := example_host) "" "2024-12-31" "" [Examples.undated] = [Examples.undated]
  /\ spec_keeps (H := example_host) "" "2024-12-31" "" Examples.undated = false.
Proof. repeat split. Qed.

(** The department scenario: only the ICU records, in their order. *)
Example filtered_ICU :
  Report.filtered (H := example_host) "" "" "ICU" Examples.ledger
  = [Examples.loan "r3" "2024-01-18" "ICU" None;
     Examples.loan "r1" "2023-12-01" "ICU" (Some "2023-12-20T09:30:00.000Z")].
Proof. reflexivity. Qed.

(** ** Updating and returning a borrow record *)

Section BorrowFrame.
Variables (id : string) (borrows : list BorrowRecord.t).

Lemma fmap_unmatched (f : BorrowRecord.t -> BorrowRecord.t) :
  (forall b, b ∈ borrows -> BorrowRecord.id b <> id) ->
  (fun b => if (BorrowRecord.id b =? id)%string then f b else b) <$> borrows = borrows.
Proof.
  induction borrows as [|b l IH]; intros Hid; [done|].
  rewrite fmap_cons, IH by (intros x Hx; apply Hid; now right).
  assert (Hb := Hid b ltac:(now left)).
  now apply String.eqb_neq in Hb as ->.
Qed.

(** C10. For an id that matches no record, [updateBorrow] and
    [returnBorrow] return [true] and leave the collection as it was; for
    any id, every record whose id differs stays at its place unchanged, and
    the collection keeps its length. *)
Theorem updateBorrow_returnBorrow_frame (now : Z) (patch : BorrowPatch.t) :
  ((forall b, b ∈ borrows -> BorrowRecord.id b <> id) ->
     App.updateBorrow id patch borrows = (true, borrows)
     /\ App.returnBorrow now id borrows = (true, borrows))
  /\ (forall (i : nat) (b : BorrowRecord.t),
        borrows !! i = Some b -> BorrowRecord.id b <> id ->
        (App.updateBorrow id patch borrows).2 !! i = Some b
        /\ (App.returnBorrow now id borrows).2 !! i = Some b)
  /\ (App.updateBorrow id patch borrows).1 = true
  /\ (App.returnBorrow now id borrows).1 = true
  /\ length (App.updateBorrow id patch borrows).2 = length borrows
  /\ length (App.returnBorrow now id borrows).2 = length borrows.
Proof.
  unfold App.updateBorrow, App.returnBorrow. simpl.
  split; [|split; [|repeat split; now rewrite ?length_fmap]].
  - intros Hid. split; f_equal; now apply fmap_unmatched.
  - intros i b Hi Hne. rewrite !list_lookup_fmap, Hi. simpl.
    now apply String.eqb_neq in Hne as ->.
Qed.

End BorrowFrame.

Lemma updateBorrow_returnBorrow_frame_witness :
  App.updateBorrow "r7" BorrowPatch.empty Examples.ledger = (true, Examples.ledger)
  /\ App.returnBorrow Examples.now "r7" Examples.ledger = (true, Examples.ledger).
Proof.
  apply (proj1 (updateBorrow_returnBorrow_frame "r7" Examples.ledger Examples.now
                  BorrowPatch.empty)).
  intros b Hb. unfold Examples.ledger in Hb.
  repeat (apply elem_of_cons in Hb as [-> | Hb]; [discriminate|]).
  now apply elem_of_nil in Hb.
Defined.

(** ** Registering assets *)

Lemma duplicates_key_iff (p : Assets.Form) (l : list Asset.t) :
  duplicates_key p l <->
  Assets.asset_id p ∈ (Asset.asset_id <$> l) \/ Assets.id_code p ∈ (Asset.id_code <$> l)
  \/ Assets.serial p ∈ (Asset.serial <$> l).
Proof.
  unfold duplicates_key. rewrite !list_elem_of_fmap. split.
  - intros (a & Ha & [E | [E | E]]); [left | right; left | right; right]; now exists a.
  - intros [(a & E & Ha) | [(a & E & Ha) | (a & E & Ha)]]; exists a; auto.
Qed.

Section Registration.
Context `{Runtime}.

(** What [submit] does, by cases on the form it reads. *)
Lemma submit_cases (st : Assets.State) :
  let f := Assets.form st in
  (missing_required f
   /\ Assets.assets (Assets.submit st) = Assets.assets st
   /\ Assets.err (Assets.submit st) = Assets.err_required)
  \/ (~ missing_required f /\ (Assets.asset_id f ∈ (Asset.asset_id <$> Assets.assets st))
      /\ Assets.assets (Assets.submit st) = Assets.assets st
      /\ Assets.err (Assets.submit st) = Assets.err_asset_id)
  \/ (~ missing_required f /\ (Assets.asset_id f ∉ (Asset.asset_id <$> Assets.assets st))
      /\ (Assets.id_code f ∈ (Asset.id_code <$> Assets.assets st))
      /\ Assets.assets (Assets.submit st) = Assets.assets st
      /\ Assets.err (Assets.submit st) = Assets.err_id_code)
  \/ (~ missing_required f /\ (Assets.asset_id f ∉ (Asset.asset_id <$> Assets.assets st))
      /\ (Assets.id_code f ∉ (Asset.id_code <$> Assets.assets st))
      /\ (Assets.serial f ∈ (Asset.serial <$> Assets.assets st))
      /\ Assets.assets (Assets.submit st) = Assets.assets st
      /\ Assets.err (Assets.submit st) = Assets.err_serial)
  \/ (~ missing_required f /\ (Assets.asset_id f ∉ (Asset.asset_id <$> Assets.assets st))
      /\ (Assets.id_code f ∉ (Asset.id_code <$> Assets.assets st))
      /\ (Assets.serial f ∉ (Asset.serial <$> Assets.assets st))
      /\ Assets.assets (Assets.submit st) = Assets.payload_of f :: Assets.assets st
      /\ Assets.err (Assets.submit st) = ""
      /\ Assets.form (Assets.submit st) = Assets.blank).
Proof.
  destruct st as [brands models vendors assets f err editingId editForm ab nb am nm av nv al].
  unfold Assets.submit, App.createAsset, missing_required. simpl.
  destruct (Js.truthy (Assets.asset_id f)) eqn:E1; simpl;
    [apply truthy_true in E1 | apply truthy_false in E1; left; auto].
  destruct (Js.truthy (Assets.id_code f)) eqn:E2; simpl;
    [apply truthy_true in E2 | apply truthy_false in E2; left; auto].
  destruct (Js.truthy (Assets.name f)) eqn:E3; simpl;
    [apply truthy_true in E3 | apply truthy_false in E3; left; auto].
  destruct (Js.truthy (Assets.serial f)) eqn:E4; simpl;
    [apply truthy_true in E4 | apply truthy_false in E4; left; auto].
  assert (Hm : ~ (Assets.asset_id f = "" \/ Assets.id_code f = "" \/ Assets.name f = ""
                  \/ Assets.serial f = "")) by tauto.
  right.
  destruct (existsb _ assets) eqn:D1; simpl;
    [apply existsb_key in D1; left; now repeat split
    | apply existsb_key_false in D1; right].
  destruct (existsb _ assets) eqn:D2; simpl;
    [apply existsb_key in D2; left; now repeat split
    | apply existsb_key_false in D2; right].
  destruct (existsb _ assets) eqn:D3; simpl;
    [apply existsb_key in D3; left; now repeat split
    | apply existsb_key_false in D3; right].
  now repeat split.
Qed.

Lemma registerAsset_form (st : Assets.State) (payload : Assets.Form) :
  Assets.form (Assets.setForm payload st) = payload
  /\ Assets.assets (Assets.setForm payload st) = Assets.assets st.
Proof. now destruct st. Qed.

Lemma registerAsset_rejects (st : Assets.State) (payload : Assets.Form) :
  missing_required payload \/ duplicates_key payload (Assets.assets st) ->
  Assets.assets (Assets.registerAsset st payload) = Assets.assets st
  /\ validation_error (Assets.err (Assets.registerAsset st payload)).
Proof.
  rewrite duplicates_key_iff. unfold Assets.registerAsset, validation_error.
  destruct (registerAsset_form st payload) as [Ef Ea].
  pose proof (submit_cases (Assets.setForm payload st)) as Hc. simpl in Hc.
  rewrite Ef, Ea in Hc. rewrite !elem_of_cons.
  intros Hbad. destruct Hc as [Hc | [Hc | [Hc | [Hc | Hc]]]]; intuition.
Qed.

Lemma registerAsset_accepts (st : Assets.State) (payload : Assets.Form) :
  ~ missing_required payload -> ~ duplicates_key payload (Assets.assets st) ->
  Assets.assets (Assets.registerAsset st payload) = Assets.payload_of payload :: Assets.assets st
  /\ Assets.err (Assets.registerAsset st payload) = "".
Proof.
  rewrite duplicates_key_iff. unfold Assets.registerAsset.
  destruct (registerAsset_form st payload) as [Ef Ea].
  pose proof (submit_cases (Assets.setForm payload st)) as Hc. simpl in Hc.
  rewrite Ef, Ea in Hc.
  intros Hm Hd. destruct Hc as [Hc | [Hc | [Hc | [Hc | Hc]]]]; intuition.
Qed.

Lemma submit_keys_unique (st : Assets.State) :
  keys_unique (Assets.assets st) -> keys_unique (Assets.assets (Assets.submit st)).
Proof.
  unfold keys_unique. intros (U1 & U2 & U3).
  destruct (submit_cases st) as [(_ & -> & _) | [(_ & _ & -> & _) | [(_ & _ & _ & -> & _)
    | [(_ & _ & _ & _ & -> & _) | (_ & N1 & N2 & N3 & -> & _)]]]]; try done.
  rewrite !fmap_cons. simpl. repeat split; now apply NoDup_cons.
Qed.

Lemma registerAsset_keys_unique (st : Assets.State) (payload : Assets.Form) :
  keys_unique (Assets.assets st) ->
  keys_unique (Assets.assets (Assets.registerAsset st payload)).
Proof.
  intros Hu. apply submit_keys_unique. now rewrite (proj2 (registerAsset_form st payload)).
Qed.

(** C1. Starting from a collection whose three key fields are pairwise
    distinct, every sequence of registrations leaves them pairwise
    distinct; a registration whose payload lacks [asset_id], [id_code],
    [name] or [serial], or repeats one of the three keys of an asset of the
    collection, ends with a validation error and the collection unchanged;
    any other registration puts the new asset in front. *)
Theorem registerAsset_keeps_keys_unique :
  (forall (st : Assets.State) (payloads : list Assets.Form),
      keys_unique (Assets.assets st) ->
      keys_unique (Assets.assets (foldl Assets.registerAsset st payloads)))
  /\ (forall (st : Assets.State) (payload : Assets.Form),
        missing_required payload \/ duplicates_key payload (Assets.assets st) ->
        Assets.assets (Assets.registerAsset st payload) = Assets.assets st
        /\ validation_error (Assets.err (Assets.registerAsset st payload)))
  /\ (forall (st : Assets.State) (payload : Assets.Form),
        ~ missing_required payload -> ~ duplicates_key payload (Assets.assets st) ->
        Assets.assets (Assets.registerAsset st payload)
        = Assets.payload_of payload :: Assets.assets st
        /\ Assets.err (Assets.registerAsset st payload) = "").
Proof.
  split; [|split].
  - intros st payloads. revert st.
    induction payloads as [|p ps IH]; intros st Hu; [done|].
    simpl. apply IH. now apply registerAsset_keys_unique.
  - exact registerAsset_rejects.
  - exact registerAsset_accepts.
Qed.

End Registration.

Lemma examples_keys_unique : keys_unique [Examples.pump; Examples.monitor].
Proof.
  repeat split; simpl; repeat (apply NoDup_cons; split);
    rewrite ?elem_of_cons, ?elem_of_nil; try apply NoDup_nil_2; intuition discriminate.
Qed.

Lemma registerAsset_keeps_keys_unique_witness :
  keys_unique
    (Assets.assets
       (foldl (Assets.registerAsset (H := example_host))
          (Examples.assets_state [Examples.pump; Examples.monitor])
          [Examples.pump_form; Examples.clash_form])).
Proof.
  apply (proj1 (registerAsset_keeps_keys_unique (H := example_host))).
  exact examples_keys_unique.
Defined.

(** The two registrations of the witness: the first is accepted, the second
    repeats the ID code of the pump and is turned down. *)
Example registerAsset_run :
  Asset.asset_id <$>
    Assets.assets
      (foldl (Assets.registerAsset (H := example_host))
         (Examples.assets_state [Examples.pump; Examples.monitor])
         [Examples.pump_form; Examples.clash_form])
  = ["A3"; "A1"; "A2"]
  /\ Assets.err
       (foldl (Assets.registerAsset (H := example_host))
          (Examples.assets_state [Examples.pump; Examples.monitor])
          [Examples.pump_form; Examples.clash_form])
     = Assets.err_id_code.
Proof. split; reflexivity. Qed.

(** ** Editing an asset *)

Section Editing.
Context `{Runtime}.

Lemma saveEdit_requires (st : Assets.State) :
  edit_missing_required (Assets.editForm st) ->
  Assets.saveEdit st = Assets.setErr Assets.err_required st.
Proof.
  intros Hreq. unfold Assets.saveEdit.
  destruct Hreq as [-> | [-> | [-> | ->]]]; simpl; now rewrite ?orb_true_r.
Qed.

Lemma saveEdit_rejects (st : Assets.State) :
  edit_clashes st ->
  exists msg, validation_error msg /\ Assets.saveEdit st = Assets.setErr msg st.
Proof.
  intros (other & [Ho Hne] & Hk). unfold Assets.saveEdit, validation_error.
  destruct (_ || _ || _ || _); [exists Assets.err_required; split; [in_list|done]|].
  destruct (existsb _ (Assets.assets st)) eqn:D1;
    [exists Assets.err_asset_id; split; [in_list|done]|].
  pose proof (proj1 (existsb_false _ _) D1 other Ho) as K1. clear D1.
  destruct (existsb _ (Assets.assets st)) eqn:D2;
    [exists Assets.err_id_code; split; [in_list|done]|].
  pose proof (proj1 (existsb_false _ _) D2 other Ho) as K2. clear D2.
  destruct (existsb _ (Assets.assets st)) eqn:D3;
    [exists Assets.err_serial; split; [in_list|done]|].
  pose proof (proj1 (existsb_false _ _) D3 other Ho) as K3. clear D3.
  exfalso.
  unfold Assets.other_than in K1, K2, K3. rewrite Hne in K1, K2, K3. simpl in K1, K2, K3.
  rewrite andb_true_r in K1, K2, K3.
  destruct Hk as [E | [E | E]]; rewrite E in *; simpl in *;
    rewrite String.eqb_refl in *; discriminate.
Qed.

(** Without a clash, none of the three lookups of [saveEdit] finds an asset. *)
Lemma no_clash_no_hit (st : Assets.State) (key : Asset.t -> string) (k : option string) :
  (forall other, other_asset st other -> k <> Some (key other)) ->
  existsb (fun a => Js.eq_opt (key a) k && Assets.other_than (Assets.editingId st) a)
    (Assets.assets st) = false.
Proof.
  intros Hfree. apply existsb_false. intros a Ha.
  destruct (Js.eq_opt (key a) k) eqn:Ek; [|done]. apply eq_opt_true in Ek.
  unfold Assets.other_than.
  destruct (Js.eq_opt (Asset.asset_id a) (Assets.editingId st)) eqn:Ee; [done|].
  exfalso. now apply (Hfree a).
Qed.

Lemma saveEdit_accepts (st : Assets.State) :
  ~ edit_missing_required (Assets.editForm st) -> ~ edit_clashes st ->
  Assets.saveEdit st = edit_saved st.
Proof.
  unfold edit_missing_required, edit_clashes. intros Hreq Hclash. unfold Assets.saveEdit.
  destruct (Js.truthy_opt (AssetPatch.asset_id _)); [|tauto].
  destruct (Js.truthy_opt (AssetPatch.id_code _)); [|tauto].
  destruct (Js.truthy_opt (AssetPatch.name _)); [|tauto].
  destruct (Js.truthy_opt (AssetPatch.serial _)); [|tauto].
  rewrite !no_clash_no_hit; [done| | |]; intros other Ho E; apply Hclash; exists other; auto.
Qed.

(** In a collection with pairwise-distinct keys, the edited asset's own keys
    clash with no other asset. *)
Lemma own_keys_do_not_clash (st : Assets.State) (a : Asset.t) :
  keys_unique (Assets.assets st) -> a ∈ Assets.assets st ->
  Assets.editingId st = Some (Asset.asset_id a) ->
  AssetPatch.asset_id (Assets.editForm st) = Some (Asset.asset_id a) ->
  AssetPatch.id_code (Assets.editForm st) = Some (Asset.id_code a) ->
  AssetPatch.serial (Assets.editForm st) = Some (Asset.serial a) ->
  ~ edit_clashes st.
Proof.
  intros (U1 & U2 & U3) Ha Hid E1 E2 E3 (other & [Ho Hne] & Hk).
  rewrite Hid in Hne. rewrite E1, E2, E3 in Hk.
  assert (other = a) as ->.
  { destruct Hk as [[= E] | [[= E] | [= E]]].
    - now apply (NoDup_fmap_eq Asset.asset_id (Assets.assets st)).
    - now apply (NoDup_fmap_eq Asset.id_code (Assets.assets st)).
    - now apply (NoDup_fmap_eq Asset.serial (Assets.assets st)). }
  simpl in Hne. now rewrite String.eqb_refl in Hne.
Qed.

(** *** The uniqueness invariant under edits and deletions *)

Lemma deleteAsset_keys_unique (id : string) (l : list Asset.t) :
  keys_unique l -> keys_unique (App.deleteAsset id l).2.
Proof.
  unfold keys_unique, App.deleteAsset. simpl. intros (U1 & U2 & U3).
  repeat split.
  - apply (sublist_NoDup _ _ U1), fmap_sublist, sublist_filter.
  - apply (sublist_NoDup _ _ U2), fmap_sublist, sublist_filter.
  - apply (sublist_NoDup _ _ U3), fmap_sublist, sublist_filter.
Qed.

(** Replacing the key of the assets whose [asset_id] is [eid] by a value
    that no other asset carries keeps the key pairwise distinct. *)
Lemma NoDup_after_update (key : Asset.t -> string) (upd : Asset.t -> Asset.t)
    (eid : option string) (k : string) (l : list Asset.t) :
  NoDup (Asset.asset_id <$> l) -> NoDup (key <$> l) ->
  (forall a, key (upd a) = k) ->
  (forall a, a ∈ l -> Js.eq_opt (Asset.asset_id a) eid = false -> key a <> k) ->
  NoDup (key <$> ((fun a => if Js.eq_opt (Asset.asset_id a) eid then upd a else a) <$> l)).
Proof.
  intros Hid Hkey Hupd. induction l as [|a l IH]; intros Hother; [apply NoDup_nil_2|].
  rewrite !fmap_cons in *. apply NoDup_cons in Hid as [Ha Hid], Hkey as [Hka Hkey].
  apply NoDup_cons. split; [|apply IH; auto; intros b Hb; apply Hother; now right].
  intros (b' & E & (b & -> & Hb)%list_elem_of_fmap)%list_elem_of_fmap.
  destruct (Js.eq_opt (Asset.asset_id a) eid) eqn:Ea.
  - destruct eid as [e|]; [|done]. apply eq_opt_Some in Ea.
    assert (Eb : Js.eq_opt (Asset.asset_id b) (Some e) = false).
    { destruct (Js.eq_opt (Asset.asset_id b) (Some e)) eqn:Eb; [|done].
      apply eq_opt_Some in Eb. exfalso. apply Ha. rewrite Ea, <- Eb.
      now apply list_elem_of_fmap_2. }
    rewrite Eb, Hupd in E. symmetry in E. revert E. apply Hother; [now right|done].
  - destruct (Js.eq_opt (Asset.asset_id b) eid) eqn:Eb.
    + rewrite Hupd in E. revert E. apply Hother; [now left|done].
    + apply Hka. rewrite E. now apply list_elem_of_fmap_2.
Qed.

Lemma assets_after_update (l : list Asset.t) (st : Assets.State) :
  Assets.assets (Assets.setEditForm Assets.empty (Assets.setEditingId None (Assets.setAssets l st)))
  = l.
Proof. now destruct st. Qed.

(** Whatever the edit, [saveEdit] keeps the three keys pairwise distinct. *)
Lemma saveEdit_keys_unique (st : Assets.State) :
  keys_unique (Assets.assets st) -> keys_unique (Assets.assets (Assets.saveEdit st)).
Proof.
  intros (U1 & U2 & U3). unfold Assets.saveEdit.
  destruct (Js.truthy_opt (AssetPatch.asset_id (Assets.editForm st))) eqn:T1;
    [|now destruct st]. apply truthy_opt_true in T1 as [x Ex].
  destruct (Js.truthy_opt (AssetPatch.id_code (Assets.editForm st))) eqn:T2;
    [|now destruct st]. apply truthy_opt_true in T2 as [y Ey].
  destruct (Js.truthy_opt (AssetPatch.name (Assets.editForm st))) eqn:T3;
    [|now destruct st].
  destruct (Js.truthy_opt (AssetPatch.serial (Assets.editForm st))) eqn:T4;
    [|now destruct st]. apply truthy_opt_true in T4 as [z Ez].
  simpl.
  destruct (existsb _ (Assets.assets st)) eqn:D1; [now destruct st|].
  pose proof (proj1 (existsb_false _ _) D1) as K1. clear D1.
  destruct (existsb _ (Assets.assets st)) eqn:D2; [now destruct st|].
  pose proof (proj1 (existsb_false _ _) D2) as K2. clear D2.
  destruct (existsb _ (Assets.assets st)) eqn:D3; [now destruct st|].
  pose proof (proj1 (existsb_false _ _) D3) as K3. clear D3.
  assert (Hfree : forall (key : Asset.t -> string) (k : string) (a : Asset.t),
             Js.eq_opt (key a) (Some k) && Assets.other_than (Assets.editingId st) a = false ->
             Js.eq_opt (Asset.asset_id a) (Assets.editingId st) = false -> key a <> k).
  { intros key k a Hk Ho E. unfold Assets.other_than in Hk. rewrite Ho, E in Hk. simpl in Hk.
    now rewrite String.eqb_refl in Hk. }
  rewrite Ex in K1. rewrite Ey in K2. rewrite Ez in K3.
  unfold App.updateAsset. rewrite assets_after_update.
  repeat split.
  - apply (NoDup_after_update Asset.asset_id _ _ x);
      [exact U1 | exact U1 | intros a; simpl; now rewrite Ex
      | intros a Ha; apply Hfree; now apply K1].
  - apply (NoDup_after_update Asset.id_code _ _ y);
      [exact U1 | exact U2 | intros a; simpl; now rewrite Ey
      | intros a Ha; apply Hfree; now apply K2].
  - apply (NoDup_after_update Asset.serial _ _ z);
      [exact U1 | exact U3 | intros a; simpl; now rewrite Ez
      | intros a Ha; apply Hfree; now apply K3].
Qed.

(** C5, as the code has it. [saveEdit] turns an edit down with a
    validation error, changing nothing else, when the form lacks [asset_id],
    [id_code], [name] or [serial] (the required-fields message), or when its
    [asset_id], [id_code] or [serial] is that of an asset other than the one
    being edited; every other edit is saved: the patch is merged by
    [updateAsset] and the edit closes.  In a collection with
    pairwise-distinct keys the asset's own key values clash with no other
    asset, so an edit that keeps them (non-empty, as registration leaves
    them) and leaves [name] non-empty is saved. *)
Theorem saveEdit_revalidates_against_others :
  (forall st : Assets.State,
      edit_missing_required (Assets.editForm st) ->
      Assets.saveEdit st = Assets.setErr Assets.err_required st)
  /\ (forall st : Assets.State,
        edit_clashes st ->
        exists msg, validation_error msg /\ Assets.saveEdit st = Assets.setErr msg st)
  /\ (forall st : Assets.State,
        ~ edit_missing_required (Assets.editForm st) -> ~ edit_clashes st ->
        Assets.saveEdit st = edit_saved st)
  /\ (forall (st : Assets.State) (a : Asset.t),
        keys_unique (Assets.assets st) -> a ∈ Assets.assets st ->
        Assets.editingId st = Some (Asset.asset_id a) ->
        AssetPatch.asset_id (Assets.editForm st) = Some (Asset.asset_id a) ->
        AssetPatch.id_code (Assets.editForm st) = Some (Asset.id_code a) ->
        AssetPatch.serial (Assets.editForm st) = Some (Asset.serial a) ->
        Asset.asset_id a <> "" -> Asset.id_code a <> "" -> Asset.serial a <> "" ->
        Js.truthy_opt (AssetPatch.name (Assets.editForm st)) = true ->
        Assets.saveEdit st = edit_saved st).
Proof.
  split; [exact saveEdit_requires|split; [exact saveEdit_rejects|split; [exact saveEdit_accepts|]]].
  intros st a Hu Ha Hid E1 E2 E3 N1 N2 N3 Hn.
  apply saveEdit_accepts; [|now apply (own_keys_do_not_clash st a)].
  unfold edit_missing_required. rewrite E1, E2, E3, Hn. simpl.
  rewrite (proj2 (truthy_true _) N1), (proj2 (truthy_true _) N2), (proj2 (truthy_true _) N3).
  intuition discriminate.
Qed.

End Editing.

Lemma saveEdit_revalidates_against_others_witness :
  Assets.saveEdit (H := example_host) (Examples.rename_pump "Pump 2")
  = edit_saved (H := example_host) (Examples.rename_pump "Pump 2").
Proof.
  apply (proj2 (proj2 (proj2 (saveEdit_revalidates_against_others (H := example_host))))
           (Examples.rename_pump "Pump 2") Examples.pump);
    solve [exact examples_keys_unique | now left | reflexivity | discriminate].
Defined.

(** The edit of the witness renames the pump and nothing else. *)
Example saveEdit_run :
  Asset.name <$> Assets.assets (Assets.saveEdit (H := example_host) (Examples.rename_pump "Pump 2"))
  = ["Pump 2"; "Patient monitor"]
  /\ Assets.editingId (Assets.saveEdit (H := example_host) (Examples.rename_pump "Pump 2")) = None.
Proof. split; reflexivity. Qed.

(** C5, the counterexample. Clearing the name of the pump changes a non-key
    field only (the three keys of the edit form are the pump's own), and the
    edit is turned down with the required-fields message: the collection and
    the edit stay as they were. *)
Lemma saveEdit_rejects_blank_name :
  AssetPatch.asset_id (Assets.editForm (Examples.rename_pump "")) = Some (Asset.asset_id Examples.pump)
  /\ AssetPatch.id_code (Assets.editForm (Examples.rename_pump "")) = Some (Asset.id_code Examples.pump)
  /\ AssetPatch.serial (Assets.editForm (Examples.rename_pump "")) = Some (Asset.serial Examples.pump)
  /\ Assets.err (Assets.saveEdit (H := example_host) (Examples.rename_pump "")) = Assets.err_required
  /\ Assets.assets (Assets.saveEdit (H := example_host) (Examples.rename_pump ""))
     = [Examples.pump; Examples.monitor]
  /\ Assets.editingId (Assets.saveEdit (H := example_host) (Examples.rename_pump "")) = Some "A1".
Proof. repeat split. Qed.

(** Retyping the pump's serial as the monitor's is turned down. *)
Example saveEdit_rejects_taken_serial :
  Assets.err (Assets.saveEdit (H := example_host) (Examples.reserial_pump "S2")) = Assets.err_serial
  /\ Assets.assets (Assets.saveEdit (H := example_host) (Examples.reserial_pump "S2"))
     = [Examples.pump; Examples.monitor].
Proof. split; reflexivity. Qed.

(** ** Quick-add of the reference lists *)

Section QuickAdd.
Variable s : string.

(** Appending the trimmed input unless it is blank or already there: what
    the three string lists go through. *)
Lemma append_if_absent (l : list string) :
  let l' := if Js.truthy (Js.trim s) && negb (Assets.includes l (Js.trim s))
            then l ++ [Js.trim s] else l in
  (Js.trim s ∈ l -> l' = l)
  /\ (NoDup l -> NoDup l')
  /\ (if Js.truthy (Js.trim s) && negb (Assets.includes l' (Js.trim s))
      then l' ++ [Js.trim s] else l') = l'.
Proof.
  simpl. destruct (Js.truthy (Js.trim s)); simpl; [|done].
  destruct (Assets.includes l (Js.trim s)) eqn:Ei; simpl.
  - now rewrite Ei.
  - apply includes_false in Ei. repeat split; [done|intros Hl; now apply NoDup_snoc|].
    assert (Assets.includes (l ++ [Js.trim s]) (Js.trim s) = true) as ->; [|done].
    apply includes_true, elem_of_app. right. now left.
Qed.

(** The same for the models, under the brand [cb]. *)
Lemma append_model_if_absent (cb : option string) (l : list Model.t) :
  let p := fun m => (Model.name m =? Js.trim s)%string
                    && (Model.brand m =? default "" cb)%string in
  let l' := if Js.truthy_opt cb && Js.truthy (Js.trim s)
            then match List.find p l with
                 | None => l ++ [Model.mk (default "" cb) (Js.trim s)]
                 | Some _ => l
                 end
            else l in
  (forall b, cb = Some b -> Model.mk b (Js.trim s) ∈ l -> l' = l)
  /\ (NoDup l -> NoDup l')
  /\ (if Js.truthy_opt cb && Js.truthy (Js.trim s)
      then match List.find p l' with
           | None => l' ++ [Model.mk (default "" cb) (Js.trim s)]
           | Some _ => l'
           end
      else l') = l'.
Proof.
  simpl. destruct (Js.truthy_opt cb && Js.truthy (Js.trim s)); [|done].
  destruct (List.find _ l) eqn:Ef.
  - now rewrite Ef.
  - apply find_model_None in Ef. repeat split.
    + intros b -> Hin. now simpl in Ef.
    + intros Hl. now apply NoDup_snoc.
    + destruct (List.find _ (l ++ _)) eqn:Ef'; [done|].
      apply find_model_None in Ef'. exfalso. apply Ef', elem_of_app. right. now left.
Qed.

Lemma brands_quickAddBrand (st : Assets.State) :
  Assets.brands (quickAddBrand s st)
  = if Js.truthy (Js.trim s) && negb (Assets.includes (Assets.brands st) (Js.trim s))
    then Assets.brands st ++ [Js.trim s] else Assets.brands st.
Proof.
  destruct st as [brands models vendors assets f err editingId editForm ab nb am nm av nv al].
  unfold quickAddBrand, Assets.confirmAddBrand. cbv zeta. simpl.
  destruct (Js.truthy (Js.trim s)); simpl; [|done].
  destruct (Assets.includes _ (Js.trim s)); simpl; now split_ifs.
Qed.

Lemma vendors_quickAddVendor (st : Assets.State) :
  Assets.vendors (quickAddVendor s st)
  = if Js.truthy (Js.trim s) && negb (Assets.includes (Assets.vendors st) (Js.trim s))
    then Assets.vendors st ++ [Js.trim s] else Assets.vendors st.
Proof.
  destruct st as [brands models vendors assets f err editingId editForm ab nb am nm av nv al].
  unfold quickAddVendor, Assets.confirmAddVendor. cbv zeta. simpl.
  destruct (Js.truthy (Js.trim s)); simpl; [|done].
  destruct (Assets.includes _ (Js.trim s)); simpl; now split_ifs.
Qed.

Lemma depts_quickAddDept (st : Borrow.State) :
  Borrow.depts (quickAddDept s st)
  = if Js.truthy (Js.trim s) && negb (Assets.includes (Borrow.depts st) (Js.trim s))
    then Borrow.depts st ++ [Js.trim s] else Borrow.depts st.
Proof.
  destruct st as [depts f ad nd].
  unfold quickAddDept, Borrow.confirmAddDept. cbv zeta. simpl.
  destruct (Js.truthy (Js.trim s)); simpl; [|done].
  destruct (Assets.includes _ (Js.trim s)); simpl; now split_ifs.
Qed.

Lemma currentBrand_quickAddModel (st : Assets.State) :
  currentBrand (quickAddModel s st) = currentBrand st.
Proof.
  destruct st as [brands models vendors assets f err editingId editForm ab nb am nm av nv al].
  unfold quickAddModel, Assets.confirmAddModel, currentBrand. simpl.
  destruct (Js.truthy_opt editingId) eqn:Ee; split_ifs; simpl in *; congruence.
Qed.

Lemma models_quickAddModel (st : Assets.State) :
  Assets.models (quickAddModel s st)
  = if Js.truthy_opt (currentBrand st) && Js.truthy (Js.trim s)
    then
      match List.find (fun m => (Model.name m =? Js.trim s)%string
                                && (Model.brand m =? default "" (currentBrand st))%string)
              (Assets.models st) with
      | None => Assets.models st ++ [Model.mk (default "" (currentBrand st)) (Js.trim s)]
      | Some _ => Assets.models st
      end
    else Assets.models st.
Proof.
  destruct st as [brands models vendors assets f err editingId editForm ab nb am nm av nv al].
  unfold quickAddModel, Assets.confirmAddModel, currentBrand. simpl.
  destruct (Js.truthy_opt editingId) eqn:Ee; simpl.
  - destruct (Js.truthy_opt (AssetPatch.brand editForm)); simpl; [|done].
    destruct (Js.truthy (Js.trim s)); simpl; [|done].
    destruct (List.find _ models); simpl; now rewrite ?Ee.
  - destruct (Js.truthy (Assets.brand f)); simpl; [|done].
    destruct (Js.truthy (Js.trim s)); simpl; [|done].
    destruct (List.find _ models); simpl; now rewrite ?Ee.
Qed.

Lemma quickAddBrand_NoDup (st : Assets.State) :
  NoDup (Assets.brands st) -> NoDup (Assets.brands (quickAddBrand s st)).
Proof. rewrite brands_quickAddBrand. apply append_if_absent. Qed.

Lemma quickAddModel_NoDup (st : Assets.State) :
  NoDup (Assets.models st) -> NoDup (Assets.models (quickAddModel s st)).
Proof. rewrite models_quickAddModel. apply append_model_if_absent. Qed.

Lemma quickAddVendor_NoDup (st : Assets.State) :
  NoDup (Assets.vendors st) -> NoDup (Assets.vendors (quickAddVendor s st)).
Proof. rewrite vendors_quickAddVendor. apply append_if_absent. Qed.

(** C9. Each quick-add ([confirmAddBrand], [confirmAddModel],
    [confirmAddVendor], [confirmAddDept]) leaves its list as it is when the
    trimmed value is already in it (for models: the pair of the current
    brand and the trimmed name); it takes a list without duplicates to a
    list without duplicates; and confirming the same input a second time
    changes nothing more. *)
Theorem quick_add_deduplicates (st : Assets.State) (bst : Borrow.State) :
  ((Js.trim s ∈ Assets.brands st -> Assets.brands (quickAddBrand s st) = Assets.brands st)
   /\ (forall b, currentBrand st = Some b -> Model.mk b (Js.trim s) ∈ Assets.models st ->
         Assets.models (quickAddModel s st) = Assets.models st)
   /\ (Js.trim s ∈ Assets.vendors st -> Assets.vendors (quickAddVendor s st) = Assets.vendors st)
   /\ (Js.trim s ∈ Borrow.depts bst -> Borrow.depts (quickAddDept s bst) = Borrow.depts bst))
  /\ ((NoDup (Assets.brands st) -> NoDup (Assets.brands (quickAddBrand s st)))
      /\ (NoDup (Assets.models st) -> NoDup (Assets.models (quickAddModel s st)))
      /\ (NoDup (Assets.vendors st) -> NoDup (Assets.vendors (quickAddVendor s st)))
      /\ (NoDup (Borrow.depts bst) -> NoDup (Borrow.depts (quickAddDept s bst))))
  /\ (Assets.brands (quickAddBrand s (quickAddBrand s st)) = Assets.brands (quickAddBrand s st)
      /\ Assets.models (quickAddModel s (quickAddModel s st)) = Assets.models (quickAddModel s st)
      /\ Assets.vendors (quickAddVendor s (quickAddVendor s st))
         = Assets.vendors (quickAddVendor s st)
      /\ Borrow.depts (quickAddDept s (quickAddDept s bst)) = Borrow.depts (quickAddDept s bst)).
Proof.
  rewrite !brands_quickAddBrand, !vendors_quickAddVendor, !depts_quickAddDept.
  rewrite !models_quickAddModel, !currentBrand_quickAddModel.
  destruct (append_if_absent (Assets.brands st)) as (B1 & B2 & B3).
  destruct (append_if_absent (Assets.vendors st)) as (V1 & V2 & V3).
  destruct (append_if_absent (Borrow.depts bst)) as (D1 & D2 & D3).
  destruct (append_model_if_absent (currentBrand st) (Assets.models st)) as (M1 & M2 & M3).
  repeat split; try assumption.
Qed.

(** A value that is new and not blank is appended. *)
Lemma quickAddBrand_appends (st : Assets.State) :
  Js.trim s <> "" -> Js.trim s ∉ Assets.brands st ->
  Assets.brands (quickAddBrand s st) = Assets.brands st ++ [Js.trim s].
Proof.
  intros Hs Hn. rewrite brands_quickAddBrand.
  now rewrite (proj2 (truthy_true _) Hs), (proj2 (includes_false _ _) Hn).
Qed.

End QuickAdd.

Lemma quick_add_deduplicates_witness :
  NoDup (Assets.brands (quickAddBrand "  Philips " (Examples.assets_state []))).
Proof.
  apply (proj1 (proj1 (proj2 (quick_add_deduplicates "  Philips " (Examples.assets_state [])
                                (Borrow.mkState [] (Borrow.mkForm "" "" "" "" "" "") false ""))))).
  apply NoDup_singleton.
Defined.

(** Surrounding white space is trimmed before the lookup: the brand is found,
    and a new one is appended trimmed. *)
Example quickAddBrand_run :
  Assets.brands (quickAddBrand "  Philips " (Examples.assets_state [])) = ["Philips"]
  /\ Assets.brands (quickAddBrand " GE" (Examples.assets_state [])) = ["Philips"; "GE"].
Proof. split; reflexivity. Qed.

(** ** The ledger invariant along every run of the asset tab *)

Create HintDb ledger.

Section Transitions.
Context `{Runtime}.

(** The lists a handler leaves alone. *)
Lemma submit_frame (st : Assets.State) :
  Assets.brands (Assets.submit st) = Assets.brands st
  /\ Assets.models (Assets.submit st) = Assets.models st
  /\ Assets.vendors (Assets.submit st) = Assets.vendors st.
Proof. destruct st. unfold Assets.submit, App.createAsset. now split_ifs. Qed.

Lemma saveEdit_frame (st : Assets.State) :
  Assets.brands (Assets.saveEdit st) = Assets.brands st
  /\ Assets.models (Assets.saveEdit st) = Assets.models st
  /\ Assets.vendors (Assets.saveEdit st) = Assets.vendors st.
Proof. destruct st. unfold Assets.saveEdit, App.updateAsset. now split_ifs. Qed.

Lemma quickAddBrand_frame (s : string) (st : Assets.State) :
  Assets.assets (quickAddBrand s st) = Assets.assets st
  /\ Assets.models (quickAddBrand s st) = Assets.models st
  /\ Assets.vendors (quickAddBrand s st) = Assets.vendors st.
Proof. destruct st. unfold quickAddBrand, Assets.confirmAddBrand. now split_ifs. Qed.

Lemma quickAddModel_frame (s : string) (st : Assets.State) :
  Assets.assets (quickAddModel s st) = Assets.assets st
  /\ Assets.brands (quickAddModel s st) = Assets.brands st
  /\ Assets.vendors (quickAddModel s st) = Assets.vendors st.
Proof. destruct st. unfold quickAddModel, Assets.confirmAddModel. now split_ifs. Qed.

Lemma quickAddVendor_frame (s : string) (st : Assets.State) :
  Assets.assets (quickAddVendor s st) = Assets.assets st
  /\ Assets.brands (quickAddVendor s st) = Assets.brands st
  /\ Assets.models (quickAddVendor s st) = Assets.models st.
Proof. destruct st. unfold quickAddVendor, Assets.confirmAddVendor. now split_ifs. Qed.

#[local] Hint Resolve submit_keys_unique saveEdit_keys_unique deleteAsset_keys_unique
  quickAddBrand_NoDup quickAddModel_NoDup quickAddVendor_NoDup : ledger.

(** Every event of the tab preserves the invariant. *)
Lemma ledger_inv_step (st : Assets.State) (e : Event) :
  ledger_inv st -> ledger_inv (step st e).
Proof.
  unfold ledger_inv. intros (Ha & Hb & Hm & Hv). destruct e; simpl.
  - now destruct st.
  - destruct (submit_frame st) as (-> & -> & ->). auto with ledger.
  - now destruct st.
  - now destruct st.
  - now destruct st.
  - destruct (saveEdit_frame st) as (-> & -> & ->). auto with ledger.
  - assert (keys_unique (App.deleteAsset id (Assets.assets st)).2) by auto with ledger.
    now destruct st.
  - destruct (quickAddBrand_frame s st) as (-> & -> & ->). auto with ledger.
  - destruct (quickAddModel_frame s st) as (-> & -> & ->). auto with ledger.
  - destruct (quickAddVendor_frame s st) as (-> & -> & ->). auto with ledger.
Qed.

(** X12. From the initial tab, whatever the user does (typing, submitting,
    opening, cancelling and saving edits, deleting, quick-adding), no two
    assets share an [asset_id], an [id_code] or a [serial], and no reference
    list holds a value twice. *)
Lemma ledger_inv_always (events : list Event) : ledger_inv (foldl step initial events).
Proof.
  assert (Hinit : ledger_inv initial) by (repeat split; apply NoDup_nil_2).
  revert Hinit. generalize initial.
  induction events as [|e es IH]; intros st Hst; [done|].
  simpl. apply IH. now apply ledger_inv_step.
Qed.

End Transitions.

(** ** Exporting an empty selection *)

Section EmptyExport.
Context `{Runtime}.


End EmptyExport.

(** The report of the example ledger: one workbook of four heading rows and
    three data rows, the last of them a closed loan of 19 days. *)
Example exportXLSX_run :
  match Report.files (Report.exportXLSX (H := example_host) false Examples.ledger "Hospital Name"
                        Report.Ready Examples.now) with
  | [Report.Workbook name sheet aoa _ _] =>
      name = "medical_pool_1705795200000.xlsx" /\ sheet = "Report" /\ length aoa = 7%nat
      /\ (last aoa ≫= (.!! 8%nat)) = Some (Report.Num 19)
  | _ => False
  end.
Proof. now vm_compute. Qed.

(** ** The calendar of [toISOString] and [Date.parse] *)

(** The length of February, in arithmetic. *)
Lemma February (y : Z) :
  (Js.InLeapYear y = true /\ y mod 4 = 0 /\ (y mod 100 <> 0 \/ y mod 400 = 0))
  \/ (Js.InLeapYear y = false /\ (y mod 4 <> 0 \/ (y mod 100 = 0 /\ y mod 400 <> 0))).
Proof.
  unfold Js.InLeapYear.
  destruct (Z.eqb_spec (y mod 4) 0), (Z.eqb_spec (y mod 100) 0), (Z.eqb_spec (y mod 400) 0);
    simpl; tauto.
Qed.

(** The days of the year before the first of a month: those of January and
    February, then 153 days for every five months from March on. *)
Lemma days_before_month (y m : Z) :
  1 <= m <= 12 ->
  Js.days_before y m 12
  = if m <=? 2 then 31 * (m - 1)
    else (153 * (m - 3) + 2) / 5 + 31 + (if Js.InLeapYear y then 29 else 28).
Proof.
  intros Hm.
  assert (Hcase : m = 1 \/ m = 2 \/ m = 3 \/ m = 4 \/ m = 5 \/ m = 6 \/ m = 7 \/ m = 8
                  \/ m = 9 \/ m = 10 \/ m = 11 \/ m = 12) by lia.
  destruct Hcase as [->|[->|[->|[->|[->|[->|[->|[->|[->|[->|[->| ->]]]]]]]]]]];
    cbv -[Js.InLeapYear Z.add]; now destruct (Js.InLeapYear y).
Qed.

Lemma DaysInMonth_from_March (y mp : Z) :
  0 <= mp <= 9 ->
  Js.DaysInMonth y (mp + 3) = (153 * (mp + 1) + 2) / 5 - (153 * mp + 2) / 5.
Proof.
  intros Hm.
  assert (Hcase : mp = 0 \/ mp = 1 \/ mp = 2 \/ mp = 3 \/ mp = 4 \/ mp = 5 \/ mp = 6 \/ mp = 7
                  \/ mp = 8 \/ mp = 9) by lia.
  now destruct Hcase as [->|[->|[->|[->|[->|[->|[->|[->|[->| ->]]]]]]]]].
Qed.

(** The year of the era and the day of that year, counted from March 1. *)
Lemma yoe_bounds (doe : Z) :
  0 <= doe < 146097 ->
  let yoe := (doe - doe / 1460 + doe / 36524 - doe / 146096) / 365 in
  0 <= yoe <= 399
  /\ 365 * yoe + yoe / 4 - yoe / 100 <= doe
  /\ doe < 365 * (yoe + 1) + (yoe + 1) / 4 - (yoe + 1) / 100 + (yoe + 1) / 400.
Proof. intros Hd yoe. subst yoe. Z.div_mod_to_equations. lia. Qed.

(** In the era that starts on 0000-03-01, [Js.civil] answers a date of the
    calendar whose day number is the one it was given; the year is 400
    exactly from 0400-01-01 on. *)
Lemma civil_era0 (doe y m d : Z) :
  0 <= doe < 146097 -> Js.civil (doe - 719468) = (y, m, d) ->
  1 <= m <= 12 /\ 1 <= d <= Js.DaysInMonth y m /\ Js.MakeDay y m d = doe - 719468
  /\ 0 <= y /\ (doe < 146037 -> y <= 399) /\ (146037 <= doe -> y = 400).
Proof.
  intros Hd. unfold Js.civil.
  replace (doe - 719468 + 719468) with doe by lia.
  rewrite (Z.div_small doe 146097) by lia.
  replace (doe - 0 * 146097) with doe by lia.
  cbv zeta.
  pose proof (yoe_bounds doe Hd) as Hy. cbv zeta in Hy.
  set (yoe := (doe - doe / 1460 + doe / 36524 - doe / 146096) / 365) in *.
  destruct Hy as (Hy & Hlo & Hhi).
  set (doy := doe - (365 * yoe + yoe / 4 - yoe / 100)).
  assert (Hdoy : 0 <= doy <= 365) by (unfold doy; Z.div_mod_to_equations; lia).
  set (mp := (5 * doy + 2) / 153).
  assert (Hmp : 0 <= mp <= 11) by (unfold mp; Z.div_mod_to_equations; lia).
  assert (Hmpdef : mp = (5 * doy + 2) / 153) by reflexivity.
  assert (Hdoydef : doy = doe - (365 * yoe + yoe / 4 - yoe / 100)) by reflexivity.
  clearbody mp doy yoe.
  destruct (Z.ltb_spec mp 10) as [Hlt | Hge].
  - (* March to December, in the year [yoe] *)
    destruct (Z.leb_spec (mp + 3) 2); [lia|].
    replace (yoe + 0 * 400 + 0) with yoe by lia.
    intros [= <- <- <-].
    unfold Js.MakeDay, Js.DayFromYear.
    rewrite days_before_month, DaysInMonth_from_March by lia.
    destruct (Z.leb_spec (mp + 3) 2); [lia|].
    replace (mp + 3 - 3) with mp by lia.
    destruct (February yoe) as [(-> & L0a & L0b) | (-> & L0b)];
      repeat split; try (Z.div_mod_to_equations; lia).
  - (* January and February, in the year [yoe + 1] *)
    destruct (Z.leb_spec (mp - 9) 2); [|lia].
    replace (yoe + 0 * 400 + 1) with (yoe + 1) by lia.
    intros [= <- <- <-].
    unfold Js.MakeDay, Js.DayFromYear.
    rewrite days_before_month by lia.
    destruct (Z.leb_spec (mp - 9) 2); [|lia].
    assert (Hcase : mp = 10 \/ mp = 11) by lia.
    unfold Js.DaysInMonth.
    destruct Hcase as [-> | ->]; [change (10 - 9) with 1 | change (11 - 9) with 2];
      cbn [Z.eqb Pos.eqb orb];
      destruct (February (yoe + 1)) as [(L1 & L1a & L1b) | (L1 & L1b)]; rewrite ?L1;
      repeat split; try (Z.div_mod_to_equations; lia).
Qed.

(** [Js.civil] by eras of 400 years. *)
Lemma civil_era (day : Z) :
  Js.civil day =
  let '(y, m, d) := Js.civil ((day + 719468) mod 146097 - 719468) in
  (y + 400 * ((day + 719468) / 146097), m, d).
Proof.
  set (z := day + 719468).
  assert (Hdoe := Z.mod_pos_bound z 146097 ltac:(lia)).
  assert (Hz := Z.div_mod z 146097 ltac:(lia)).
  unfold Js.civil. fold z.
  replace (z mod 146097 - 719468 + 719468) with (z mod 146097) by lia.
  rewrite (Z.div_small (z mod 146097)) by lia.
  replace (z mod 146097 - 0 * 146097) with (z mod 146097) by lia.
  replace (z - z / 146097 * 146097) with (z mod 146097) by lia.
  cbv zeta. f_equal. f_equal. lia.
Qed.

Lemma InLeapYear_era (y k : Z) : Js.InLeapYear (y + 400 * k) = Js.InLeapYear y.
Proof.
  unfold Js.InLeapYear.
  replace (y + 400 * k) with (y + (100 * k) * 4) at 1 by lia.
  replace (y + 400 * k) with (y + (4 * k) * 100) at 1 by lia.
  replace (y + 400 * k) with (y + k * 400) by lia.
  now rewrite !Z.mod_add by lia.
Qed.

Lemma DaysInMonth_era (y k m : Z) : Js.DaysInMonth (y + 400 * k) m = Js.DaysInMonth y m.
Proof. unfold Js.DaysInMonth. now rewrite InLeapYear_era. Qed.

Lemma days_before_era (y k m : Z) (n : nat) :
  Js.days_before (y + 400 * k) m n = Js.days_before y m n.
Proof. induction n as [|n IH]; [done|]. simpl Js.days_before. now rewrite IH, DaysInMonth_era. Qed.

Lemma DayFromYear_era (y k : Z) : Js.DayFromYear (y + 400 * k) = Js.DayFromYear y + 146097 * k.
Proof.
  unfold Js.DayFromYear.
  replace (y + 400 * k - 1969) with (y - 1969 + (100 * k) * 4) by lia.
  replace (y + 400 * k - 1901) with (y - 1901 + (4 * k) * 100) by lia.
  replace (y + 400 * k - 1601) with (y - 1601 + k * 400) by lia.
  rewrite !Z.div_add by lia. lia.
Qed.

Lemma MakeDay_era (y k m d : Z) : Js.MakeDay (y + 400 * k) m d = Js.MakeDay y m d + 146097 * k.
Proof. unfold Js.MakeDay. rewrite DayFromYear_era, days_before_era. lia. Qed.

(** The date [Js.civil] answers is a date of the calendar, and [Js.MakeDay]
    takes it back to the day number. *)
Lemma civil_MakeDay (day y m d : Z) :
  Js.civil day = (y, m, d) ->
  1 <= m <= 12 /\ 1 <= d <= Js.DaysInMonth y m /\ Js.MakeDay y m d = day.
Proof.
  rewrite civil_era.
  set (z := day + 719468).
  assert (Hdoe := Z.mod_pos_bound z 146097 ltac:(lia)).
  assert (Hz := Z.div_mod z 146097 ltac:(lia)).
  destruct (Js.civil (z mod 146097 - 719468)) as [[y0 m0] d0] eqn:E0.
  destruct (civil_era0 _ _ _ _ Hdoe E0) as (Hm & Hd & Hmk & _).
  intros [= <- <- <-].
  rewrite DaysInMonth_era, MakeDay_era. lia.
Qed.

(** The years of the days from 0000-01-01 to 9999-12-31. *)
Lemma civil_year (day y m d : Z) :
  Js.civil day = (y, m, d) -> -719528 <= day <= 2932896 -> 0 <= y <= 9999.
Proof.
  rewrite civil_era.
  set (z := day + 719468).
  assert (Hdoe := Z.mod_pos_bound z 146097 ltac:(lia)).
  assert (Hz := Z.div_mod z 146097 ltac:(lia)).
  destruct (Js.civil (z mod 146097 - 719468)) as [[y0 m0] d0] eqn:E0.
  destruct (civil_era0 _ _ _ _ Hdoe E0) as (_ & _ & _ & Y0 & Y1 & Y2).
  intros [= <- <- <-] Hday.
  destruct (Z.lt_ge_cases (z mod 146097) 146037); lia.
Qed.

Lemma digit_of (k : Z) : 0 <= k <= 9 -> Js.digit (ascii_of_nat (48 + Z.to_nat k)) = Some k.
Proof.
  intros Hk. unfold Js.digit.
  rewrite nat_ascii_embedding by lia.
  replace (Z.of_nat (48 + Z.to_nat k)) with (48 + k) by lia.
  destruct (Z.leb_spec 48 (48 + k)), (Z.leb_spec (48 + k) 57); simpl; try lia.
  f_equal. lia.
Qed.

Lemma number_of_snoc (acc : Z) (cs : list ascii) (c : ascii) :
  Js.number_of acc (cs ++ [c]) = a ← Js.number_of acc cs; d ← Js.digit c; Some (10 * a + d).
Proof.
  revert acc. induction cs as [|x cs IH]; intros acc; simpl.
  - now destruct (Js.digit c).
  - destruct (Js.digit x); simpl; [apply IH|done].
Qed.

Lemma number_of_pad_digits (w : nat) (n : Z) :
  0 <= n < 10 ^ Z.of_nat w -> Js.number_of 0 (Js.pad_digits w n) = Some n.
Proof.
  revert n. induction w as [|w IH]; intros n Hn.
  - simpl in *. f_equal. lia.
  - change (Js.pad_digits (S w) n)
      with (Js.pad_digits w (n / 10) ++ [ascii_of_nat (48 + Z.to_nat (n mod 10))]).
    rewrite number_of_snoc.
    rewrite Nat2Z.inj_succ, Z.pow_succ_r in Hn by lia.
    rewrite IH by (split; [apply Z.div_pos; lia | apply Z.div_lt_upper_bound; lia]).
    cbn [mbind option_bind]. rewrite digit_of by (pose proof (Z.mod_pos_bound n 10); lia).
    cbn [mbind option_bind]. f_equal. pose proof (Z.div_mod n 10). lia.
Qed.

Lemma length_pad_digits (w : nat) (n : Z) : length (Js.pad_digits w n) = w.
Proof. revert n. induction w as [|w IH]; intros n; [done|]. simpl. rewrite length_app, IH. simpl. lia. Qed.

(** Lists of two, three and four characters. *)
Lemma pad_digits_2 (n : Z) : exists a b, Js.pad_digits 2 n = [a; b].
Proof.
  pose proof (length_pad_digits 2 n) as Hl.
  destruct (Js.pad_digits 2 n) as [|a [|b [|c l]]]; try discriminate. now exists a, b.
Qed.
Lemma pad_digits_3 (n : Z) : exists a b c, Js.pad_digits 3 n = [a; b; c].
Proof.
  pose proof (length_pad_digits 3 n) as Hl.
  destruct (Js.pad_digits 3 n) as [|a [|b [|c [|e l]]]]; try discriminate. now exists a, b, c.
Qed.
Lemma pad_digits_4 (n : Z) : exists a b c e, Js.pad_digits 4 n = [a; b; c; e].
Proof.
  pose proof (length_pad_digits 4 n) as Hl.
  destruct (Js.pad_digits 4 n) as [|a [|b [|c [|e [|g l]]]]]; try discriminate. now exists a, b, c, e.
Qed.

(** The time within the day, from its four fields. *)
Lemma time_fields (ms : Z) :
  0 <= ms < 86400000 ->
  0 <= ms / 3600000 <= 23 /\ 0 <= ms / 60000 mod 60 <= 59 /\ 0 <= ms / 1000 mod 60 <= 59
  /\ 0 <= ms mod 1000 <= 999
  /\ ((ms / 3600000 * 60 + ms / 60000 mod 60) * 60 + ms / 1000 mod 60) * 1000 + ms mod 1000 = ms.
Proof.
  intros Hms.
  pose proof (Z.div_mod ms 1000 ltac:(lia)) as E1.
  pose proof (Z.mod_pos_bound ms 1000 ltac:(lia)) as B1.
  pose proof (Z.div_mod (ms / 1000) 60 ltac:(lia)) as E2.
  pose proof (Z.mod_pos_bound (ms / 1000) 60 ltac:(lia)) as B2.
  pose proof (Z.div_mod (ms / 60000) 60 ltac:(lia)) as E3.
  pose proof (Z.mod_pos_bound (ms / 60000) 60 ltac:(lia)) as B3.
  replace (ms / 60000) with (ms / 1000 / 60) in * by (rewrite Z.div_div by lia; reflexivity).
  replace (ms / 3600000) with (ms / 1000 / 60 / 60) in * by (rewrite !Z.div_div by lia; reflexivity).
  lia.
Qed.

(** The characters of [toISOString], and what the parser reads in them. *)
Lemma toISOString_chars (t : Z) :
  four_digit_year t ->
  exists y1 y2 y3 y4 m1 m2 d1 d2 h1 h2 n1 n2 s1 s2 f1 f2 f3 : ascii,
    Js.toISOString t
    = string_of_list_ascii
        [y1; y2; y3; y4; "-"; m1; m2; "-"; d1; d2; "T";
         h1; h2; ":"; n1; n2; ":"; s1; s2; "."; f1; f2; f3; "Z"]%char
    /\ Js.iso_day y1 y2 y3 y4 m1 m2 d1 d2 = Some (t / Js.msPerDay)
    /\ Js.iso_time h1 h2 n1 n2 s1 s2 f1 f2 f3 = Some (t mod Js.msPerDay).
Proof.
  unfold four_digit_year. intros Ht.
  assert (Hd := Z.div_mod t Js.msPerDay ltac:(done)).
  assert (Hm := Z.mod_pos_bound t Js.msPerDay ltac:(done)).
  unfold Js.msPerDay in Hd, Hm.
  unfold Js.toISOString.
  destruct (Js.civil (t / Js.msPerDay)) as [[y m] d] eqn:Ec.
  destruct (civil_MakeDay _ _ _ _ Ec) as (Hmo & Hda & Hmk).
  assert (Hy : 0 <= y <= 9999).
  { apply (civil_year _ _ _ _ Ec). unfold Js.msPerDay. lia. }
  assert (Hdm : Js.DaysInMonth y m <= 31).
  { unfold Js.DaysInMonth. repeat destruct (_ =? _); simpl; try lia. now destruct (Js.InLeapYear y). }
  destruct (time_fields (t mod Js.msPerDay) Hm) as (H1 & H2 & H3 & H4 & H5).
  pose proof (number_of_pad_digits 4 y ltac:(simpl; lia)) as Ny.
  pose proof (number_of_pad_digits 2 m ltac:(simpl; lia)) as Nm.
  pose proof (number_of_pad_digits 2 d ltac:(simpl; lia)) as Nd.
  pose proof (number_of_pad_digits 2 _ ltac:(simpl; split; [apply H1|lia])) as Nh.
  pose proof (number_of_pad_digits 2 _ ltac:(simpl; split; [apply H2|lia])) as Nn.
  pose proof (number_of_pad_digits 2 _ ltac:(simpl; split; [apply H3|lia])) as Ns.
  pose proof (number_of_pad_digits 3 _ ltac:(simpl; split; [apply H4|lia])) as Nf.
  destruct (Z.leb_spec 0 y), (Z.leb_spec y 9999); try lia. cbn [andb].
  unfold Js.pad.
  destruct (pad_digits_4 y) as (y1 & y2 & y3 & y4 & Ey); rewrite Ey in *.
  destruct (pad_digits_2 m) as (m1 & m2 & Em); rewrite Em in *.
  destruct (pad_digits_2 d) as (d1 & d2 & Ed); rewrite Ed in *.
  destruct (pad_digits_2 (t mod Js.msPerDay / 3600000)) as (h1 & h2 & Eh); rewrite Eh in *.
  destruct (pad_digits_2 (t mod Js.msPerDay / 60000 mod 60)) as (n1 & n2 & En); rewrite En in *.
  destruct (pad_digits_2 (t mod Js.msPerDay / 1000 mod 60)) as (s1 & s2 & Es); rewrite Es in *.
  destruct (pad_digits_3 (t mod Js.msPerDay mod 1000)) as (f1 & f2 & f3 & Ef); rewrite Ef in *.
  exists y1, y2, y3, y4, m1, m2, d1, d2, h1, h2, n1, n2, s1, s2, f1, f2, f3.
  split; [reflexivity|].
  unfold Js.iso_day, Js.iso_time. rewrite Ny, Nm, Nd, Nh, Nn, Ns, Nf. cbn [mbind option_bind].
  destruct (Z.leb_spec 1 m), (Z.leb_spec m 12), (Z.leb_spec 1 d), (Z.leb_spec d (Js.DaysInMonth y m));
    try lia. cbn [andb].
  destruct (Z.leb_spec (t mod Js.msPerDay / 3600000) 23),
    (Z.leb_spec (t mod Js.msPerDay / 60000 mod 60) 59),
    (Z.leb_spec (t mod Js.msPerDay / 1000 mod 60) 59); try lia. cbn [andb].
  now rewrite Hmk, H5.
Qed.

(** [Date.parse] reads back the instant that [toISOString] wrote. *)
Lemma parse_iso_toISOString (t : Z) :
  four_digit_year t -> Js.parse_iso (Js.toISOString t) = Some t.
Proof.
  intros Ht.
  destruct (toISOString_chars t Ht)
    as (y1 & y2 & y3 & y4 & m1 & m2 & d1 & d2 & h1 & h2 & n1 & n2 & s1 & s2 & f1 & f2 & f3
        & -> & Hday & Htime).
  unfold Js.parse_iso. rewrite list_ascii_of_string_of_list_ascii.
  cbv iota beta. rewrite Hday, Htime. cbn [mbind option_bind]. f_equal.
  pose proof (Z.div_mod t Js.msPerDay ltac:(done)). lia.
Qed.

(** The first ten characters of [toISOString] are the date-only form of the
    UTC day. *)
Lemma parse_iso_todayStr (now : Z) :
  four_digit_year now ->
  String.length (todayStr now) = 10%nat
  /\ String.get 4 (todayStr now) = Some "-"%char
  /\ String.get 7 (todayStr now) = Some "-"%char
  /\ Js.parse_iso (todayStr now) = Some (now / Js.msPerDay * Js.msPerDay).
Proof.
  intros Ht. unfold todayStr.
  destruct (toISOString_chars now Ht)
    as (y1 & y2 & y3 & y4 & m1 & m2 & d1 & d2 & h1 & h2 & n1 & n2 & s1 & s2 & f1 & f2 & f3
        & -> & Hday & Htime).
  cbn [string_of_list_ascii String.substring String.length String.get].
  repeat split.
  unfold Js.parse_iso. cbn [list_ascii_of_string]. cbv iota beta.
  now rewrite Hday.
Qed.

(** ** Today's date and the duration of a returned loan *)

Section Today.
Context `{Runtime}.

(** X1. In the years 0000 to 9999, [todayStr()] is ten characters long with
    a hyphen at positions 4 and 7 (the program's own sanity test), and
    [new Date] reads it as UTC midnight of the current UTC day, on every
    engine.  So a loan whose start date is the form's default counts 0
    elapsed days at that instant, and at any other instant the difference
    of the two UTC day numbers. *)
Theorem todayStr_is_the_utc_day (now later : Z) :
  four_digit_year now ->
  String.length (todayStr now) = 10%nat
  /\ String.get 4 (todayStr now) = Some "-"%char
  /\ String.get 7 (todayStr now) = Some "-"%char
  /\ new_Date (todayStr now) = Some (now / Js.msPerDay * Js.msPerDay)
  /\ daysBetween_now now (todayStr now) = 0
  /\ daysBetween_now later (todayStr now) = later / Js.msPerDay - now / Js.msPerDay.
Proof.
  intros Ht. destruct (parse_iso_todayStr now Ht) as (L & G4 & G7 & P).
  pose proof (new_Date_iso _ _ P) as N.
  assert (D : forall t, daysBetween_now t (todayStr now) = t / Js.msPerDay - now / Js.msPerDay).
  { intros t. unfold daysBetween_now.
    rewrite (daysBetween_valid _ (OfDate (Some t)) _ t N eq_refl).
    unfold Js.msPerDay.
    replace (t - now / 86400000 * 86400000) with (t + (- (now / 86400000)) * 86400000) by lia.
    rewrite Z.div_add by lia. lia. }
  repeat split; try assumption; [|apply D].
  rewrite D. lia.
Qed.

(** X2. Returning a loan stamps it with [toISOString] of the instant of the
    return, which [new Date] reads back exactly: the record leaves the
    active loans, and the duration every report shows for it, at whatever
    later time, is the day count that [daysBetween] gave from its start date
    at the instant of the return. *)
Theorem returned_loan_keeps_its_duration
    (now later : Z) (id : string) (borrows : list BorrowRecord.t) (i : nat) (b : BorrowRecord.t) :
  four_digit_year now ->
  borrows !! i = Some b -> BorrowRecord.id b = id ->
  exists b',
    (App.returnBorrow now id borrows).2 !! i = Some b'
    /\ BorrowRecord.returned_at b' = Some (Js.toISOString now)
    /\ new_Date (Js.toISOString now) = Some now
    /\ Report.duration later b' = daysBetween_now now (BorrowRecord.start_date b)
    /\ b' ∉ App.active (App.returnBorrow now id borrows).2.
Proof.
  intros Ht Hi Hid. unfold App.returnBorrow. cbn [snd].
  rewrite list_lookup_fmap, Hi. cbn [fmap option_fmap option_map].
  apply String.eqb_eq in Hid as ->.
  eexists. split; [reflexivity|].
  pose proof (new_Date_iso _ _ (parse_iso_toISOString now Ht)) as N.
  pose proof (proj2 (truthy_true _) (toISOString_nonempty now)) as T.
  repeat split; [exact N | |].
  - unfold Report.duration. cbn -[Js.truthy Js.toISOString daysBetween daysBetween_now].
    rewrite T. unfold daysBetween_now, daysBetween. cbn [new_Date_of]. now rewrite N.
  - intros [_ [E | E]]%active_iff; cbn -[Js.toISOString] in E; [discriminate|].
    injection E as E. now apply (toISOString_nonempty now).
Qed.

End Today.

Lemma examples_now_four_digit_year : four_digit_year Examples.now.
Proof. unfold four_digit_year, Examples.now. lia. Qed.

Lemma todayStr_is_the_utc_day_witness :
  new_Date (H := example_host) (todayStr Examples.now) = Some (Examples.now / Js.msPerDay * Js.msPerDay)
  /\ daysBetween_now (H := example_host) Examples.now (todayStr Examples.now) = 0.
Proof.
  pose proof (todayStr_is_the_utc_day (H := example_host) Examples.now Examples.now
                examples_now_four_digit_year) as (_ & _ & _ & N & D & _).
  now split.
Defined.

(** The default start date on 2024-01-21. *)
Example todayStr_run : todayStr Examples.now = "2024-01-21".
Proof. reflexivity. Qed.

Lemma returned_loan_keeps_its_duration_witness :
  exists b',
    (App.returnBorrow Examples.now "r2" Examples.ledger).2 !! 1%nat = Some b'
    /\ BorrowRecord.returned_at b' = Some (Js.toISOString Examples.now)
    /\ new_Date (H := example_host) (Js.toISOString Examples.now) = Some Examples.now
    /\ Report.duration (H := example_host) (Examples.now + 30 * Js.msPerDay) b'
       = daysBetween_now (H := example_host) Examples.now "2024-01-01"
    /\ b' ∉ App.active (App.returnBorrow Examples.now "r2" Examples.ledger).2.
Proof.
  apply (returned_loan_keeps_its_duration (H := example_host) Examples.now
           (Examples.now + 30 * Js.msPerDay) "r2" Examples.ledger 1
           (Examples.loan "r2" "2024-01-01" "ER" None));
    [exact examples_now_four_digit_year | reflexivity | reflexivity].
Defined.

(** ** Returning a loan and the active loans *)

Lemma length_filter_filter {A : Type} (P Q : A -> bool) (l : list A) :
  (length (filter Q (filter P l)) <= length (filter Q l))%nat.
Proof.
  induction l as [|x l IH]; [done|].
  rewrite !filter_cons. destruct (decide (P x)), (decide (Q x));
    rewrite ?filter_cons; try destruct (decide (Q x)); simpl; try tauto; lia.
Qed.

Section Returning.
Context `{Runtime}.

Lemma active_returnBorrow (now : Z) (id : string) (borrows : list BorrowRecord.t) :
  App.active (App.returnBorrow now id borrows).2
  = filter (fun b => negb (BorrowRecord.id b =? id)%string) (App.active borrows).
Proof.
  unfold App.active, App.returnBorrow. cbn [snd].
  pose proof (proj2 (truthy_true _) (toISOString_nonempty now)) as T.
  induction borrows as [|b l IH]; [done|].
  rewrite fmap_cons, !filter_cons, IH.
  destruct (String.eqb_spec (BorrowRecord.id b) id) as [Eid | Nid].
  - rewrite decide_False
      by (cbn -[Js.truthy Js.toISOString]; rewrite T; simpl; tauto).
    destruct (decide _); [|done].
    rewrite filter_cons, decide_False; [done|].
    apply String.eqb_eq in Eid. rewrite Eid. simpl. tauto.
  - destruct (decide _); [|done].
    rewrite filter_cons, decide_True; [done|].
    apply String.eqb_neq in Nid. now rewrite Nid.
Qed.

(** X3. [returnBorrow] takes out of the active loans exactly the records
    with the id it is given and leaves the others in their order; so a
    return never adds to the overdue loans, and a return with an id that no
    active loan has leaves the active loans as they were. *)
Theorem returnBorrow_active (now later : Z) (id : string) (borrows : list BorrowRecord.t) :
  App.active (App.returnBorrow now id borrows).2
  = filter (fun b => negb (BorrowRecord.id b =? id)%string) (App.active borrows)
  /\ App.active (App.returnBorrow now id borrows).2 `sublist_of` App.active borrows
  /\ (App.overdueCount later (App.returnBorrow now id borrows).2
      <= App.overdueCount later borrows)%nat
  /\ ((forall b, b ∈ App.active borrows -> BorrowRecord.id b <> id) ->
      App.active (App.returnBorrow now id borrows).2 = App.active borrows).
Proof.
  pose proof (active_returnBorrow now id borrows) as E.
  split; [exact E|]. rewrite E. split; [apply sublist_filter|split].
  - unfold App.overdueCount. rewrite E. apply length_filter_filter.
  - clear E. intros Hid. induction (App.active borrows) as [|b l IH]; [done|].
    assert (Hb := Hid b ltac:(now left)). apply String.eqb_neq in Hb.
    rewrite filter_cons, decide_True by now rewrite Hb.
    rewrite IH; [done|]. intros x Hx. apply Hid. now right.
Qed.

End Returning.

Lemma returnBorrow_active_witness :
  App.active (App.returnBorrow Examples.now "r1" Examples.ledger).2 = App.active Examples.ledger.
Proof.
  apply (returnBorrow_active (H := example_host) Examples.now Examples.now "r1" Examples.ledger).
  intros b Hb. unfold Examples.ledger in Hb. cbn in Hb.
  repeat (apply elem_of_cons in Hb as [-> | Hb]; [discriminate|]).
  now apply elem_of_nil in Hb.
Defined.

(** ** Recording a loan *)


Lemma find_asset_Some (id : string) (l : list Asset.t) (a : Asset.t) :
  List.find (fun a => (Asset.asset_id a =? id)%string) l = Some a ->
  a ∈ l /\ Asset.asset_id a = id.
Proof.
  induction l as [|x l IH]; simpl; [discriminate|].
  destruct (String.eqb_spec (Asset.asset_id x) id) as [E | Ne].
  - intros [= <-]. split; [now left|done].
  - intros Hf. destruct (IH Hf). split; [now right|done].
Qed.

(** A loan that passes every check is recorded. *)
Lemma submit_loan_accepts (uid : string) (now : Z) (st : BorrowTab.State) (a : Asset.t)
    (s : string) :
  BorrowTab.asset st = Some a ->
  Asset.asset_id a ∉ App.activeIds (BorrowTab.borrows st) ->
  ~ loan_missing_required (BorrowTab.form st) ->
  BorrowTab.sign st = Some s -> s <> "" ->
  BorrowTab.submit uid now st
  = BorrowTab.mkState (BorrowTab.assets st)
      (BorrowTab.record_of uid now a (BorrowTab.form st) s :: BorrowTab.borrows st)
      (BorrowTab.assetId st) (BorrowTab.form st) None ""
      (BorrowTab.alerts st ++ [BorrowTab.alert_saved]).
Proof.
  destruct st as [assets borrows assetId f sign err alerts].
  unfold BorrowTab.submit, BorrowTab.isBusy, BorrowTab.asset, BorrowTab.setErr,
    loan_missing_required.
  cbn [BorrowTab.assets BorrowTab.borrows BorrowTab.assetId BorrowTab.form BorrowTab.sign
       BorrowTab.err BorrowTab.alerts].
  intros -> Hfree Hreq -> Hs. apply includes_false in Hfree as ->.
  destruct (Js.truthy (Borrow.lender_name f)) eqn:T1;
    [|apply truthy_false in T1; tauto].
  destruct (Js.truthy (Borrow.borrower_name f)) eqn:T2;
    [|apply truthy_false in T2; tauto].
  destruct (Js.truthy (Borrow.start_date f)) eqn:T3;
    [|apply truthy_false in T3; tauto].
  cbn [negb orb Js.truthy_opt]. now rewrite (proj2 (truthy_true _) Hs).
Qed.

(** A loan that fails a check leaves the loans as they were. *)
Lemma submit_loan_borrows (uid : string) (now : Z) (st : BorrowTab.State) :
  BorrowTab.borrows (BorrowTab.submit uid now st) = BorrowTab.borrows st
  \/ exists rec,
       BorrowTab.borrows (BorrowTab.submit uid now st) = rec :: BorrowTab.borrows st
       /\ BorrowRecord.returned_at rec = None
       /\ BorrowRecord.asset_id rec ∉ App.activeIds (BorrowTab.borrows st).
Proof.
  destruct st as [assets borrows assetId f sign err alerts].
  unfold BorrowTab.submit, BorrowTab.isBusy, BorrowTab.asset, BorrowTab.setErr.
  cbn [BorrowTab.assets BorrowTab.borrows BorrowTab.assetId BorrowTab.form BorrowTab.sign
       BorrowTab.err BorrowTab.alerts].
  destruct (List.find _ assets) as [a|]; [|now left].
  destruct (Assets.includes (App.activeIds borrows) (Asset.asset_id a)) eqn:Hb; [now left|].
  apply includes_false in Hb.
  destruct (_ || _ || _); [now left|].
  destruct (negb (Js.truthy_opt sign)); [now left|].
  right. eexists. cbn [App.createBorrow BorrowTab.borrows].
  split; [reflexivity|]. split; [reflexivity|exact Hb].
Qed.


(** ** The loans invariant *)

Lemma activeIds_cons (b : BorrowRecord.t) (l : list BorrowRecord.t) :
  BorrowRecord.returned_at b = None ->
  App.activeIds (b :: l) = BorrowRecord.asset_id b :: App.activeIds l.
Proof.
  intros Hb. unfold App.activeIds, App.active.
  rewrite filter_cons, decide_True by now rewrite Hb. now rewrite fmap_cons.
Qed.

(** A patch that leaves [asset_id] and [returned_at] alone leaves the active
    asset ids alone. *)
Lemma updateBorrow_activeIds (id : string) (patch : BorrowPatch.t) (l : list BorrowRecord.t) :
  BorrowPatch.asset_id patch = None -> BorrowPatch.returned_at patch = None ->
  App.activeIds (App.updateBorrow id patch l).2 = App.activeIds l.
Proof.
  intros Ha Hr. unfold App.activeIds, App.active, App.updateBorrow. cbn [snd].
  induction l as [|b l IH]; [done|].
  rewrite fmap_cons, !filter_cons.
  assert (E : forall x : BorrowRecord.t,
             BorrowRecord.returned_at
               (if (BorrowRecord.id x =? id)%string then App.merge_borrow x patch else x)
             = BorrowRecord.returned_at x
             /\ BorrowRecord.asset_id
                  (if (BorrowRecord.id x =? id)%string then App.merge_borrow x patch else x)
                = BorrowRecord.asset_id x).
  { intros x. destruct (BorrowRecord.id x =? id)%string; [|done]. cbn. now rewrite Ha, Hr. }
  rewrite (proj1 (E b)).
  destruct (decide _); [|exact IH].
  rewrite !fmap_cons, (proj2 (E b)). f_equal. exact IH.
Qed.

Lemma returnBorrow_activeIds (now : Z) (id : string) (l : list BorrowRecord.t) :
  App.activeIds (App.returnBorrow now id l).2 `sublist_of` App.activeIds l.
Proof.
  unfold App.activeIds. rewrite active_returnBorrow. apply fmap_sublist, sublist_filter.
Qed.

Lemma loans_inv_step (borrows : list BorrowRecord.t) (e : LoanEvent) :
  loans_inv borrows -> loans_inv (loan_step borrows e).
Proof.
  intros [Hn Hs]. destruct e as [assets assetId f sign uid now | id now | id edit];
    cbn [loan_step].
  - destruct (submit_loan_borrows uid now (BorrowTab.mkState assets borrows assetId f sign "" []))
      as [-> | (rec & -> & Hr & Hfree)]; [now split|].
    cbn [BorrowTab.borrows] in *. split.
    + rewrite (activeIds_cons _ _ Hr). now apply NoDup_cons.
    + now apply (createBorrow_stamped rec borrows).
  - split; [|now apply returnBorrow_stamped].
    apply (sublist_NoDup _ _ Hn), returnBorrow_activeIds.
  - change (ReturnTab.borrows (ReturnTab.save id (ReturnTab.mkState borrows (Some id) edit)))
      with (App.updateBorrow id (ReturnTab.patch_of edit) borrows).2.
    split.
    + now rewrite (updateBorrow_activeIds id (ReturnTab.patch_of edit) borrows).
    + now apply (updateBorrow_stamped id (ReturnTab.patch_of edit) borrows).
Qed.

(** X5. No asset is ever on loan twice at once.  Whatever loans are
    submitted, returned and edited, from the empty collection on, the asset
    ids of the active loans are pairwise distinct and every [returned_at] is
    [null] or a time stamp; each single event keeps that. *)
Theorem loans_inv_always :
  (forall (borrows : list BorrowRecord.t) (e : LoanEvent),
      loans_inv borrows -> loans_inv (loan_step borrows e))
  /\ (forall events : list LoanEvent, loans_inv (foldl loan_step [] events)).
Proof.
  split; [exact loans_inv_step|].
  assert (Hinit : loans_inv []) by (split; [apply NoDup_nil_2 | now intros b ?%elem_of_nil]).
  revert Hinit. generalize (@nil BorrowRecord.t).
  intros l Hl events. revert l Hl.
  induction events as [|e es IH]; intros l Hl; [done|].
  cbn [foldl]. apply IH. now apply loans_inv_step.
Qed.

Lemma loans_inv_always_witness :
  loans_inv (loan_step [Scenario.pump_loan] (Returned "u1" Examples.now)).
Proof.
  apply (proj1 loans_inv_always). split.
  - apply NoDup_singleton.
  - intros b ->%list_elem_of_singleton. discriminate.
Defined.


(** The pump is lent, and a second submission of the same form is turned
    down: the pump has an active loan. *)
Example submit_loan_run :
  BorrowTab.borrows (BorrowTab.submit "u1" Examples.now (Scenario.borrow_tab []))
  = [Scenario.pump_loan]
  /\ BorrowTab.err (BorrowTab.submit "u2" Examples.now (Scenario.borrow_tab [Scenario.pump_loan]))
     = BorrowTab.err_busy
  /\ BorrowTab.borrows
       (BorrowTab.submit "u2" Examples.now (Scenario.borrow_tab [Scenario.pump_loan]))
     = [Scenario.pump_loan].
Proof. repeat split. Qed.

(** The pump is lent, its loan edited, then returned, then lent again. *)
Example loans_run :
  App.activeIds
    (foldl loan_step []
       [Lent [Examples.pump; Examples.monitor] "A1" Scenario.lend_form (Some Scenario.signature)
          "u1" Examples.now;
        Lent [Examples.pump; Examples.monitor] "A1" Scenario.lend_form (Some Scenario.signature)
          "u2" Examples.now;
        LoanEdited "u1" (ReturnTab.mkEdit (Some "Malee") (Some "ER") (Some "Somchai") (Some "")
                           (Some "2024-02-01"));
        Returned "u1" (Examples.now + Js.msPerDay);
        Lent [Examples.pump; Examples.monitor] "A1" Scenario.lend_form (Some Scenario.signature)
          "u3" (Examples.now + 2 * Js.msPerDay)])
  = ["A1"]
  /\ BorrowRecord.id <$>
       foldl loan_step []
         [Lent [Examples.pump; Examples.monitor] "A1" Scenario.lend_form (Some Scenario.signature)
            "u1" Examples.now;
          Lent [Examples.pump; Examples.monitor] "A1" Scenario.lend_form (Some Scenario.signature)
            "u2" Examples.now;
          LoanEdited "u1" (ReturnTab.mkEdit (Some "Malee") (Some "ER") (Some "Somchai") (Some "")
                             (Some "2024-02-01"));
          Returned "u1" (Examples.now + Js.msPerDay);
          Lent [Examples.pump; Examples.monitor] "A1" Scenario.lend_form (Some Scenario.signature)
            "u3" (Examples.now + 2 * Js.msPerDay)]
     = ["u3"; "u1"].
Proof. split; reflexivity. Qed.

(** ** The inline edit of a loan *)

Lemma filter_fmap_stable {A : Type} (P : A -> bool) (g : A -> A) (l : list A) :
  (forall x, P (g x) = P x) -> filter P (g <$> l) = g <$> filter P l.
Proof.
  intros Hg. induction l as [|x l IH]; [done|].
  rewrite fmap_cons, !filter_cons, Hg, IH. now destruct (decide _).
Qed.

Lemma loan_core_merge (b : BorrowRecord.t) (e : ReturnTab.Edit) :
  loan_core (App.merge_borrow b (ReturnTab.patch_of e)) = loan_core b.
Proof. reflexivity. Qed.

Section LoanEdit.
Context `{Runtime}.

(** X6. Saving the inline edit of a loan changes at most the borrower, the
    department, the lender, the peripherals and the due date of the records
    with that id: ids, assets, start dates, return stamps, signatures and
    creation stamps stay, record by record; so the active loans are those of
    the same assets as before, as many loans are overdue, and the records
    with another id are untouched.  The edit closes. *)
Theorem save_loan_edit_frame (now : Z) (id : string) (st : ReturnTab.State) :
  loan_core <$> ReturnTab.borrows (ReturnTab.save id st) = loan_core <$> ReturnTab.borrows st
  /\ App.activeIds (ReturnTab.borrows (ReturnTab.save id st)) = App.activeIds (ReturnTab.borrows st)
  /\ App.overdueCount now (ReturnTab.borrows (ReturnTab.save id st))
     = App.overdueCount now (ReturnTab.borrows st)
  /\ (forall (i : nat) (b : BorrowRecord.t),
        ReturnTab.borrows st !! i = Some b -> BorrowRecord.id b <> id ->
        ReturnTab.borrows (ReturnTab.save id st) !! i = Some b)
  /\ ReturnTab.editId (ReturnTab.save id st) = None.
Proof.
  destruct st as [borrows editId edit].
  change (ReturnTab.borrows (ReturnTab.save id (ReturnTab.mkState borrows editId edit)))
    with (App.updateBorrow id (ReturnTab.patch_of edit) borrows).2.
  cbn [ReturnTab.borrows].
  set (g := fun b => if (BorrowRecord.id b =? id)%string
                     then App.merge_borrow b (ReturnTab.patch_of edit) else b).
  assert (Hcore : forall b, loan_core (g b) = loan_core b).
  { intros b. unfold g. destruct (_ =? _)%string; [apply loan_core_merge|done]. }
  assert (Hupd : (App.updateBorrow id (ReturnTab.patch_of edit) borrows).2 = g <$> borrows)
    by reflexivity.
  rewrite Hupd. repeat split.
  - rewrite <- list_fmap_compose. apply list_fmap_ext. intros i b _. apply Hcore.
  - rewrite <- Hupd. now apply updateBorrow_activeIds.
  - unfold App.overdueCount, App.active.
    rewrite (filter_fmap_stable _ g), (filter_fmap_stable _ g), length_fmap; [done| |].
    + intros b. pose proof (Hcore b) as E. unfold loan_core in E. now injection E as _ _ _ -> _ _ _.
    + intros b. pose proof (Hcore b) as E. unfold loan_core in E. now injection E as _ _ _ _ -> _ _.
  - intros i b Hi Hne. rewrite list_lookup_fmap, Hi. unfold g. cbn.
    now apply String.eqb_neq in Hne as ->.
Qed.

End LoanEdit.

(** X7. Opening the inline edit of a loan and saving it at once leaves the
    record as it was, but for a due date that was [null]: it becomes the
    empty string.  The records with another id stay as they were. *)
Theorem start_save_loan_edit (st : ReturnTab.State) (i : nat) (r : BorrowRecord.t) :
  ReturnTab.borrows st !! i = Some r ->
  ReturnTab.borrows (ReturnTab.save (BorrowRecord.id r) (ReturnTab.start r st)) !! i
  = Some (with_end_date (Some (ReturnTab.or_empty_opt (BorrowRecord.end_date r))) r)
  /\ (forall s, BorrowRecord.end_date r = Some s ->
        ReturnTab.borrows (ReturnTab.save (BorrowRecord.id r) (ReturnTab.start r st)) !! i
        = Some r)
  /\ (BorrowRecord.end_date r = None ->
      ReturnTab.borrows (ReturnTab.save (BorrowRecord.id r) (ReturnTab.start r st)) !! i
      = Some (with_end_date (Some "") r))
  /\ (forall (j : nat) (b : BorrowRecord.t),
        ReturnTab.borrows st !! j = Some b -> BorrowRecord.id b <> BorrowRecord.id r ->
        ReturnTab.borrows (ReturnTab.save (BorrowRecord.id r) (ReturnTab.start r st)) !! j
        = Some b).
Proof.
  destruct st as [borrows editId edit].
  unfold ReturnTab.save, ReturnTab.start, App.updateBorrow.
  cbn [ReturnTab.borrows ReturnTab.edit]. intros Hi.
  assert (E : (fun b => if (BorrowRecord.id b =? BorrowRecord.id r)%string
                        then App.merge_borrow b
                               (ReturnTab.patch_of
                                  (ReturnTab.mkEdit (Some (Js.or_empty (BorrowRecord.borrower_name r)))
                                     (Some (Js.or_empty (BorrowRecord.borrower_dept r)))
                                     (Some (Js.or_empty (BorrowRecord.lender_name r)))
                                     (Some (Js.or_empty (BorrowRecord.peripherals r)))
                                     (Some (ReturnTab.or_empty_opt (BorrowRecord.end_date r)))))
                        else b) r
              = with_end_date (Some (ReturnTab.or_empty_opt (BorrowRecord.end_date r))) r).
  { cbn beta. rewrite String.eqb_refl. unfold App.merge_borrow, with_end_date. cbn.
    now rewrite !or_empty_id. }
  split; [|split; [|split]].
  - rewrite list_lookup_fmap, Hi. cbn [fmap option_fmap option_map]. f_equal. exact E.
  - intros s Hs. rewrite list_lookup_fmap, Hi. cbn [fmap option_fmap option_map]. f_equal.
    rewrite E, Hs. cbn. rewrite or_empty_id. destruct r; cbn in *. now rewrite Hs.
  - intros Hn. rewrite list_lookup_fmap, Hi. cbn [fmap option_fmap option_map]. f_equal.
    rewrite E, Hn. reflexivity.
  - intros j b Hj Hne. rewrite list_lookup_fmap, Hj. cbn [fmap option_fmap option_map].
    now apply String.eqb_neq in Hne as ->.
Qed.

Lemma start_save_loan_edit_witness :
  ReturnTab.borrows
    (ReturnTab.save "r2"
       (ReturnTab.start (Examples.loan "r2" "2024-01-01" "ER" None)
          (ReturnTab.mkState Examples.ledger None ReturnTab.empty))) !! 1%nat
  = Some (with_end_date (Some "") (Examples.loan "r2" "2024-01-01" "ER" None)).
Proof.
  apply (proj1 (start_save_loan_edit (ReturnTab.mkState Examples.ledger None ReturnTab.empty) 1
                  (Examples.loan "r2" "2024-01-01" "ER" None) eq_refl)).
Defined.

Lemma save_loan_edit_frame_witness :
  ReturnTab.borrows
    (ReturnTab.save "r2"
       (ReturnTab.mkState Examples.ledger (Some "r2")
          (ReturnTab.mkEdit (Some "Malee") (Some "OR") None None None))) !! 0%nat
  = Some (Examples.loan "r3" "2024-01-18" "ICU" None).
Proof.
  apply (proj1 (proj2 (proj2 (proj2 (save_loan_edit_frame (H := example_host) Examples.now "r2"
           (ReturnTab.mkState Examples.ledger (Some "r2")
              (ReturnTab.mkEdit (Some "Malee") (Some "OR") None None None))))))).
  - reflexivity.
  - discriminate.
Defined.

(** ** The counters of the dashboard *)

Lemma Set_add_all_spec (seen l : list string) :
  NoDup seen ->
  NoDup (Set_add_all seen l) /\ forall x, x ∈ Set_add_all seen l <-> x ∈ seen \/ x ∈ l.
Proof.
  revert seen. induction l as [|y l IH]; intros seen Hs; simpl.
  - split; [done|]. intros x. rewrite elem_of_nil. tauto.
  - destruct (Assets.includes seen y) eqn:Ei.
    + apply includes_true in Ei. destruct (IH seen Hs) as [Hn Hx]. split; [done|].
      intros x. rewrite Hx, elem_of_cons. split; [tauto|]. intros [?|[->|?]]; auto.
    + apply includes_false in Ei.
      destruct (IH (seen ++ [y]) (NoDup_snoc _ _ Hs Ei)) as [Hn Hx]. split; [done|].
      intros x. rewrite Hx, elem_of_app, !elem_of_cons, elem_of_nil. tauto.
Qed.

Lemma Set_of_spec (l : list string) : NoDup (Set_of l) /\ forall x, x ∈ Set_of l <-> x ∈ l.
Proof.
  destruct (Set_add_all_spec [] l (NoDup_nil_2)) as [Hn Hx]. split; [done|].
  intros x. unfold Set_of. rewrite Hx, elem_of_nil. tauto.
Qed.

Lemma Set_add_all_NoDup (seen l : list string) :
  NoDup (seen ++ l) -> Set_add_all seen l = seen ++ l.
Proof.
  revert seen. induction l as [|y l IH]; intros seen Hn; simpl; [now rewrite app_nil_r|].
  assert (Hy : y ∉ seen).
  { apply NoDup_app in Hn as (_ & Hd & _). intros Hy. apply (Hd y Hy). now left. }
  apply includes_false in Hy as ->.
  rewrite IH; rewrite <- app_assoc; [done|exact Hn].
Qed.

Lemma Set_add_all_length (seen l : list string) :
  (length (Set_add_all seen l) <= length seen + length l)%nat.
Proof.
  revert seen. induction l as [|y l IH]; intros seen; simpl; [lia|].
  destruct (Assets.includes seen y).
  - specialize (IH seen). lia.
  - specialize (IH (seen ++ [y])). rewrite length_app in IH. simpl in IH. lia.
Qed.

(** The assets split into those on loan and those on the shelf. *)
Lemma length_on_loan (ids : list string) (assets : list Asset.t) :
  (length (filter (fun a => Assets.includes ids (Asset.asset_id a)) assets)
   + length (filter (fun a => negb (Assets.includes ids (Asset.asset_id a))) assets)
   = length assets)%nat.
Proof.
  induction assets as [|a l IH]; [done|].
  rewrite !filter_cons. destruct (Assets.includes ids (Asset.asset_id a)); simpl; lia.
Qed.

(** X8. [borrowedCount] is the number of distinct assets that have an active
    loan, at most the number of active loans and equal to it when no asset
    has two; [availableCount] is never negative and never more than the
    number of assets.  When the asset ids are pairwise distinct and every
    active loan is of a registered asset, [availableCount] is the number of
    assets that have no active loan, and the two counters add up to the
    number of assets. *)
Theorem dashboard_counters (assets : list Asset.t) (borrows : list BorrowRecord.t) :
  (borrowedCount borrows <= length (App.active borrows))%nat
  /\ (NoDup (App.activeIds borrows) -> borrowedCount borrows = length (App.active borrows))
  /\ 0 <= availableCount assets borrows <= Z.of_nat (length assets)
  /\ (NoDup (Asset.asset_id <$> assets) ->
      (forall id, id ∈ App.activeIds borrows -> id ∈ (Asset.asset_id <$> assets)) ->
      availableCount assets borrows = Z.of_nat (length (on_the_shelf assets borrows))
      /\ availableCount assets borrows + Z.of_nat (borrowedCount borrows)
         = Z.of_nat (length assets)).
Proof.
  unfold borrowedCount, availableCount, Set_size. fold (App.activeIds borrows).
  split; [|split; [|split]].
  - pose proof (Set_add_all_length [] (App.activeIds borrows)) as Hl.
    unfold Set_of. unfold App.activeIds in *. rewrite length_fmap in Hl. simpl in Hl. lia.
  - intros Hn. unfold Set_of. rewrite Set_add_all_NoDup by exact Hn.
    unfold App.activeIds. simpl. now rewrite length_fmap.
  - lia.
  - intros Hu Hreg.
    destruct (Set_of_spec (App.activeIds borrows)) as [Hn Hx].
    pose proof (length_on_loan (App.activeIds borrows) assets) as Hsplit.
    assert (Hperm : Set_of (App.activeIds borrows)
                    ≡ₚ Asset.asset_id <$>
                         filter (fun a => Assets.includes (App.activeIds borrows) (Asset.asset_id a))
                           assets).
    { apply NoDup_Permutation; [exact Hn| |].
      - apply (sublist_NoDup _ _ Hu), fmap_sublist, sublist_filter.
      - intros x. rewrite Hx, list_elem_of_fmap. split.
        + intros Hin. destruct (proj1 (list_elem_of_fmap _ _ _) (Hreg x Hin)) as (a & -> & Ha).
          exists a. split; [done|]. apply list_elem_of_filter. split; [|done].
          apply Is_true_true. now apply includes_true.
        + intros (a & -> & [Hi _]%list_elem_of_filter).
          apply Is_true_true in Hi. now apply includes_true in Hi. }
    apply Permutation_length in Hperm. rewrite length_fmap in Hperm.
    unfold on_the_shelf, borrowedCount, Set_size, App.activeIds in *. lia.
Qed.

(** The program's own sanity test of the distinct count. *)
Example Set_size_run : Set_size ["A"; "B"; "A"] = 2%nat.
Proof. reflexivity. Qed.

Lemma dashboard_counters_witness :
  availableCount [Examples.pump; Examples.monitor] Examples.ledger
  = Z.of_nat (length (on_the_shelf [Examples.pump; Examples.monitor] Examples.ledger))
  /\ availableCount [Examples.pump; Examples.monitor] Examples.ledger
     + Z.of_nat (borrowedCount Examples.ledger)
     = Z.of_nat (length [Examples.pump; Examples.monitor]).
Proof.
  apply (proj2 (proj2 (proj2 (dashboard_counters [Examples.pump; Examples.monitor]
                                Examples.ledger)))).
  - exact (proj1 examples_keys_unique).
  - intros id Hid. cbn in Hid. cbn.
    repeat (apply elem_of_cons in Hid as [-> | Hid]; [now left|]).
    now apply elem_of_nil in Hid.
Defined.

(** Two active loans of the pump count as one borrowed asset; the monitor
    is the asset left. *)
Example dashboard_counters_run :
  borrowedCount Examples.ledger = 1%nat
  /\ length (App.active Examples.ledger) = 2%nat
  /\ availableCount [Examples.pump; Examples.monitor] Examples.ledger = 1.
Proof. repeat split. Qed.

(** ** The two lists of the dashboard *)

Section Partition.
Context `{Runtime}.

(** X9. The dashboard's two lists split the active loans at 14 days: no
    loan is in both, the two together are a rearrangement of the active
    loans, each list keeps their order, and the overdue counter of the root
    component is the length of the first. *)
Theorem dashboard_lists_split (now : Z) (borrows : list BorrowRecord.t) :
  Dashboard.overdue now (App.active borrows) ++ Dashboard.normal now (App.active borrows)
    ≡ₚ App.active borrows
  /\ (App.overdueCount now borrows + length (Dashboard.normal now (App.active borrows))
      = length (App.active borrows))%nat
  /\ (forall b, b ∈ Dashboard.overdue now (App.active borrows) ->
        b ∉ Dashboard.normal now (App.active borrows))
  /\ Dashboard.overdue now (App.active borrows) `sublist_of` App.active borrows
  /\ Dashboard.normal now (App.active borrows) `sublist_of` App.active borrows.
Proof.
  assert (Hp : forall l : list BorrowRecord.t,
             Dashboard.overdue now l ++ Dashboard.normal now l ≡ₚ l).
  { intros l. unfold Dashboard.overdue, Dashboard.normal.
    induction l as [|b l IH]; [done|].
    rewrite !filter_cons.
    destruct (Z.leb_spec 14 (daysBetween_now now (BorrowRecord.start_date b))),
      (Z.ltb_spec (daysBetween_now now (BorrowRecord.start_date b)) 14); try lia; simpl.
    - now rewrite IH.
    - rewrite <- Permutation_middle. now rewrite IH. }
  split; [apply Hp|]. split; [|split; [|split; apply sublist_filter]].
  - unfold App.overdueCount. fold (Dashboard.overdue now (App.active borrows)).
    rewrite <- length_app. apply Permutation_length, Hp.
  - intros b Ho Hn. unfold Dashboard.overdue, Dashboard.normal in *.
    apply list_elem_of_filter in Ho as [Ho _], Hn as [Hn _].
    apply Is_true_true in Ho, Hn. lia.
Qed.

End Partition.

(** ** Deleting an asset *)

(** X10. [deleteAsset] returns [true] and removes exactly the assets whose
    [asset_id] is the one given: the others stay, in their order; no asset of
    the result carries the id; an id that no asset carries leaves the
    collection as it was; deleting twice is deleting once; pairwise-distinct
    keys stay pairwise distinct, and then at most one asset goes. *)
Theorem deleteAsset_removes (id : string) (l : list Asset.t) :
  (App.deleteAsset id l).1 = true
  /\ (forall a, (a ∈ (App.deleteAsset id l).2) <-> a ∈ l /\ Asset.asset_id a <> id)
  /\ ((App.deleteAsset id l).2 `sublist_of` l)
  /\ (id ∉ (Asset.asset_id <$> (App.deleteAsset id l).2))
  /\ (id ∉ (Asset.asset_id <$> l) -> (App.deleteAsset id l).2 = l)
  /\ App.deleteAsset id (App.deleteAsset id l).2 = App.deleteAsset id l
  /\ (keys_unique l ->
      keys_unique (App.deleteAsset id l).2
      /\ (length l <= length (App.deleteAsset id l).2 + 1)%nat).
Proof.
  unfold App.deleteAsset. cbn [fst snd].
  assert (Hin : forall a, a ∈ filter (fun a => negb (Asset.asset_id a =? id)%string) l
                          <-> a ∈ l /\ Asset.asset_id a <> id).
  { intros a. rewrite list_elem_of_filter, Is_true_true, negb_true_iff, String.eqb_neq. tauto. }
  split; [done|]. split; [exact Hin|]. split; [apply sublist_filter|].
  split; [|split; [|split]].
  - intros (a & -> & Ha)%list_elem_of_fmap. apply Hin in Ha. tauto.
  - intros Hid. induction l as [|a l IH]; [done|].
    rewrite fmap_cons, not_elem_of_cons in Hid. destruct Hid as [Hne Hid].
    rewrite filter_cons, decide_True.
    + f_equal. apply IH; [|exact Hid].
      intros x. rewrite list_elem_of_filter, Is_true_true, negb_true_iff, String.eqb_neq. tauto.
    + apply Is_true_true, negb_true_iff, String.eqb_neq. congruence.
  - f_equal. clear Hin. induction l as [|a l IH]; [done|].
    rewrite filter_cons. destruct (decide _) as [Ha|Ha]; [|exact IH].
    now rewrite filter_cons, decide_True, IH.
  - intros Hu. split; [exact (deleteAsset_keys_unique id l Hu)|].
    destruct Hu as (U1 & _ & _). clear Hin.
    induction l as [|a l IH]; [simpl; lia|].
    rewrite fmap_cons in U1. apply NoDup_cons in U1 as [Ha U1].
    rewrite filter_cons. destruct (String.eqb_spec (Asset.asset_id a) id) as [E | Ne]; simpl.
    + assert (Hrest : filter (fun a => negb (Asset.asset_id a =? id)%string) l = l).
      { clear IH U1. induction l as [|b l IH]; [done|].
        rewrite fmap_cons, not_elem_of_cons in Ha. destruct Ha as [Hne Ha].
        rewrite filter_cons, decide_True, IH; [done|exact Ha|].
        apply Is_true_true, negb_true_iff, String.eqb_neq. congruence. }
      rewrite Hrest. lia.
    + specialize (IH U1). lia.
Qed.

Lemma deleteAsset_removes_witness :
  keys_unique (App.deleteAsset "A1" [Examples.pump; Examples.monitor]).2
  /\ (length [Examples.pump; Examples.monitor]
      <= length (App.deleteAsset "A1" [Examples.pump; Examples.monitor]).2 + 1)%nat.
Proof.
  apply (proj2 (proj2 (proj2 (proj2 (proj2 (proj2
           (deleteAsset_removes "A1" [Examples.pump; Examples.monitor]))))))).
  exact examples_keys_unique.
Defined.

(** Deleting the pump leaves the monitor. *)
Example deleteAsset_run :
  App.deleteAsset "A1" [Examples.pump; Examples.monitor] = (true, [Examples.monitor]).
Proof. reflexivity. Qed.

(** ** Opening an edit and saving it *)

Section EditRoundTrip.
Context `{Runtime}.

(** The edit form that [startEdit] fills from a row has the row's keys, and
    its price normalises to the row's price when that is [null] or a number
    other than 0 and NaN, and to [null] otherwise. *)
Lemma startEdit_form (a : Asset.t) (st : Assets.State) :
  Assets.editingId (Assets.startEdit a st) = Some (Asset.asset_id a)
  /\ Assets.assets (Assets.startEdit a st) = Assets.assets st
  /\ Assets.editForm (Assets.startEdit a st)
     = AssetPatch.mk (Some (Asset.asset_id a)) (Some (Asset.id_code a)) (Some (Asset.name a))
         (Some (Asset.brand a)) (Some (Asset.model a)) (Some (Asset.vendor a))
         (Some (Asset.serial a)) (Some (Asset.purchase_date a))
         (match Asset.price a with
          | Some n => PriceNumber n
          | None => PriceText ""
          end).
Proof. now destruct st. Qed.

(** X11. In a collection with pairwise-distinct keys, opening the edit of an
    asset whose four required fields are filled and saving it at once is
    accepted and closes the edit.  The collection is then as it was when the
    price of the asset is [null] or a number other than 0 and NaN; a price
    of 0 (or NaN) becomes [null], and nothing else changes. *)
Theorem startEdit_saveEdit (st : Assets.State) (a : Asset.t) :
  keys_unique (Assets.assets st) -> a ∈ Assets.assets st ->
  Asset.asset_id a <> "" -> Asset.id_code a <> "" -> Asset.name a <> "" ->
  Asset.serial a <> "" ->
  Assets.editingId (Assets.saveEdit (Assets.startEdit a st)) = None
  /\ (Asset.price a = None \/ (exists n, Asset.price a = Some n /\ Js.truthy_num n = true) ->
      Assets.assets (Assets.saveEdit (Assets.startEdit a st)) = Assets.assets st)
  /\ (forall n, Asset.price a = Some n -> Js.truthy_num n = false ->
        Assets.assets (Assets.saveEdit (Assets.startEdit a st))
        = (fun x => if (Asset.asset_id x =? Asset.asset_id a)%string
                    then with_price None x else x) <$> Assets.assets st).
Proof.
  intros Hu Ha N1 N2 N3 N4.
  destruct (startEdit_form a st) as (Eid & Eas & Ef).
  assert (Hsave : Assets.saveEdit (Assets.startEdit a st) = edit_saved (Assets.startEdit a st)).
  { apply saveEdit_accepts.
    - unfold edit_missing_required. rewrite Ef. cbn.
      rewrite (proj2 (truthy_true _) N1), (proj2 (truthy_true _) N2),
        (proj2 (truthy_true _) N3), (proj2 (truthy_true _) N4).
      intuition discriminate.
    - apply (own_keys_do_not_clash _ a); rewrite ?Eas, ?Ef; try done. }
  rewrite Hsave. unfold edit_saved. rewrite assets_after_update, Eid, Eas, Ef.
  split; [now destruct st|].
  unfold App.updateAsset. cbn [snd].
  assert (Hsame : forall x, x ∈ Assets.assets st ->
            Js.eq_opt (Asset.asset_id x) (Some (Asset.asset_id a)) = true -> x = a).
  { intros x Hx E. apply eq_opt_Some in E.
    now apply (NoDup_fmap_eq Asset.asset_id (Assets.assets st) x a (proj1 Hu)). }
  split.
  - intros Hp. rewrite <- (list_fmap_id (Assets.assets st)) at 2.
    apply list_fmap_ext. intros i x Hx%list_elem_of_lookup_2.
    destruct (Js.eq_opt _ _) eqn:E; [|done].
    rewrite (Hsame x Hx E). unfold App.merge_asset, Assets.patch_of. cbn.
    destruct a as [a1 a2 a3 a4 a5 a6 a7 a8 p]. cbn in *.
    destruct Hp as [-> | (n & -> & Hn)]; cbn; [done|now rewrite Hn].
  - intros n Hp Hn. apply list_fmap_ext. intros i x Hx%list_elem_of_lookup_2.
    cbn [Js.eq_opt]. destruct (Asset.asset_id x =? Asset.asset_id a)%string eqn:E; [|done].
    rewrite (Hsame x Hx E). unfold App.merge_asset, Assets.patch_of, with_price. cbn.
    rewrite Hp. cbn. now rewrite Hn.
Qed.

End EditRoundTrip.

Lemma startEdit_saveEdit_witness :
  Assets.assets
    (Assets.saveEdit (H := example_host)
       (Assets.startEdit Examples.pump (Examples.assets_state [Examples.pump; Examples.monitor])))
  = [Examples.pump; Examples.monitor].
Proof.
  apply (proj1 (proj2 (startEdit_saveEdit (H := example_host)
                         (Examples.assets_state [Examples.pump; Examples.monitor]) Examples.pump
                         examples_keys_unique ltac:(now left) ltac:(discriminate)
                         ltac:(discriminate) ltac:(discriminate) ltac:(discriminate)))).
  now left.
Defined.

(** A pump registered at the price 0 loses its price when its row is opened
    and saved. *)
Example startEdit_saveEdit_run :
  Asset.price <$>
    Assets.assets
      (Assets.saveEdit (H := example_host)
         (Assets.startEdit Scenario.free_pump
            (Examples.assets_state [Scenario.free_pump; Examples.monitor])))
  = [None; None].
Proof. reflexivity. Qed.

(** ** Exporting a selection *)

Section ReportFiles.
Context `{Runtime}.

(** X13. For a selection that is not empty and with no export under way,
    [exportXLSX] always produces exactly one file and ends with [xlLoading]
    off, whatever the library does: the workbook when the library works, the
    [.xls] fallback of the same selection when it fails to load, lacks
    [utils] or throws.  The sheet of the workbook has four heading rows, the
    fourth being the headers, then one row per record in the order of the
    selection; every row from the headers on has as many cells as there are
    column widths, and the title's merged range spans exactly those
    columns. *)
Theorem exportXLSX_of_selection
    (r : BorrowRecord.t) (l : list BorrowRecord.t) (orgName : string)
    (lib : Report.Library) (now : Z) :
  Report.xlLoading (Report.exportXLSX false (r :: l) orgName lib now) = false
  /\ Report.files (Report.exportXLSX false (r :: l) orgName lib now)
     = [match lib with
        | Report.Ready => Report.workbook (r :: l) orgName now
        | _ => Report.exportFallbackXLS (r :: l) orgName now
        end]
  /\ Report.notes (Report.exportXLSX false (r :: l) orgName lib now) !! 0%nat
     = Some Report.note_loading
  /\ exists name aoa cols,
       Report.workbook (r :: l) orgName now
       = Report.Workbook name "Report" aoa cols [((0, 0), (0, Z.of_nat (length cols) - 1))]
       /\ length aoa = (4 + length (r :: l))%nat
       /\ aoa !! 3%nat = Some (Report.Text <$> Report.headers)
       /\ drop 4 aoa = Report.sheet_row now <$> (r :: l)
       /\ (forall row, row ∈ drop 3 aoa -> length row = length cols).
Proof.
  split; [now destruct lib|]. split; [now destruct lib|]. split; [now destruct lib|].
  unfold Report.workbook. eexists _, _, [12; 22; 16; 10; 14; 12; 12; 12; 12; 10].
  split; [reflexivity|].
  split; [cbn; now rewrite length_fmap|]. split; [reflexivity|]. split; [reflexivity|].
  intros row Hrow. cbn [drop app] in Hrow.
  apply elem_of_cons in Hrow as [-> | Hrow]; [reflexivity|].
  apply list_elem_of_fmap in Hrow as (b & -> & _). reflexivity.
Qed.



End ReportFiles.

(** ** Persistence *)

Lemma getItem_setItem (key value : string) (store : Storage) :
  localStorage.getItem key (localStorage.setItem key value store) = Some value.
Proof.
  unfold localStorage.getItem. induction store as [|[k v] s IH]; simpl.
  - now rewrite String.eqb_refl.
  - destruct (String.eqb_spec k key) as [-> | Ne]; simpl.
    + now rewrite String.eqb_refl.
    + apply String.eqb_neq in Ne. now rewrite Ne.
Qed.

Lemma getItem_setItem_other (key key' value : string) (store : Storage) :
  key' <> key ->
  localStorage.getItem key' (localStorage.setItem key value store)
  = localStorage.getItem key' store.
Proof.
  intros Hne. unfold localStorage.getItem. induction store as [|[k v] s IH]; simpl.
  - apply not_eq_sym, String.eqb_neq in Hne. now rewrite Hne.
  - destruct (String.eqb_spec k key) as [-> | Ne]; simpl.
    + apply not_eq_sym, String.eqb_neq in Hne. now rewrite Hne.
    + destruct (k =? key')%string; [done|exact IH].
Qed.

(** Removing keys one after the other is filtering them out. *)
Lemma foldl_removeItem (ks : list string) (store : Storage) :
  foldl (fun s k => localStorage.removeItem k s) store ks
  = filter (fun kv => negb (Assets.includes ks (fst kv))) store.
Proof.
  revert store. induction ks as [|k ks IH]; intros store; cbn [foldl].
  - induction store as [|kv s IHs]; [done|]. rewrite filter_cons, decide_True by done. f_equal. exact IHs.
  - rewrite IH. unfold localStorage.removeItem. clear IH.
    induction store as [|kv s IHs]; [done|].
    rewrite !filter_cons. cbn [Assets.includes existsb].
    destruct (String.eqb_spec (fst kv) k) as [E | Ne]; cbn [negb].
    + rewrite decide_False by (cbn; tauto).
      apply String.eqb_eq in E. rewrite String.eqb_sym in E. rewrite E. cbn [orb negb].
      now rewrite decide_False by (cbn; tauto).
    + rewrite decide_True by (cbn; tauto).
      apply String.eqb_neq in Ne. rewrite String.eqb_sym in Ne. rewrite Ne. cbn [orb].
      rewrite filter_cons. destruct (decide _); [f_equal|]; exact IHs.
Qed.

Lemma filter_ext_in {A : Type} (P Q : A -> bool) (l : list A) :
  (forall x, x ∈ l -> P x = Q x) -> filter P l = filter Q l.
Proof.
  intros Hpq. induction l as [|x l IH]; [done|].
  rewrite !filter_cons, (Hpq x) by now left.
  rewrite IH; [done|]. intros y Hy. apply Hpq. now right.
Qed.

Lemma onResetAll_filter (store : Storage) :
  Settings.onResetAll store = filter (fun kv => negb (String.prefix "mp:" (fst kv))) store.
Proof.
  unfold Settings.onResetAll. rewrite foldl_removeItem.
  apply filter_ext_in. intros [k v] Hkv. cbn [fst]. f_equal.
  destruct (String.prefix "mp:" k) eqn:Ep.
  - apply includes_true, list_elem_of_filter. split; [now rewrite Ep|].
    unfold localStorage.keys. apply list_elem_of_fmap. now exists (k, v).
  - apply includes_false. intros [Hp _]%list_elem_of_filter. now rewrite Ep in Hp.
Qed.

Lemma getItem_filter (p : string -> bool) (key : string) (store : Storage) :
  localStorage.getItem key (filter (fun kv => p (fst kv)) store)
  = if p key then localStorage.getItem key store else None.
Proof.
  unfold localStorage.getItem. induction store as [|[k v] s IH]; [now destruct (p key)|].
  rewrite filter_cons. cbn [fst].
  destruct (p k) eqn:Epk.
  - rewrite decide_True by done. cbn [List.find fst].
    destruct (String.eqb_spec k key) as [-> | Ne]; [now rewrite Epk|exact IH].
  - rewrite decide_False by (intros []). rewrite IH. cbn [List.find fst].
    destruct (String.eqb_spec k key) as [-> | Ne]; [now rewrite Epk|done].
Qed.

Section Persistence.
Context {T : Type} (JSON_parse : string -> option T) (JSON_stringify : T -> string).

(** X15. What [useLocalStorage] reads at load is what it persisted: for a
    value that [JSON.parse] reads back from its [JSON.stringify], the
    initial state after a persisted write of that value under the hook's key
    is that value, whatever the store held before, and a tab that receives
    the storage event of that write holds it too.  The write touches no
    other key; a write the browser refuses leaves the store as it was; a
    missing or unparseable entry gives the initial value; and an event for
    another key, a removal, or an unparseable new value leaves the value
    held. *)
Theorem useLocalStorage_round_trip
    (key : string) (value held initialValue : T) (store : Storage) :
  JSON_parse (JSON_stringify value) = Some value ->
  useLocalStorage.init JSON_parse key initialValue
    (useLocalStorage.persist JSON_stringify true key value store) = value
  /\ useLocalStorage.onStorage JSON_parse key
       (mkStorageEvent (Some key) (Some (JSON_stringify value))) held = value
  /\ (forall key', key' <> key ->
        localStorage.getItem key' (useLocalStorage.persist JSON_stringify true key value store)
        = localStorage.getItem key' store)
  /\ useLocalStorage.persist JSON_stringify false key value store = store
  /\ (localStorage.getItem key store = None ->
      useLocalStorage.init JSON_parse key initialValue store = initialValue)
  /\ (forall raw, localStorage.getItem key store = Some raw -> JSON_parse raw = None ->
        useLocalStorage.init JSON_parse key initialValue store = initialValue)
  /\ (forall e, event_key e <> Some key \/ newValue e = None
                \/ (exists raw, newValue e = Some raw /\ JSON_parse raw = None) ->
        useLocalStorage.onStorage JSON_parse key e held = held).
Proof.
  intros Hjson. unfold useLocalStorage.init, useLocalStorage.persist, useLocalStorage.onStorage.
  cbn [event_key newValue].
  rewrite getItem_setItem, Hjson, String.eqb_refl.
  repeat split.
  - intros key' Hne. now apply getItem_setItem_other.
  - now intros ->.
  - now intros raw -> ->.
  - intros [k v] [Hk | [Hv | (raw & Hv & Hraw)]]; cbn in *.
    + destruct k as [k|]; [|done]. destruct v as [raw|]; [|done].
      destruct (String.eqb_spec k key) as [-> | Ne]; [congruence|done].
    + subst v. now destruct k.
    + subst v. destruct k as [k|]; [|done]. rewrite Hraw. now destruct (k =? key)%string.
Qed.

(** X16. [onResetAll] removes from the store exactly the keys that start
    with [mp:], and keeps the other entries in their order with their
    values; after it, every hook of the application (each key of [App]
    starts with [mp:]) starts again from its initial value. *)
Theorem onResetAll_clears_the_application (store : Storage) :
  Settings.onResetAll store = filter (fun kv => negb (String.prefix "mp:" (fst kv))) store
  /\ (forall key, String.prefix "mp:" key = true ->
        localStorage.getItem key (Settings.onResetAll store) = None)
  /\ (forall key, String.prefix "mp:" key = false ->
        localStorage.getItem key (Settings.onResetAll store) = localStorage.getItem key store)
  /\ (forall key (initialValue : T), key ∈ app_keys ->
        useLocalStorage.init JSON_parse key initialValue (Settings.onResetAll store)
        = initialValue).
Proof.
  split; [apply onResetAll_filter|].
  assert (Hget : forall key,
             localStorage.getItem key (Settings.onResetAll store)
             = if negb (String.prefix "mp:" key) then localStorage.getItem key store else None).
  { intros key. rewrite onResetAll_filter.
    apply (getItem_filter (fun k => negb (String.prefix "mp:" k))). }
  split; [|split].
  - intros key Hp. now rewrite Hget, Hp.
  - intros key Hp. now rewrite Hget, Hp.
  - intros key initialValue Hkey. unfold useLocalStorage.init. rewrite Hget.
    assert (Hp : String.prefix "mp:" key = true).
    { unfold app_keys in Hkey.
      repeat (apply elem_of_cons in Hkey as [-> | Hkey]; [reflexivity|]).
      now apply elem_of_nil in Hkey. }
    now rewrite Hp.
Qed.

End Persistence.

Lemma useLocalStorage_round_trip_witness :
  useLocalStorage.init Scenario.JSON_parse_bool "mp:org_name" false
    (useLocalStorage.persist Scenario.JSON_stringify_bool true "mp:org_name" true Scenario.store)
  = true.
Proof.
  apply (useLocalStorage_round_trip Scenario.JSON_parse_bool Scenario.JSON_stringify_bool
           "mp:org_name" true false false Scenario.store).
  reflexivity.
Defined.

Lemma onResetAll_clears_the_application_witness :
  useLocalStorage.init Scenario.JSON_parse_bool "mp:org_name" false
    (Settings.onResetAll Scenario.store) = false.
Proof.
  apply (proj2 (proj2 (proj2 (onResetAll_clears_the_application Scenario.JSON_parse_bool
                                Scenario.store)))).
  unfold app_keys. rewrite !elem_of_cons. auto 10.
Defined.

(** The reset of a store shared with another application. *)
Example onResetAll_run :
  Settings.onResetAll Scenario.store = [("theme", "dark"); ("lang", "th")].
Proof. reflexivity. Qed.

(** ** Overdue loans as time passes *)

Lemma length_filter_mono {A : Type} (P Q : A -> bool) (l : list A) :
  (forall x, P x = true -> Q x = true) ->
  (length (filter P l) <= length (filter Q l))%nat.
Proof.
  intros Hpq. induction l as [|x l IH]; [done|].
  rewrite !filter_cons. specialize (Hpq x).
  destruct (P x), (Q x); simpl; try lia.
Qed.

Section OverdueInTime.
Context `{Runtime}.

Lemma daysBetween_now_mono (a : string) (now later : Z) :
  now <= later -> daysBetween_now now a <= daysBetween_now later a.
Proof.
  intros Hle. unfold daysBetween_now, daysBetween. cbn [new_Date_of isValidDate getTime default].
  destruct (new_Date a) as [t0|]; cbn; [|lia].
  apply Z.div_le_mono; lia.
Qed.

(** X17. The elapsed days of a loan never decrease as time passes, so a loan
    that is overdue stays overdue until it is returned and the overdue
    counter of a collection never goes down by the passing of time alone.
    A loan whose start date parses is overdue exactly from 14 times 24 hours
    after the instant its start date parses to; one whose start date does
    not parse is never overdue. *)
Theorem overdue_is_for_good (now later : Z) (borrows : list BorrowRecord.t) :
  now <= later ->
  (forall a, daysBetween_now now a <= daysBetween_now later a)
  /\ (forall b, b ∈ Dashboard.overdue now (App.active borrows) ->
        b ∈ Dashboard.overdue later (App.active borrows))
  /\ (App.overdueCount now borrows <= App.overdueCount later borrows)%nat
  /\ (forall a t0, new_Date a = Some t0 ->
        (14 <= daysBetween_now now a <-> t0 + 14 * Js.msPerDay <= now))
  /\ (forall a, new_Date a = None -> ~ 14 <= daysBetween_now now a).
Proof.
  intros Hle.
  assert (Hmono := fun a => daysBetween_now_mono a now later Hle).
  split; [exact Hmono|]. split; [|split; [|split]].
  - intros b. unfold Dashboard.overdue. rewrite !list_elem_of_filter, !Is_true_true, !Z.leb_le.
    intros [Hb Ha]. split; [|exact Ha]. specialize (Hmono (BorrowRecord.start_date b)). lia.
  - unfold App.overdueCount. apply length_filter_mono.
    intros b. rewrite !Z.leb_le. specialize (Hmono (BorrowRecord.start_date b)). lia.
  - intros a t0 Ha. unfold daysBetween_now.
    rewrite (daysBetween_valid a (OfDate (Some now)) t0 now Ha eq_refl).
    unfold Js.msPerDay. split.
    + intros Hd. pose proof (Z.mul_div_le (now - t0) 86400000 ltac:(lia)). lia.
    + intros Hd. apply Z.div_le_lower_bound; lia.
  - intros a Ha. unfold daysBetween_now. rewrite daysBetween_invalid by now left. lia.
Qed.

End OverdueInTime.

Lemma overdue_is_for_good_witness :
  (App.overdueCount (H := example_host) Examples.now Examples.ledger
   <= App.overdueCount (H := example_host) (Examples.now + 30 * Js.msPerDay) Examples.ledger)%nat.
Proof.
  apply (overdue_is_for_good (H := example_host) Examples.now (Examples.now + 30 * Js.msPerDay)
           Examples.ledger).
  unfold Examples.now, Js.msPerDay. lia.
Defined.

(** Thirty days on, both active loans of the example ledger are overdue. *)
Example overdue_is_for_good_run :
  App.overdueCount (H := example_host) Examples.now Examples.ledger = 1%nat
  /\ App.overdueCount (H := example_host) (Examples.now + 30 * Js.msPerDay) Examples.ledger
     = 2%nat.
Proof. split; reflexivity. Qed.

(** ** Lending again *)

(** X18. Returning an active loan frees its asset.  When no asset has two
    active loans, after [returnBorrow] with the id of an active loan the
    asset of that loan has no active loan: the borrow tab no longer finds
    it busy, and a loan of it that is filled and signed is recorded. *)
Theorem return_frees_the_asset
    (now : Z) (borrows : list BorrowRecord.t) (b : BorrowRecord.t) :
  NoDup (App.activeIds borrows) -> b ∈ App.active borrows ->
  (BorrowRecord.asset_id b ∉ App.activeIds (App.returnBorrow now (BorrowRecord.id b) borrows).2)
  /\ (forall assets form sign err alerts,
        BorrowTab.isBusy
          (BorrowTab.mkState assets (App.returnBorrow now (BorrowRecord.id b) borrows).2
             (BorrowRecord.asset_id b) form sign err alerts) = false)
  /\ (forall assets a form s uid later,
        List.find (fun x => (Asset.asset_id x =? BorrowRecord.asset_id b)%string) assets = Some a ->
        ~ loan_missing_required form -> s <> "" ->
        BorrowTab.borrows
          (BorrowTab.submit uid later
             (BorrowTab.mkState assets (App.returnBorrow now (BorrowRecord.id b) borrows).2
                (BorrowRecord.asset_id b) form (Some s) "" []))
        = BorrowTab.record_of uid later a form s
            :: (App.returnBorrow now (BorrowRecord.id b) borrows).2).
Proof.
  intros Hn Hb.
  assert (Hfree : BorrowRecord.asset_id b
                  ∉ App.activeIds (App.returnBorrow now (BorrowRecord.id b) borrows).2).
  { unfold App.activeIds. rewrite active_returnBorrow.
    intros (b' & E & [Hid Hb']%list_elem_of_filter)%list_elem_of_fmap.
    apply Is_true_true, negb_true_iff, String.eqb_neq in Hid.
    apply Hid. f_equal. symmetry.
    now apply (NoDup_fmap_eq BorrowRecord.asset_id (App.active borrows) b b' Hn). }
  split; [exact Hfree|]. split.
  - intros assets form sign err alerts. unfold BorrowTab.isBusy, BorrowTab.asset.
    cbn [BorrowTab.assets BorrowTab.assetId BorrowTab.borrows].
    destruct (List.find _ assets) as [a|] eqn:Ea; [|done].
    apply find_asset_Some in Ea as [_ ->]. now apply includes_false.
  - intros assets a form s uid later Ha Hreq Hs.
    pose proof (proj2 (find_asset_Some _ _ _ Ha)) as Eid.
    rewrite (submit_loan_accepts uid later
               (BorrowTab.mkState assets (App.returnBorrow now (BorrowRecord.id b) borrows).2
                  (BorrowRecord.asset_id b) form (Some s) "" []) a s Ha);
      [done| |done|done|done].
    cbn [BorrowTab.borrows]. now rewrite Eid.
Qed.

Lemma return_frees_the_asset_witness :
  BorrowRecord.asset_id Scenario.pump_loan
  ∉ App.activeIds (App.returnBorrow Examples.now "u1" [Scenario.pump_loan]).2.
Proof.
  apply (return_frees_the_asset Examples.now [Scenario.pump_loan] Scenario.pump_loan).
  - apply NoDup_singleton.
  - now left.
Defined.

(** ** From the register to the first loan *)

Section FirstLoan.
Context `{Runtime}.

(** X19. An asset that has just been registered can be lent: after an
    accepted registration, typing its [asset_id] on the borrow tab finds the
    new asset, and when it has no active loan, a form with lender, borrower
    and start date, signed, is recorded as a loan of that asset under its
    registered name. *)
Theorem registered_asset_can_be_lent
    (st : Assets.State) (payload : Assets.Form) (borrows : list BorrowRecord.t)
    (form : Borrow.Form) (s uid : string) (now : Z) :
  ~ missing_required payload -> ~ duplicates_key payload (Assets.assets st) ->
  Assets.asset_id payload ∉ App.activeIds borrows ->
  ~ loan_missing_required form -> s <> "" ->
  let tab := BorrowTab.mkState (Assets.assets (Assets.registerAsset st payload)) borrows
               (Assets.asset_id payload) form (Some s) "" [] in
  BorrowTab.asset tab = Some (Assets.payload_of payload)
  /\ BorrowTab.isBusy tab = false
  /\ BorrowTab.borrows (BorrowTab.submit uid now tab)
     = BorrowTab.record_of uid now (Assets.payload_of payload) form s :: borrows
  /\ BorrowRecord.asset_name (BorrowTab.record_of uid now (Assets.payload_of payload) form s)
     = Assets.name payload.
Proof.
  intros Hm Hd Hfree Hreq Hs tab.
  destruct (registerAsset_accepts st payload Hm Hd) as [Ea _].
  assert (Hfind : BorrowTab.asset tab = Some (Assets.payload_of payload)).
  { unfold BorrowTab.asset, tab. cbn [BorrowTab.assets BorrowTab.assetId]. rewrite Ea.
    cbn. now rewrite String.eqb_refl. }
  split; [exact Hfind|]. split; [|split; [|reflexivity]].
  - unfold BorrowTab.isBusy. rewrite Hfind. now apply includes_false.
  - now rewrite (submit_loan_accepts uid now tab _ s Hfind).
Qed.

End FirstLoan.

Lemma registered_asset_can_be_lent_witness :
  BorrowTab.borrows
    (BorrowTab.submit "u1" Examples.now
       (BorrowTab.mkState
          (Assets.assets
             (Assets.registerAsset (H := example_host)
                (Examples.assets_state [Examples.pump; Examples.monitor]) Examples.pump_form))
          [] "A3" Scenario.lend_form (Some Scenario.signature) "" []))
  = [BorrowTab.record_of "u1" Examples.now (Assets.payload_of (H := example_host) Examples.pump_form)
       Scenario.lend_form Scenario.signature].
Proof.
  apply (registered_asset_can_be_lent (H := example_host)
           (Examples.assets_state [Examples.pump; Examples.monitor]) Examples.pump_form []
           Scenario.lend_form Scenario.signature "u1" Examples.now).
  - intros [E | [E | [E | E]]]; discriminate.
  - intros (a & Ha & Hk). cbn in Ha.
    repeat (apply elem_of_cons in Ha as [-> | Ha]; [destruct Hk as [E | [E | E]]; discriminate|]).
    now apply elem_of_nil in Ha.
  - now intros ?%elem_of_nil.
  - intros [E | [E | E]]; discriminate.
  - discriminate.
Defined.

(** ** The model options *)

Lemma modelOptions_iff (st : Assets.State) (o : string) :
  o ∈ modelOptions st
  <-> exists b, currentBrand st = Some b /\ Model.mk b o ∈ Assets.models st.
Proof.
  unfold modelOptions. rewrite list_elem_of_fmap. split.
  - intros ([b n] & -> & [Hb Hm]%list_elem_of_filter).
    apply Is_true_true, eq_opt_true in Hb. cbn in Hb. now exists b.
  - intros (b & Hb & Hm). exists (Model.mk b o). split; [done|].
    apply list_elem_of_filter. split; [|done].
    apply Is_true_true, eq_opt_true. now rewrite Hb.
Qed.

Lemma find_model_Some (l : list Model.t) (b v : string) (m : Model.t) :
  List.find (fun m => (Model.name m =? v)%string && (Model.brand m =? b)%string) l = Some m ->
  Model.mk b v ∈ l.
Proof.
  induction l as [|[b' v'] l IH]; simpl; [discriminate|].
  destruct (String.eqb_spec v' v) as [-> | Nv], (String.eqb_spec b' b) as [-> | Nb]; simpl;
    [intros _; now left | | |]; intros Hf; right; now apply IH.
Qed.

(** X20. The model select offers exactly the names of the models filed under
    the current brand (that of the edit form while a row is edited, that of
    the registration form otherwise); when the model list holds no pair
    twice, no option is offered twice; and a model that has just been
    quick-added under a brand is among the options. *)
Theorem modelOptions_of_the_brand (st : Assets.State) :
  (forall o, o ∈ modelOptions st
             <-> exists b, currentBrand st = Some b /\ Model.mk b o ∈ Assets.models st)
  /\ (NoDup (Assets.models st) -> NoDup (modelOptions st))
  /\ (forall s b, currentBrand st = Some b -> b <> "" -> Js.trim s <> "" ->
        Js.trim s ∈ modelOptions (quickAddModel s st)).
Proof.
  split; [apply modelOptions_iff|]. split.
  - intros Hn. unfold modelOptions.
    assert (Hf : NoDup (filter (fun m => Js.eq_opt (Model.brand m) (currentBrand st))
                          (Assets.models st)))
      by (apply (sublist_NoDup _ _ Hn), sublist_filter).
    revert Hf.
    assert (Hb : forall m, m ∈ filter (fun m => Js.eq_opt (Model.brand m) (currentBrand st))
                                 (Assets.models st) ->
                           currentBrand st = Some (Model.brand m)).
    { intros m [Hm _]%list_elem_of_filter. now apply Is_true_true, eq_opt_true in Hm. }
    revert Hb. generalize (filter (fun m => Js.eq_opt (Model.brand m) (currentBrand st))
                             (Assets.models st)).
    intros l Hb Hl. induction Hl as [|m l Hm Hl IH]; [apply NoDup_nil_2|].
    rewrite fmap_cons. apply NoDup_cons. split.
    + intros (m' & E & Hm')%list_elem_of_fmap. apply Hm.
      assert (Eb : Model.brand m' = Model.brand m).
      { pose proof (Hb m ltac:(now left)) as E1. pose proof (Hb m' ltac:(now right)) as E2.
        congruence. }
      destruct m as [b n], m' as [b' n']. cbn in *. now subst.
    + apply IH. intros x Hx. apply Hb. now right.
  - intros s b Hb Nb Ns. apply modelOptions_iff. exists b.
    rewrite currentBrand_quickAddModel. split; [exact Hb|].
    rewrite models_quickAddModel, Hb. cbn [Js.truthy_opt default].
    rewrite (proj2 (truthy_true _) Nb), (proj2 (truthy_true _) Ns). cbn [andb].
    destruct (List.find _ (Assets.models st)) eqn:Ef.
    + now apply find_model_Some in Ef.
    + apply elem_of_app. right. now left.
Qed.

Lemma modelOptions_of_the_brand_witness :
  Js.trim " MX500 "
  ∈ modelOptions
      (quickAddModel " MX500 "
         (Assets.setForm (Assets.with_brand "Philips" Assets.blank) (Examples.assets_state []))).
Proof.
  apply (proj2 (proj2 (modelOptions_of_the_brand
                         (Assets.setForm (Assets.with_brand "Philips" Assets.blank)
                            (Examples.assets_state [])))) " MX500 " "Philips").
  - reflexivity.
  - discriminate.
  - intros E. vm_compute in E. discriminate.
Defined.

(** The options under Philips, before and after a quick-add. *)
Example modelOptions_run :
  modelOptions (Assets.setForm (Assets.with_brand "Philips" Assets.blank) (Examples.assets_state []))
  = ["MX450"]
  /\ modelOptions
       (quickAddModel " MX500 "
          (Assets.setForm (Assets.with_brand "Philips" Assets.blank) (Examples.assets_state [])))
     = ["MX450"; "MX500"]
  /\ modelOptions (Assets.setForm (Assets.with_brand "GE" Assets.blank) (Examples.assets_state []))
     = [].
Proof. repeat split. Qed.

(** ** The checks of a registration, in their order *)

Section SubmitOrder.
Context `{Runtime}.

(** X21. [Assets.submit] reports the first check that fails, in the order
    required fields, [asset_id], [id_code], [serial], and then changes
    nothing but the error: the form keeps what was typed.  When every check
    passes the payload is put in front of the collection, with its price
    [null] for a blank price input and the number of the input otherwise,
    the error is cleared and the form is blank again. *)
Theorem submit_checks_in_order (st : Assets.State) :
  (missing_required (Assets.form st) ->
   Assets.submit st = Assets.setErr Assets.err_required st)
  /\ (~ missing_required (Assets.form st) ->
      (Assets.asset_id (Assets.form st) ∈ (Asset.asset_id <$> Assets.assets st)) ->
      Assets.submit st = Assets.setErr Assets.err_asset_id st)
  /\ (~ missing_required (Assets.form st) ->
      (Assets.asset_id (Assets.form st) ∉ (Asset.asset_id <$> Assets.assets st)) ->
      (Assets.id_code (Assets.form st) ∈ (Asset.id_code <$> Assets.assets st)) ->
      Assets.submit st = Assets.setErr Assets.err_id_code st)
  /\ (~ missing_required (Assets.form st) ->
      (Assets.asset_id (Assets.form st) ∉ (Asset.asset_id <$> Assets.assets st)) ->
      (Assets.id_code (Assets.form st) ∉ (Asset.id_code <$> Assets.assets st)) ->
      (Assets.serial (Assets.form st) ∈ (Asset.serial <$> Assets.assets st)) ->
      Assets.submit st = Assets.setErr Assets.err_serial st)
  /\ (~ missing_required (Assets.form st) ->
      (Assets.asset_id (Assets.form st) ∉ (Asset.asset_id <$> Assets.assets st)) ->
      (Assets.id_code (Assets.form st) ∉ (Asset.id_code <$> Assets.assets st)) ->
      (Assets.serial (Assets.form st) ∉ (Asset.serial <$> Assets.assets st)) ->
      Assets.submit st
      = Assets.setForm Assets.blank
          (Assets.setAssets (Assets.payload_of (Assets.form st) :: Assets.assets st)
             (Assets.setErr "" st))
      /\ Asset.price (Assets.payload_of (Assets.form st))
         = if Js.truthy (Assets.price (Assets.form st))
           then Some (Number (Assets.price (Assets.form st))) else None).
Proof.
  destruct st as [brands models vendors assets f err editingId editForm ab nb am nm av nv al].
  unfold Assets.submit, App.createAsset, missing_required.
  cbn [Assets.form Assets.assets Assets.setErr Assets.setForm Assets.setAssets].
  assert (Hreq : ~ (Assets.asset_id f = "" \/ Assets.id_code f = "" \/ Assets.name f = ""
                    \/ Assets.serial f = "") ->
                 negb (Js.truthy (Assets.asset_id f)) || negb (Js.truthy (Assets.id_code f))
                 || negb (Js.truthy (Assets.name f)) || negb (Js.truthy (Assets.serial f))
                 = false).
  { intros Hm.
    destruct (Js.truthy (Assets.asset_id f)) eqn:E1; [|apply truthy_false in E1; tauto].
    destruct (Js.truthy (Assets.id_code f)) eqn:E2; [|apply truthy_false in E2; tauto].
    destruct (Js.truthy (Assets.name f)) eqn:E3; [|apply truthy_false in E3; tauto].
    destruct (Js.truthy (Assets.serial f)) eqn:E4; [|apply truthy_false in E4; tauto].
    reflexivity. }
  split; [|split; [|split; [|split]]].
  - intros [E | [E | [E | E]]]; rewrite E; cbn; now rewrite ?orb_true_r.
  - intros Hm H1. rewrite (Hreq Hm). now rewrite (proj2 (existsb_key _ _ _) H1).
  - intros Hm H1 H2. rewrite (Hreq Hm).
    rewrite (proj2 (existsb_key_false Asset.asset_id _ _) H1).
    now rewrite (proj2 (existsb_key Asset.id_code _ _) H2).
  - intros Hm H1 H2 H3. rewrite (Hreq Hm).
    rewrite (proj2 (existsb_key_false Asset.asset_id _ _) H1).
    rewrite (proj2 (existsb_key_false Asset.id_code _ _) H2).
    now rewrite (proj2 (existsb_key Asset.serial _ _) H3).
  - intros Hm H1 H2 H3. rewrite (Hreq Hm).
    rewrite (proj2 (existsb_key_false Asset.asset_id _ _) H1).
    rewrite (proj2 (existsb_key_false Asset.id_code _ _) H2).
    rewrite (proj2 (existsb_key_false Asset.serial _ _) H3).
    split; reflexivity.
Qed.

End SubmitOrder.

Lemma submit_checks_in_order_witness :
  Assets.submit (H := example_host)
    (Assets.setForm Examples.clash_form (Examples.assets_state [Examples.pump; Examples.monitor]))
  = Assets.setErr Assets.err_id_code
      (Assets.setForm Examples.clash_form (Examples.assets_state [Examples.pump; Examples.monitor])).
Proof.
  apply (proj1 (proj2 (proj2 (submit_checks_in_order (H := example_host)
           (Assets.setForm Examples.clash_form
              (Examples.assets_state [Examples.pump; Examples.monitor]))))));
    cbn.
  - intros [E | [E | [E | E]]]; discriminate.
  - rewrite !elem_of_cons, elem_of_nil. intros [E | [E | []]]; discriminate.
  - now left.
Defined.
